(** * Network uptime monitor: a model of [Downtime-v2.py] and its properties

    The program probes connectivity in rounds, feeds every probe result to
    [NetworkMonitor.record_check], which classifies the link as online or
    offline with a threshold of consecutive failures, and prints a report
    when it is interrupted.

    Modelling decisions, all visible in the definitions below:
    - a [datetime] is an integer count of microseconds and a [timedelta] an
      integer number of microseconds, as CPython stores them; subtraction and
      [sum] of timedeltas are exact integer operations;
    - a Python [float] is a rational; every float operation rounds its exact
      result with [fl], a rounding operator about which only the laws of
      [FloatModel] are assumed (they hold for binary64 on the finite range);
    - [datetime.now()], [ping_host] and [test_dns_resolution] are answered by
      an environment [Env]: the n-th clock reading and the n-th probe reply;
    - exceptions ([ZeroDivisionError], [TypeError]) are outcomes of the
      monad [M], so "returns normally" is a statement that can be proved;
    - the log file and the CSV file receive the same events and are one list
      of rows; [strftime], float formatting and the assembling of the report
      text are not modelled: [generate_report] yields the computed figures. *)

From Stdlib Require Import ZArith QArith Qround Qminmax Qabs.
From Stdlib Require Import List String Ascii Bool Lia DecimalString.
Import ListNotations.

Local Open Scope string_scope.
Local Open Scope Z_scope.

(** ** Floats *)

Class FloatModel := {
  fl : Q -> Q;
  fl_proper : forall x y, (x == y)%Q -> (fl x == fl y)%Q;
  fl_mono : forall x y, (x <= y)%Q -> (fl x <= fl y)%Q;
  fl_int : forall n : Z, Z.abs n <= 2 ^ 53 -> (fl (inject_Z n) == inject_Z n)%Q;
  fl_microsecond : (0 < fl (1 # 1000000))%Q
}.

(** Rounding to the nearest multiple of 2^-40, ties upwards: a rounding
    operator that really rounds and satisfies the laws. *)
Definition grid : Q := inject_Z (2 ^ 40).
Definition round_grid (x : Q) : Q :=
  (inject_Z (Qfloor (x * grid + (1 # 2))) / grid)%Q.

(** ** Time *)

Definition datetime := Z.
Definition timedelta := Z.

(** ** Configuration constants *)

Definition PING_TARGETS : list string := ["8.8.8.8"; "1.1.1.1"; "208.67.222.222"].
Definition DNS_TEST_DOMAINS : list string := ["google.com"; "cloudflare.com"; "amazon.com"].
Definition CHECK_INTERVAL : Z := 2.
Definition PING_TIMEOUT : Z := 3.
Definition FAILURE_THRESHOLD : Z := 3.

(** ** Data *)

(** An entry of [self.outages]: a dict with keys start, end, duration and,
    for the record appended by [generate_report], ongoing.  [o_ongoing] is
    the truth value of [outage.get('ongoing')]: false when the key is absent. *)
Record Outage := mkOutage {
  o_start : datetime;
  o_end : datetime;
  o_duration : timedelta;
  o_ongoing : bool
}.

(** The attributes of a [NetworkMonitor] object. *)
Record MonitorState := mkMonitor {
  start_time : datetime;
  is_online : bool;
  current_outage_start : option datetime;
  consecutive_failures : Z;
  total_checks : Z;
  successful_checks : Z;
  failed_checks : Z;
  outages : list Outage;
  response_times : list Q
}.

(** A row written by [_log_event]; [row_response_time = None] is the empty cell. *)
Record LogRow := mkRow {
  row_timestamp : datetime;
  row_event_type : string;
  row_target : string;
  row_response_time : option Q;
  row_test_type : string;
  row_message : string
}.

(** Lines printed by the two transitions. *)
Inductive Notice :=
| OutageDetected (at_time : datetime)
| ConnectionRestored (at_time : datetime)
| OutageLasted (text : string).

(** What [ping_host] can return: (True, latency), (True, None), (False, None). *)
Inductive PingReply :=
| Replied (latency : option Q)
| NoReply.

Record Env := mkEnv {
  wall_clock : nat -> datetime;
  ping_reply : nat -> string -> PingReply;
  dns_reply : nat -> string -> bool
}.

(** A probe issued to the network: test type and target. *)
Record Probe := mkProbe {
  probe_type : string;
  probe_target : string
}.

Record World := mkWorld {
  env : Env;
  ticks : nat;
  probes : nat;
  monitor : MonitorState;
  events : list LogRow;
  console : list Notice;
  probe_trace : list Probe
}.

(** ** The monad of Python effects *)

Inductive exn := ZeroDivisionError | TypeError.

Inductive outcome (A : Type) :=
| Returns (a : A) (w : World)
| Raises (e : exn) (w : World).
Arguments Returns {A} a w.
Arguments Raises {A} e w.

Definition M (A : Type) := World -> outcome A.

Definition ret {A} (a : A) : M A := fun w => Returns a w.
Definition raise {A} (e : exn) : M A := fun w => Raises e w.
Definition bind {A B} (m : M A) (k : A -> M B) : M B :=
  fun w => match m w with
           | Returns a w' => k a w'
           | Raises e w' => Raises e w'
           end.

Declare Scope py_scope.
Delimit Scope py_scope with py.
Notation "x <- m ;; k" := (bind m (fun x => k))
  (at level 61, m at next level, right associativity) : py_scope.
Notation "m ;; k" := (bind m (fun _ => k))
  (at level 61, right associativity) : py_scope.
Local Open Scope py_scope.

(** The world an outcome leaves behind, whether it returned or raised. *)
Definition world_of {A} (o : outcome A) : World :=
  match o with
  | Returns _ w => w
  | Raises _ w => w
  end.

Definition returned {A} (o : outcome A) : bool :=
  match o with
  | Returns _ _ => true
  | Raises _ _ => false
  end.

Definition gets {A} (f : MonitorState -> A) : M A := fun w => Returns (f (monitor w)) w.

Definition set_monitor (m : MonitorState) (w : World) : World :=
  mkWorld (env w) (ticks w) (probes w) m (events w) (console w) (probe_trace w).

Definition update (f : MonitorState -> MonitorState) : M unit :=
  fun w => Returns tt (set_monitor (f (monitor w)) w).

(** [datetime.now()]: the next reading of the wall clock. *)
Definition datetime_now : M datetime :=
  fun w => Returns (wall_clock (env w) (ticks w))
             (mkWorld (env w) (S (ticks w)) (probes w) (monitor w) (events w)
                (console w) (probe_trace w)).

Definition append_row (r : LogRow) : M unit :=
  fun w => Returns tt
             (mkWorld (env w) (ticks w) (probes w) (monitor w) (events w ++ [r])
                (console w) (probe_trace w)).

Definition print (n : Notice) : M unit :=
  fun w => Returns tt
             (mkWorld (env w) (ticks w) (probes w) (monitor w) (events w)
                (console w ++ [n]) (probe_trace w)).

(** [time.sleep]: the passing of time shows in the clock readings only. *)
Definition time_sleep (seconds : Q) : M unit := ret tt.

(** Attribute assignments. *)
Definition set_is_online (b : bool) (m : MonitorState) : MonitorState :=
  mkMonitor (start_time m) b (current_outage_start m) (consecutive_failures m)
    (total_checks m) (successful_checks m) (failed_checks m) (outages m) (response_times m).
Definition set_current_outage_start (o : option datetime) (m : MonitorState) : MonitorState :=
  mkMonitor (start_time m) (is_online m) o (consecutive_failures m)
    (total_checks m) (successful_checks m) (failed_checks m) (outages m) (response_times m).
Definition set_consecutive_failures (n : Z) (m : MonitorState) : MonitorState :=
  mkMonitor (start_time m) (is_online m) (current_outage_start m) n
    (total_checks m) (successful_checks m) (failed_checks m) (outages m) (response_times m).
Definition set_total_checks (n : Z) (m : MonitorState) : MonitorState :=
  mkMonitor (start_time m) (is_online m) (current_outage_start m) (consecutive_failures m)
    n (successful_checks m) (failed_checks m) (outages m) (response_times m).
Definition set_successful_checks (n : Z) (m : MonitorState) : MonitorState :=
  mkMonitor (start_time m) (is_online m) (current_outage_start m) (consecutive_failures m)
    (total_checks m) n (failed_checks m) (outages m) (response_times m).
Definition set_failed_checks (n : Z) (m : MonitorState) : MonitorState :=
  mkMonitor (start_time m) (is_online m) (current_outage_start m) (consecutive_failures m)
    (total_checks m) (successful_checks m) n (outages m) (response_times m).
Definition set_outages (l : list Outage) (m : MonitorState) : MonitorState :=
  mkMonitor (start_time m) (is_online m) (current_outage_start m) (consecutive_failures m)
    (total_checks m) (successful_checks m) (failed_checks m) l (response_times m).
Definition set_response_times (l : list Q) (m : MonitorState) : MonitorState :=
  mkMonitor (start_time m) (is_online m) (current_outage_start m) (consecutive_failures m)
    (total_checks m) (successful_checks m) (failed_checks m) (outages m) l.

(** ** Python primitives *)

(** [str(n)] for an int. *)
Definition str (n : Z) : string := NilZero.string_of_int (Z.to_int n).

(** [" ".join(parts)]. *)
Definition join (parts : list string) : string := String.concat " " parts.

(** [a or b] on strings: the empty string is falsy. *)
Definition str_or (a b : string) : string :=
  match a with
  | EmptyString => b
  | _ => a
  end.

(** [response_time or ""]: [None] and [0.0] are falsy and give the empty cell. *)
Definition response_time_or_blank (r : option Q) : option Q :=
  match r with
  | Some x => if Qeq_bool x 0 then None else Some x
  | None => None
  end.

(** [int(x)] for a float: truncation towards zero. *)
Definition int_of_float (x : Q) : Z := Z.quot (Qnum x) (Z.pos (Qden x)).

(** [any(results)]. *)
Definition any (results : list bool) : bool := existsb (fun b => b) results.

(** [sum(..., timedelta())] over timedeltas. *)
Definition sum_timedelta (l : list timedelta) : timedelta :=
  fold_left Z.add l 0.

(** [0 < x] on floats. *)
Definition Qpositive (x : Q) : bool := negb (Qle_bool x 0).

Section Monitor.
Context {F : FloatModel}.

Definition float_of_int (n : Z) : Q := fl (inject_Z n).
Definition float_add (x y : Q) : Q := fl (x + y).
Definition float_mul (x y : Q) : Q := fl (x * y).

(** [x / y]: raises [ZeroDivisionError] on a zero divisor. *)
Definition truediv (x y : Q) : M Q :=
  if Qeq_bool y 0 then raise ZeroDivisionError else ret (fl (x / y)).

(** [sum(xs)] over floats, from the int 0. *)
Definition sum_float (xs : list Q) : Q := fold_left float_add xs 0%Q.

(** [max(xs)] and [min(xs)] of a list with head [x]. *)
Definition max_float (x : Q) (xs : list Q) : Q := fold_left Qmax xs x.
Definition min_float (x : Q) (xs : list Q) : Q := fold_left Qmin xs x.

(** [td.total_seconds()]: microseconds / 10**6 as a true division of ints. *)
Definition total_seconds (td : timedelta) : Q := fl (td # 1000000).

End Monitor.

(** ** The figures of a report *)

(** What [generate_report] computes and lays out as text. *)
Record Report := mkReport {
  r_end_time : datetime;
  r_total_runtime : timedelta;
  r_total_duration_text : string;
  r_successful_pct : option Q;
  r_failed_pct : option Q;
  r_avg_response_time : Q;
  r_total_uptime : timedelta;
  r_total_uptime_text : string;
  r_uptime_percentage : Q;
  r_total_outage_time : timedelta;
  r_total_downtime_text : string;
  r_number_of_outages : Z;
  r_outage_details : list Outage;
  r_outage_statistics : option (Q * Q * Q)
}.

(** ** class NetworkMonitor *)

Module NetworkMonitor.
Section Methods.
Context {F : FloatModel}.

(** Opening the CSV file with mode 'w' empties it; the header row is implicit. *)
Definition _init_csv : M unit :=
  fun w => Returns tt
             (mkWorld (env w) (ticks w) (probes w) (monitor w) []
                (console w) (probe_trace w)).

Definition _log_event (event_type message target : string)
    (response_time : option Q) (test_type : string) : M unit :=
  timestamp <- datetime_now ;;
  append_row (mkRow timestamp event_type target response_time test_type message).

Definition __init__ : M unit :=
  now <- datetime_now ;;
  update (fun _ => mkMonitor now true None 0 0 0 0 [] []) ;;
  _init_csv ;;
  _log_event "MONITOR_START" "Network monitoring started" "" None "".

Definition _format_duration (td : timedelta) : string :=
  let total_seconds := int_of_float (total_seconds td) in
  let hours := total_seconds / 3600 in
  let minutes := (total_seconds mod 3600) / 60 in
  let seconds := total_seconds mod 60 in
  let parts : list string := [] in
  let parts : list string := if 0 <? hours then (parts ++ [(str hours ++ "h")%string])%list else parts in
  let parts : list string := if 0 <? minutes then (parts ++ [(str minutes ++ "m")%string])%list else parts in
  let parts : list string := (parts ++ [(str seconds ++ "s")%string])%list in
  join parts.

Definition _transition_to_offline : M unit :=
  update (set_is_online false) ;;
  now <- datetime_now ;;
  update (set_current_outage_start (Some now)) ;;
  _log_event "OUTAGE_START"
    ("Network outage detected after " ++ str FAILURE_THRESHOLD ++ " consecutive failures")
    "" None "" ;;
  print (OutageDetected now).

(** [outage_end - self.current_outage_start] raises [TypeError] when the
    attribute is [None]. *)
Definition _transition_to_online : M unit :=
  update (set_is_online true) ;;
  outage_end <- datetime_now ;;
  current <- gets current_outage_start ;;
  match current with
  | None => raise TypeError
  | Some outage_start =>
      let duration := outage_end - outage_start in
      update (fun m => set_outages
                (outages m ++ [mkOutage outage_start outage_end duration false]) m) ;;
      _log_event "OUTAGE_END"
        ("Network restored. Outage duration: " ++ _format_duration duration)
        "" None "" ;;
      print (ConnectionRestored outage_end) ;;
      print (OutageLasted (_format_duration duration)) ;;
      update (set_current_outage_start None)
  end.

Definition record_check (success : bool) (target : string)
    (response_time : option Q) (test_type details : string) : M unit :=
  update (fun m => set_total_checks (total_checks m + 1) m) ;;
  if success then
    update (fun m => set_successful_checks (successful_checks m + 1) m) ;;
    update (set_consecutive_failures 0) ;;
    match response_time with
    | Some rt => update (fun m => set_response_times (response_times m ++ [rt]) m)
    | None => ret tt
    end ;;
    online <- gets is_online ;;
    (if negb online then _transition_to_online else ret tt) ;;
    _log_event "SUCCESS" (str_or details "Connection successful")
      target (response_time_or_blank response_time) test_type
  else
    update (fun m => set_failed_checks (failed_checks m + 1) m) ;;
    update (fun m => set_consecutive_failures (consecutive_failures m + 1) m) ;;
    _log_event "FAILURE" (str_or details "Connection failed") target None test_type ;;
    online <- gets is_online ;;
    failures <- gets consecutive_failures ;;
    if online && (FAILURE_THRESHOLD <=? failures)
    then _transition_to_offline
    else ret tt.

(** The percentage shown next to a counter, [None] for the plain "0" line. *)
Definition share_of_checks (count total : Z) : M (option Q) :=
  if 0 <? total then
    q <- truediv (inject_Z count) (inject_Z total) ;;
    ret (Some (float_mul q 100))
  else ret None.

(** Average, longest and shortest outage, when there are at least two. *)
Definition outage_statistics (os : list Outage) : M (option (Q * Q * Q)) :=
  if 1 <? Z.of_nat (List.length os) then
    match map (fun o => total_seconds (o_duration o)) os with
    | [] => ret None
    | d :: ds =>
        avg_outage <- truediv (sum_float (d :: ds)) (float_of_int (Z.of_nat (List.length (d :: ds)))) ;;
        ret (Some (avg_outage, max_float d ds, min_float d ds))
    end
  else ret None.

Definition generate_report : M Report :=
  end_time <- datetime_now ;;
  started <- gets start_time ;;
  let total_runtime := end_time - started in
  online <- gets is_online ;;
  current <- gets current_outage_start ;;
  match negb online, current with
  | true, Some outage_start =>
      let ongoing_duration := end_time - outage_start in
      update (fun m => set_outages
                (outages m ++ [mkOutage outage_start end_time ongoing_duration true]) m)
  | _, _ => ret tt
  end ;;
  recorded <- gets outages ;;
  let total_outage_time := sum_timedelta (map o_duration recorded) in
  let total_uptime := total_runtime - total_outage_time in
  uptime_percentage <-
    (if Qpositive (total_seconds total_runtime)
     then q <- truediv (total_seconds total_uptime) (total_seconds total_runtime) ;;
          ret (float_mul q 100)
     else ret 0%Q) ;;
  times <- gets response_times ;;
  avg_response_time <-
    match times with
    | [] => ret 0%Q
    | _ :: _ => truediv (sum_float times) (float_of_int (Z.of_nat (List.length times)))
    end ;;
  checks <- gets total_checks ;;
  good <- gets successful_checks ;;
  bad <- gets failed_checks ;;
  successful_pct <- share_of_checks good checks ;;
  failed_pct <- share_of_checks bad checks ;;
  statistics <- outage_statistics recorded ;;
  ret (mkReport end_time total_runtime (_format_duration total_runtime)
         successful_pct failed_pct avg_response_time
         total_uptime (_format_duration total_uptime) uptime_percentage
         total_outage_time (_format_duration total_outage_time)
         (Z.of_nat (List.length recorded)) recorded statistics).

End Methods.
End NetworkMonitor.

(** ** Probing *)

Section Driver.
Context {F : FloatModel}.

Definition next_probe (p : Probe) : M nat :=
  fun w => Returns (probes w)
             (mkWorld (env w) (ticks w) (S (probes w)) (monitor w) (events w)
                (console w) (probe_trace w ++ [p])).

(** [ping_host(host)]: the subprocess and the parsing of its output are the
    environment's; the three possible return values are kept. *)
Definition ping_host (host : string) : M (bool * option Q) :=
  n <- next_probe (mkProbe "ICMP_PING" host) ;;
  fun w => match ping_reply (env w) n host with
           | Replied latency => Returns (true, latency) w
           | NoReply => Returns (false, None) w
           end.

Definition test_dns_resolution (domain : string) : M bool :=
  n <- next_probe (mkProbe "DNS_RESOLUTION" domain) ;;
  fun w => Returns (dns_reply (env w) n domain) w.

(** The first loop of [perform_connectivity_test], with its [break]. *)
Fixpoint ping_loop (targets : list string) (results : list bool) : M (list bool) :=
  match targets with
  | [] => ret results
  | target :: rest =>
      reply <- ping_host target ;;
      let success := fst reply in
      let response_time := snd reply in
      let results := (results ++ [success])%list in
      NetworkMonitor.record_check success target response_time "ICMP_PING" "" ;;
      if success then ret results
      else time_sleep (1 # 2) ;; ping_loop rest results
  end.

(** The second loop, over [DNS_TEST_DOMAINS[:2]]. *)
Fixpoint dns_loop (domains : list string) (results : list bool) : M (list bool) :=
  match domains with
  | [] => ret results
  | domain :: rest =>
      success <- test_dns_resolution domain ;;
      let results := (results ++ [success])%list in
      NetworkMonitor.record_check success domain None "DNS_RESOLUTION" "" ;;
      if success then ret results
      else time_sleep (1 # 2) ;; dns_loop rest results
  end.

Definition perform_connectivity_test : M bool :=
  results <- ping_loop PING_TARGETS [] ;;
  results <- (if negb (any results)
              then dns_loop (firstn 2 DNS_TEST_DOMAINS) results
              else ret results) ;;
  ret (any results).

(** ** Runs *)

(** The arguments of one [record_check] call. *)
Record Check := mkCheck {
  c_success : bool;
  c_target : string;
  c_response_time : option Q;
  c_test_type : string;
  c_details : string
}.

Definition do_check (c : Check) : M unit :=
  NetworkMonitor.record_check (c_success c) (c_target c) (c_response_time c)
    (c_test_type c) (c_details c).

(** What happens to the monitor between its construction and the exit of
    the process: direct calls of [record_check], whole probing rounds, and
    report generation. *)
Inductive action :=
| ACheck (c : Check)
| ARound
| AReport.

Definition do_action (a : action) : M unit :=
  match a with
  | ACheck c => do_check c
  | ARound => _ <- perform_connectivity_test ;; ret tt
  | AReport => _ <- NetworkMonitor.generate_report ;; ret tt
  end.

Fixpoint do_actions (l : list action) : M unit :=
  match l with
  | [] => ret tt
  | a :: rest => do_action a ;; do_actions rest
  end.

Definition is_probing (a : action) : bool :=
  match a with
  | AReport => false
  | _ => true
  end.

(** The process before [monitor = NetworkMonitor()]: nothing read, nothing
    written, the attributes not yet assigned. *)
Definition boot (e : Env) : World :=
  mkWorld e 0 0 (mkMonitor 0 true None 0 0 0 0 [] []) [] [] [].

(** Construction of the monitor followed by the actions. *)
Definition run (e : Env) (l : list action) : outcome unit :=
  (NetworkMonitor.__init__ ;; do_actions l) (boot e).

End Driver.

(** ** Vocabulary of the properties *)

(** Exact arithmetic is a float model: nothing is rounded. *)
Definition exact_float : FloatModel :=
  {| fl := fun x => x;
     fl_proper := fun _ _ H => H;
     fl_mono := fun _ _ H => H;
     fl_int := fun n _ => Qeq_refl (inject_Z n);
     fl_microsecond := eq_refl |}.

(** [totalChecks == successfulChecks + failedChecks]. *)
Definition counts_ok (m : MonitorState) : Prop :=
  total_checks m = successful_checks m + failed_checks m.

(** [currentOutageStart] is set if and only if the monitor is offline. *)
Definition outage_start_ok (m : MonitorState) : Prop :=
  current_outage_start m <> None <-> is_online m = false.

(** The rows a step appended to the log, and their event types. *)
Definition new_events (before after : World) : list LogRow :=
  skipn (List.length (events before)) (events after).

Definition event_types (rows : list LogRow) : list string :=
  map row_event_type rows.

Definition count_events (event_type : string) (rows : list LogRow) : nat :=
  count_occ string_dec (event_types rows) event_type.

(** The outage records a step appended. *)
Definition new_outages (before after : World) : list Outage :=
  skipn (List.length (outages (monitor before))) (outages (monitor after)).

(** The probes a step issued. *)
Definition new_probes (before after : World) : list Probe :=
  skipn (List.length (probe_trace before)) (probe_trace after).

(** A wall clock that never goes back. *)
Definition monotone (clock : nat -> datetime) : Prop :=
  forall i j, (i <= j)%nat -> clock i <= clock j.

(** The record [generate_report] appends for an outage that is still open. *)
Definition ongoing_record (outage_start now : datetime) : Outage :=
  mkOutage outage_start now (now - outage_start) true.

Definition count_ongoing (l : list Outage) : nat :=
  List.length (filter o_ongoing l).

(** The outage time accounted for by the recorded outages. *)
Definition recorded_outage_time (m : MonitorState) : timedelta :=
  sum_timedelta (map o_duration (outages m)).

(** Recorded outages are intervals of non-negative length that lie, one after
    the other, between the start of monitoring and the readings the clock has
    yet to give; an open outage starts after them. *)
Definition timeline_ok (w : World) : Prop :=
  Forall (fun o => 0 <= o_duration o) (outages (monitor w)) /\
  match current_outage_start (monitor w) with
  | None =>
      forall i, (ticks w <= i)%nat ->
        start_time (monitor w) + recorded_outage_time (monitor w) <= wall_clock (env w) i
  | Some outage_start =>
      start_time (monitor w) + recorded_outage_time (monitor w) <= outage_start /\
      forall i, (ticks w <= i)%nat -> outage_start <= wall_clock (env w) i
  end.

(** Does the character occur in the string? *)
Fixpoint occurs (c : ascii) (s : string) : bool :=
  match s with
  | EmptyString => false
  | String a rest => Ascii.eqb a c || occurs c rest
  end.

(** The compact form of the specification, "Xh Ym Zs" with the zero-valued
    higher units left out. *)
Definition compact_form (hours minutes seconds : Z) : string :=
  match (0 <? hours)%Z, (0 <? minutes)%Z with
  | true, true => str hours ++ "h " ++ str minutes ++ "m " ++ str seconds ++ "s"
  | true, false => str hours ++ "h " ++ str seconds ++ "s"
  | false, true => str minutes ++ "m " ++ str seconds ++ "s"
  | false, false => str seconds ++ "s"
  end.

(** The mean of the specification: the sum divided by the number of samples,
    in float arithmetic. *)
Definition mean {F : FloatModel} (xs : list Q) : Q :=
  fl (sum_float xs / float_of_int (Z.of_nat (List.length xs))).

(** Did the host reply? *)
Definition replied (r : PingReply) : bool :=
  match r with
  | Replied _ => true
  | NoReply => false
  end.

(** What the environment would answer if [targets] were probed one after the
    other, the first as probe number [n]. *)
Fixpoint replies_from (answer : nat -> string -> bool) (n : nat) (targets : list string)
    : list bool :=
  match targets with
  | [] => []
  | target :: rest => answer n target :: replies_from answer (S n) rest
  end.

(** The answers a loop with [break] gets to see: up to and including the
    first success. *)
Fixpoint asked (replies : list bool) : list bool :=
  match replies with
  | [] => []
  | reply :: more => if reply then [true] else false :: asked more
  end.

(** The ping targets probed in a round: up to and including the first that
    replies. *)
Fixpoint pinged (replies : list bool) (targets : list string) : list string :=
  match targets, replies with
  | target :: rest, reply :: more =>
      if reply then [target] else target :: pinged more rest
  | _, _ => []
  end.

(** A sequence of [record_check] calls. *)
Definition do_checks {F : FloatModel} (cs : list Check) : M unit :=
  do_actions (map ACheck cs).

Definition all_failed (cs : list Check) : bool :=
  forallb (fun c => negb (c_success c)) cs.

(** The monitor went from offline to online, or from online to offline. *)
Definition went_online (before after : World) : Prop :=
  is_online (monitor before) = false /\ is_online (monitor after) = true.

Definition went_offline (before after : World) : Prop :=
  is_online (monitor before) = true /\ is_online (monitor after) = false.

(** The response times after a successful check. *)
Definition with_sample (r : option Q) (l : list Q) : list Q :=
  match r with
  | Some rt => l ++ [rt]
  | None => l
  end.

(** The monitor after a report generated at [now]. *)
Definition monitor_at_report (m : MonitorState) (now : datetime) : MonitorState :=
  match negb (is_online m), current_outage_start m with
  | true, Some outage_start =>
      set_outages (outages m ++ [ongoing_record outage_start now]) m
  | _, _ => m
  end.

Definition after_report (w : World) : World :=
  mkWorld (env w) (S (ticks w)) (probes w)
    (monitor_at_report (monitor w) (wall_clock (env w) (ticks w)))
    (events w) (console w) (probe_trace w).

(** The uptime percentage for a given runtime and outage time. *)
Definition uptime_percentage_of {F : FloatModel} (total_runtime total_outage_time : timedelta) : Q :=
  if Qpositive (total_seconds total_runtime)
  then float_mul (fl (total_seconds (total_runtime - total_outage_time) /
                      total_seconds total_runtime)) 100
  else 0%Q.

(** The two invariants of the attributes. *)
Definition sound (m : MonitorState) : Prop := counts_ok m /\ outage_start_ok m.

(** A world whose clock never goes back and whose monitor is consistent with
    the clock readings. *)
Definition steady (w : World) : Prop :=
  monotone (wall_clock (env w)) /\ sound (monitor w) /\ timeline_ok w.

(** The world after a probe was issued. *)
Definition probed (w : World) (p : Probe) : World :=
  mkWorld (env w) (ticks w) (S (probes w)) (monitor w) (events w) (console w)
    (probe_trace w ++ [p]).

(** What one [record_check] call does about going online, from a monitor
    that satisfies the attribute invariants. *)
Definition closes_outage_iff (w : World) (c : Check) (w' : World) : Prop :=
  (went_online w w' <-> is_online (monitor w) = false /\ c_success c = true) /\
  (In "OUTAGE_END" (event_types (new_events w w')) <-> went_online w w') /\
  (went_online w w' ->
     exists o,
       new_outages w w' = [o] /\
       o_duration o = o_end o - o_start o /\
       current_outage_start (monitor w) = Some (o_start o) /\
       o_end o = wall_clock (env w) (ticks w) /\
       o_ongoing o = false) /\
  (~ went_online w w' -> new_outages w w' = []).

(** The letters of the unit suffixes. *)
Definition unit_letter (c : ascii) : Prop := c = "h"%char \/ c = "m"%char \/ c = "s"%char.

(** The report generation of the specification, at a state [w]: the report
    lists exactly one ongoing record, which ends at the time of the report
    and lasts since the outage started; the monitor's own outage list is
    left as it was; and a second report, generated while the outage is still
    open, again lists exactly one ongoing record. *)
Definition report_on_a_snapshot {F : FloatModel} (w : World) : Prop :=
  forall r1 w1,
    NetworkMonitor.generate_report w = Returns r1 w1 ->
    (exists o,
        filter o_ongoing (r_outage_details r1) = [o] /\
        o_end o = r_end_time r1 /\
        current_outage_start (monitor w) = Some (o_start o) /\
        o_duration o = r_end_time r1 - o_start o) /\
    outages (monitor w1) = outages (monitor w) /\
    forall r2 w2,
      NetworkMonitor.generate_report w1 = Returns r2 w2 ->
      count_ongoing (r_outage_details r2) = 1%nat.

(** The uptime percentage of the specification, at a state [w]: a report
    with a positive total runtime shows a percentage between 0 and 100, and
    exactly 100 when it lists no outage. *)
Definition uptime_within_0_100 {F : FloatModel} (w : World) : Prop :=
  forall r w',
    NetworkMonitor.generate_report w = Returns r w' ->
    0 < r_total_runtime r ->
    (0 <= r_uptime_percentage r <= 100)%Q /\
    (r_outage_details r = [] -> (r_uptime_percentage r == 100)%Q).

(** The world right after [monitor = NetworkMonitor()]. *)
Definition started (e : Env) : World :=
  mkWorld e 2 0 (mkMonitor (wall_clock e 0) true None 0 0 0 0 [] [])
    [mkRow (wall_clock e 1) "MONITOR_START" "" None "" "Network monitoring started"]
    [] [].

(** An environment for the examples: the clock advances one second per
    reading; the first three probes get no reply, later ones reply in 12.5 ms;
    names resolve. *)
Definition demo_env : Env :=
  mkEnv (fun n => 1000000 * Z.of_nat n)
        (fun n _ => if (n <? 3)%nat then NoReply else Replied (Some (25 # 2)%Q))
        (fun _ _ => true).

(** The same clock, set back by three seconds before its eighth reading (as
    when the system time is corrected); no probe is answered. *)
Definition set_back_env : Env :=
  mkEnv (fun n => if (n <? 7)%nat then 1000000 * Z.of_nat n
                  else 1000000 * (Z.of_nat n - 3))
        (fun _ _ => NoReply)
        (fun _ _ => false).

Definition failed_check : Check := mkCheck false "8.8.8.8" None "ICMP_PING" "".
Definition good_check : Check := mkCheck true "8.8.8.8" (Some (25 # 2)%Q) "ICMP_PING" "".

(** What one returning [record_check] call does, case by case: the world it
    leaves for each of the four paths through the method. *)
Inductive check_step {F : FloatModel} (w : World) (target : string) (r : option Q)
    (test_type details : string) : bool -> World -> Prop :=
| step_success_online :
    is_online (monitor w) = true ->
    check_step w target r test_type details true
      (mkWorld (env w) (S (ticks w)) (probes w)
         (mkMonitor (start_time (monitor w)) true (current_outage_start (monitor w)) 0
            (total_checks (monitor w) + 1) (successful_checks (monitor w) + 1)
            (failed_checks (monitor w)) (outages (monitor w))
            (with_sample r (response_times (monitor w))))
         (events w ++
            [mkRow (wall_clock (env w) (ticks w)) "SUCCESS" target
               (response_time_or_blank r) test_type (str_or details "Connection successful")])
         (console w) (probe_trace w))
| step_success_offline outage_start :
    is_online (monitor w) = false ->
    current_outage_start (monitor w) = Some outage_start ->
    check_step w target r test_type details true
      (mkWorld (env w) (S (S (S (ticks w)))) (probes w)
         (mkMonitor (start_time (monitor w)) true None 0
            (total_checks (monitor w) + 1) (successful_checks (monitor w) + 1)
            (failed_checks (monitor w))
            (outages (monitor w) ++
               [mkOutage outage_start (wall_clock (env w) (ticks w))
                  (wall_clock (env w) (ticks w) - outage_start) false])
            (with_sample r (response_times (monitor w))))
         (events w ++
            [mkRow (wall_clock (env w) (S (ticks w))) "OUTAGE_END" "" None ""
               ("Network restored. Outage duration: " ++
                NetworkMonitor._format_duration (wall_clock (env w) (ticks w) - outage_start));
             mkRow (wall_clock (env w) (S (S (ticks w)))) "SUCCESS" target
               (response_time_or_blank r) test_type (str_or details "Connection successful")])
         (console w ++
            [ConnectionRestored (wall_clock (env w) (ticks w));
             OutageLasted
               (NetworkMonitor._format_duration (wall_clock (env w) (ticks w) - outage_start))])
         (probe_trace w))
| step_failure_below :
    is_online (monitor w) && (FAILURE_THRESHOLD <=? consecutive_failures (monitor w) + 1) = false ->
    check_step w target r test_type details false
      (mkWorld (env w) (S (ticks w)) (probes w)
         (mkMonitor (start_time (monitor w)) (is_online (monitor w))
            (current_outage_start (monitor w)) (consecutive_failures (monitor w) + 1)
            (total_checks (monitor w) + 1) (successful_checks (monitor w))
            (failed_checks (monitor w) + 1) (outages (monitor w))
            (response_times (monitor w)))
         (events w ++
            [mkRow (wall_clock (env w) (ticks w)) "FAILURE" target None test_type
               (str_or details "Connection failed")])
         (console w) (probe_trace w))
| step_failure_threshold :
    is_online (monitor w) = true ->
    FAILURE_THRESHOLD <= consecutive_failures (monitor w) + 1 ->
    check_step w target r test_type details false
      (mkWorld (env w) (S (S (S (ticks w)))) (probes w)
         (mkMonitor (start_time (monitor w)) false (Some (wall_clock (env w) (S (ticks w))))
            (consecutive_failures (monitor w) + 1)
            (total_checks (monitor w) + 1) (successful_checks (monitor w))
            (failed_checks (monitor w) + 1) (outages (monitor w))
            (response_times (monitor w)))
         (events w ++
            [mkRow (wall_clock (env w) (ticks w)) "FAILURE" target None test_type
               (str_or details "Connection failed");
             mkRow (wall_clock (env w) (S (S (ticks w)))) "OUTAGE_START" "" None ""
               "Network outage detected after 3 consecutive failures"])
         (console w ++ [OutageDetected (wall_clock (env w) (S (ticks w)))]) (probe_trace w)).

(** The failure counter agrees with the classification: below the threshold
    while online, at or above it while offline. *)
Definition failures_ok (m : MonitorState) : Prop :=
  0 <= consecutive_failures m /\
  (is_online m = true -> consecutive_failures m < FAILURE_THRESHOLD) /\
  (is_online m = false -> FAILURE_THRESHOLD <= consecutive_failures m).

(** [after] continues [before]: the environment and the start of monitoring
    are the same, no clock reading or probe is taken back, no counter goes
    down, and everything recorded so far is still there, in the same order,
    possibly followed by more. *)
Definition continues (before after : World) : Prop :=
  env after = env before /\
  start_time (monitor after) = start_time (monitor before) /\
  (ticks before <= ticks after)%nat /\
  (probes before <= probes after)%nat /\
  total_checks (monitor before) <= total_checks (monitor after) /\
  successful_checks (monitor before) <= successful_checks (monitor after) /\
  failed_checks (monitor before) <= failed_checks (monitor after) /\
  (exists rows, events after = (events before ++ rows)%list) /\
  (exists os, outages (monitor after) = (outages (monitor before) ++ os)%list) /\
  (exists rts,
      response_times (monitor after) = (response_times (monitor before) ++ rts)%list) /\
  (exists ns, console after = (console before ++ ns)%list) /\
  (exists ps, probe_trace after = (probe_trace before ++ ps)%list).

(** No streak of failed checks in [cs], counting the [pending] failures
    that precede it, reaches FAILURE_THRESHOLD. *)
Fixpoint below_threshold (pending : Z) (cs : list Check) : bool :=
  match cs with
  | [] => true
  | c :: rest =>
      if c_success c then below_threshold 0 rest
      else (pending + 1 <? FAILURE_THRESHOLD) && below_threshold (pending + 1) rest
  end.

(** An isolated failure between two successes, as the probes report it. *)
Definition flaky_checks : list Check :=
  [good_check; failed_check; good_check; failed_check; failed_check; good_check].

(** The outage records that a transition closed, as opposed to the ones a
    report added for an outage still open. *)
Definition closed_outages (l : list Outage) : list Outage :=
  filter (fun o => negb (o_ongoing o)) l.

Definition is_detected (n : Notice) : bool :=
  match n with
  | OutageDetected _ => true
  | _ => false
  end.

Definition is_restored (n : Notice) : bool :=
  match n with
  | ConnectionRestored _ => true
  | _ => false
  end.

(** The log agrees with the counters. *)
Definition log_counts_ok (w : World) : Prop :=
  count_events "MONITOR_START" (events w) = 1%nat /\
  Z.of_nat (count_events "SUCCESS" (events w)) = successful_checks (monitor w) /\
  Z.of_nat (count_events "FAILURE" (events w)) = failed_checks (monitor w).

(** The log and the console agree with the outages. *)
Definition log_outages_ok (w : World) : Prop :=
  count_events "OUTAGE_END" (events w) = List.length (closed_outages (outages (monitor w))) /\
  count_events "OUTAGE_START" (events w) =
    (count_events "OUTAGE_END" (events w) + if is_online (monitor w) then 0 else 1)%nat /\
  List.length (filter is_detected (console w)) = count_events "OUTAGE_START" (events w) /\
  List.length (filter is_restored (console w)) = count_events "OUTAGE_END" (events w).

(** Instants in ascending order, none before [from]. *)
Fixpoint ascending (from : datetime) (l : list datetime) : Prop :=
  match l with
  | [] => True
  | x :: rest => from <= x /\ ascending x rest
  end.

(** The last of the instants, [from] if there is none. *)
Definition latest (from : datetime) (l : list datetime) : datetime := last l from.

(** Start and end of each outage, in the order of the list. *)
Definition outage_bounds (l : list Outage) : list datetime :=
  flat_map (fun o => [o_start o; o_end o]) l.

(** The closed outages lie one after the other after the start of
    monitoring; the open outage, if any, starts after them; and the clock
    readings still to come are later than all of them. *)
Definition outages_in_order (w : World) : Prop :=
  let bounds := outage_bounds (closed_outages (outages (monitor w))) in
  ascending (start_time (monitor w)) bounds /\
  match current_outage_start (monitor w) with
  | None =>
      forall i, (ticks w <= i)%nat ->
        latest (start_time (monitor w)) bounds <= wall_clock (env w) i
  | Some outage_start =>
      latest (start_time (monitor w)) bounds <= outage_start /\
      forall i, (ticks w <= i)%nat -> outage_start <= wall_clock (env w) i
  end.

(** The rows of the log are in the order of their timestamps, none before
    the start of monitoring and none after the readings still to come. *)
Definition log_in_order (w : World) : Prop :=
  let stamps := map row_timestamp (events w) in
  ascending (start_time (monitor w)) stamps /\
  forall i, (ticks w <= i)%nat ->
    latest (start_time (monitor w)) stamps <= wall_clock (env w) i.

(** The rows that [record_check] writes for the check itself. *)
Definition is_check_row (r : LogRow) : bool :=
  String.eqb (row_event_type r) "SUCCESS" || String.eqb (row_event_type r) "FAILURE".

(** The probes that the log tells of: test type and target of each check row. *)
Definition logged_probes (rows : list LogRow) : list Probe :=
  map (fun r => mkProbe (row_test_type r) (row_target r)) (filter is_check_row rows).

(** What a probing loop over [targets] with answers [replies] does to the
    world: it issues and logs the probes up to the first success, counts
    them, and leaves the monitor online after a success and with all the
    failures counted otherwise. *)
Definition loop_effect (test_type : string) (targets : list string) (replies : list bool)
    (w w' : World) : Prop :=
  env w' = env w /\
  probes w' = (probes w + List.length (asked replies))%nat /\
  probe_trace w' = (probe_trace w ++ map (mkProbe test_type) (pinged replies targets))%list /\
  (exists rows,
      events w' = (events w ++ rows)%list /\
      logged_probes rows = map (mkProbe test_type) (pinged replies targets)) /\
  total_checks (monitor w') =
    total_checks (monitor w) + Z.of_nat (List.length (pinged replies targets)) /\
  (any replies = true -> is_online (monitor w') = true) /\
  (any replies = false ->
     consecutive_failures (monitor w') =
       consecutive_failures (monitor w) + Z.of_nat (List.length targets) /\
     (is_online (monitor w) = false -> is_online (monitor w') = false)).

(** * Properties *)

Local Open Scope list_scope.

(** Reduce the projections of explicit worlds and monitors, nothing else. *)
Ltac project :=
  cbn [env ticks probes monitor events console probe_trace
       start_time is_online current_outage_start consecutive_failures
       total_checks successful_checks failed_checks outages response_times
       o_start o_end o_duration o_ongoing] in *.

(** ** Float models *)

Lemma Qfloor_half (k : Z) : Qfloor (inject_Z k + (1 # 2)) = k.
Proof.
  pose proof (Qfloor_le (inject_Z k + (1 # 2))) as Hlo.
  pose proof (Qlt_floor (inject_Z k + (1 # 2))) as Hhi.
  revert Hlo Hhi. generalize (Qfloor (inject_Z k + (1 # 2))). intros f.
  unfold Qle, Qlt. cbn. lia.
Qed.

Lemma round_grid_proper x y : (x == y)%Q -> (round_grid x == round_grid y)%Q.
Proof.
  intros H. unfold round_grid.
  rewrite (Qfloor_comp (x * grid + (1 # 2)) (y * grid + (1 # 2))).
  - reflexivity.
  - rewrite H. reflexivity.
Qed.

Lemma round_grid_mono x y : (x <= y)%Q -> (round_grid x <= round_grid y)%Q.
Proof.
  intros H. unfold round_grid, Qdiv.
  apply Qmult_le_compat_r; [| discriminate].
  rewrite <- Zle_Qle. apply Qfloor_resp_le.
  apply Qplus_le_compat; [| apply Qle_refl].
  apply Qmult_le_compat_r; [exact H | discriminate].
Qed.

Lemma round_grid_int (n : Z) : (round_grid (inject_Z n) == inject_Z n)%Q.
Proof.
  unfold round_grid, grid.
  rewrite <- inject_Z_mult, Qfloor_half, inject_Z_mult.
  apply Qdiv_mult_l. discriminate.
Qed.

Lemma round_grid_microsecond : (0 < round_grid (1 # 1000000))%Q.
Proof. vm_compute. reflexivity. Qed.

(** The grid rounding is a float model too. *)
Definition grid_float : FloatModel :=
  {| fl := round_grid;
     fl_proper := round_grid_proper;
     fl_mono := round_grid_mono;
     fl_int := fun n _ => round_grid_int n;
     fl_microsecond := round_grid_microsecond |}.

Section FloatFacts.
Context {F : FloatModel}.

Lemma fl_0 : (fl 0 == 0)%Q.
Proof. apply (fl_int 0). vm_compute. discriminate. Qed.

Lemma fl_1 : (fl 1 == 1)%Q.
Proof. apply (fl_int 1). vm_compute. discriminate. Qed.

Lemma fl_100 : (fl 100 == 100)%Q.
Proof. apply (fl_int 100). vm_compute. discriminate. Qed.

Lemma fl_nonneg x : (0 <= x)%Q -> (0 <= fl x)%Q.
Proof. intros H. rewrite <- fl_0. apply fl_mono, H. Qed.

Lemma fl_nonpos x : (x <= 0)%Q -> (fl x <= 0)%Q.
Proof. intros H. rewrite <- fl_0. apply fl_mono, H. Qed.

Lemma total_seconds_mono a b : a <= b -> (total_seconds a <= total_seconds b)%Q.
Proof.
  intros H. apply fl_mono. unfold Qle. cbn. lia.
Qed.

Lemma total_seconds_nonneg td : 0 <= td -> (0 <= total_seconds td)%Q.
Proof. intros H. apply fl_nonneg. unfold Qle. cbn. lia. Qed.

Lemma total_seconds_nonpos td : td <= 0 -> (total_seconds td <= 0)%Q.
Proof. intros H. apply fl_nonpos. unfold Qle. cbn. lia. Qed.

Lemma total_seconds_pos td : 0 < td -> (0 < total_seconds td)%Q.
Proof.
  intros H. eapply Qlt_le_trans; [apply fl_microsecond |].
  apply fl_mono. unfold Qle. cbn. lia.
Qed.

Lemma Qpositive_true x : Qpositive x = true <-> (0 < x)%Q.
Proof.
  unfold Qpositive. rewrite negb_true_iff.
  split; intros H.
  - apply Qnot_le_lt. intros Hle. apply Qle_bool_iff in Hle. congruence.
  - destruct (Qle_bool x 0) eqn:E; [| reflexivity].
    apply Qle_bool_iff in E. exfalso. exact (Qlt_not_le _ _ H E).
Qed.

Lemma Qpositive_false x : Qpositive x = false <-> (x <= 0)%Q.
Proof.
  unfold Qpositive. rewrite negb_false_iff. apply Qle_bool_iff.
Qed.

End FloatFacts.

(** ** The four cases of [record_check] *)

Section RecordCheck.
Context {F : FloatModel}.

Lemma record_check_success_online w target r test_type details :
  is_online (monitor w) = true ->
  NetworkMonitor.record_check true target r test_type details w =
  Returns tt
    (mkWorld (env w) (S (ticks w)) (probes w)
       (mkMonitor (start_time (monitor w)) true (current_outage_start (monitor w)) 0
          (total_checks (monitor w) + 1) (successful_checks (monitor w) + 1)
          (failed_checks (monitor w)) (outages (monitor w))
          (with_sample r (response_times (monitor w))))
       (events w ++
          [mkRow (wall_clock (env w) (ticks w)) "SUCCESS" target
             (response_time_or_blank r) test_type (str_or details "Connection successful")])
       (console w) (probe_trace w)).
Proof.
  destruct w as [e tk p [st on cur cf tc sc fc os rts] ev co tr]. cbn.
  intros ->. destruct r; reflexivity.
Qed.

Lemma record_check_success_offline w target r test_type details outage_start :
  is_online (monitor w) = false ->
  current_outage_start (monitor w) = Some outage_start ->
  let outage_end := wall_clock (env w) (ticks w) in
  let duration := outage_end - outage_start in
  NetworkMonitor.record_check true target r test_type details w =
  Returns tt
    (mkWorld (env w) (S (S (S (ticks w)))) (probes w)
       (mkMonitor (start_time (monitor w)) true None 0
          (total_checks (monitor w) + 1) (successful_checks (monitor w) + 1)
          (failed_checks (monitor w))
          (outages (monitor w) ++ [mkOutage outage_start outage_end duration false])
          (with_sample r (response_times (monitor w))))
       (events w ++
          [mkRow (wall_clock (env w) (S (ticks w))) "OUTAGE_END" "" None ""
             ("Network restored. Outage duration: " ++
              NetworkMonitor._format_duration duration);
           mkRow (wall_clock (env w) (S (S (ticks w)))) "SUCCESS" target
             (response_time_or_blank r) test_type (str_or details "Connection successful")])
       (console w ++
          [ConnectionRestored outage_end;
           OutageLasted (NetworkMonitor._format_duration duration)])
       (probe_trace w)).
Proof.
  destruct w as [e tk p [st on cur cf tc sc fc os rts] ev co tr]. cbn.
  intros -> ->.
  unfold NetworkMonitor.record_check, NetworkMonitor._transition_to_online,
    NetworkMonitor._log_event, bind, update, gets, datetime_now, append_row, print.
  destruct r; cbn; rewrite <- !app_assoc; reflexivity.
Qed.

Lemma record_check_success_unset w target r test_type details :
  is_online (monitor w) = false ->
  current_outage_start (monitor w) = None ->
  NetworkMonitor.record_check true target r test_type details w =
  Raises TypeError
    (mkWorld (env w) (S (ticks w)) (probes w)
       (mkMonitor (start_time (monitor w)) true None 0
          (total_checks (monitor w) + 1) (successful_checks (monitor w) + 1)
          (failed_checks (monitor w)) (outages (monitor w))
          (with_sample r (response_times (monitor w))))
       (events w) (console w) (probe_trace w)).
Proof.
  destruct w as [e tk p [st on cur cf tc sc fc os rts] ev co tr]. cbn.
  intros -> ->. destruct r; reflexivity.
Qed.

Lemma record_check_failure_below w target r test_type details :
  is_online (monitor w) && (FAILURE_THRESHOLD <=? consecutive_failures (monitor w) + 1) = false ->
  NetworkMonitor.record_check false target r test_type details w =
  Returns tt
    (mkWorld (env w) (S (ticks w)) (probes w)
       (mkMonitor (start_time (monitor w)) (is_online (monitor w))
          (current_outage_start (monitor w)) (consecutive_failures (monitor w) + 1)
          (total_checks (monitor w) + 1) (successful_checks (monitor w))
          (failed_checks (monitor w) + 1) (outages (monitor w))
          (response_times (monitor w)))
       (events w ++
          [mkRow (wall_clock (env w) (ticks w)) "FAILURE" target None test_type
             (str_or details "Connection failed")])
       (console w) (probe_trace w)).
Proof.
  destruct w as [e tk p [st on cur cf tc sc fc os rts] ev co tr]. cbn [monitor is_online consecutive_failures].
  intros H.
  unfold NetworkMonitor.record_check, NetworkMonitor._transition_to_offline,
    NetworkMonitor._log_event, bind, update, gets, datetime_now, append_row, print.
  cbn -[Z.leb FAILURE_THRESHOLD]. rewrite H. reflexivity.
Qed.

Lemma record_check_failure_threshold w target r test_type details :
  is_online (monitor w) = true ->
  FAILURE_THRESHOLD <= consecutive_failures (monitor w) + 1 ->
  let outage_start := wall_clock (env w) (S (ticks w)) in
  NetworkMonitor.record_check false target r test_type details w =
  Returns tt
    (mkWorld (env w) (S (S (S (ticks w)))) (probes w)
       (mkMonitor (start_time (monitor w)) false (Some outage_start)
          (consecutive_failures (monitor w) + 1)
          (total_checks (monitor w) + 1) (successful_checks (monitor w))
          (failed_checks (monitor w) + 1) (outages (monitor w))
          (response_times (monitor w)))
       (events w ++
          [mkRow (wall_clock (env w) (ticks w)) "FAILURE" target None test_type
             (str_or details "Connection failed");
           mkRow (wall_clock (env w) (S (S (ticks w)))) "OUTAGE_START" "" None ""
             "Network outage detected after 3 consecutive failures"])
       (console w ++ [OutageDetected outage_start]) (probe_trace w)).
Proof.
  destruct w as [e tk p [st on cur cf tc sc fc os rts] ev co tr]. cbn [monitor is_online consecutive_failures].
  intros -> H. apply Z.leb_le in H.
  unfold NetworkMonitor.record_check, NetworkMonitor._transition_to_offline,
    NetworkMonitor._log_event, bind, update, gets, datetime_now, append_row, print.
  cbn -[Z.leb FAILURE_THRESHOLD]. rewrite H. cbn. rewrite <- !app_assoc. reflexivity.
Qed.

End RecordCheck.

(** ** Divisions that cannot fail *)

Section Divisions.
Context {F : FloatModel}.

Lemma bind_returns {A B} (m : M A) (k : A -> M B) w a w' :
  m w = Returns a w' -> bind m k w = k a w'.
Proof. unfold bind. intros ->. reflexivity. Qed.

Lemma truediv_returns x y w :
  ~ (y == 0)%Q -> truediv x y w = Returns (fl (x / y)) w.
Proof.
  intros H. unfold truediv.
  destruct (Qeq_bool y 0) eqn:E; [| reflexivity].
  apply Qeq_bool_iff in E. contradiction.
Qed.

Lemma truediv_by_zero x y w :
  (y == 0)%Q -> truediv x y w = Raises ZeroDivisionError w.
Proof.
  intros H. unfold truediv. apply Qeq_bool_iff in H. rewrite H. reflexivity.
Qed.

Lemma float_of_int_positive n : 1 <= n -> (0 < float_of_int n)%Q.
Proof.
  intros H. unfold float_of_int.
  apply Qlt_le_trans with (y := fl 1).
  - rewrite fl_1. reflexivity.
  - apply fl_mono. change 1%Q with (inject_Z 1). rewrite <- Zle_Qle. exact H.
Qed.

Lemma float_of_length_nonzero {A} (x : A) (xs : list A) :
  ~ (float_of_int (Z.of_nat (List.length (x :: xs))) == 0)%Q.
Proof.
  intros H.
  assert (0 < float_of_int (Z.of_nat (List.length (x :: xs))))%Q as Hpos.
  { apply float_of_int_positive. cbn [List.length]. lia. }
  rewrite H in Hpos. discriminate.
Qed.

Lemma share_of_checks_returns count total w :
  exists v, NetworkMonitor.share_of_checks count total w = Returns v w.
Proof.
  unfold NetworkMonitor.share_of_checks.
  destruct (0 <? total) eqn:E.
  - apply Z.ltb_lt in E.
    erewrite bind_returns.
    + eexists. reflexivity.
    + apply truediv_returns. unfold Qeq. cbn. lia.
  - eexists. reflexivity.
Qed.

Lemma outage_statistics_returns os w :
  exists v, NetworkMonitor.outage_statistics os w = Returns v w.
Proof.
  unfold NetworkMonitor.outage_statistics.
  destruct (1 <? Z.of_nat (List.length os)); [| eexists; reflexivity].
  destruct (map (fun o => total_seconds (o_duration o)) os) as [| d ds].
  - eexists. reflexivity.
  - erewrite bind_returns.
    + eexists. reflexivity.
    + apply truediv_returns, float_of_length_nonzero.
Qed.

End Divisions.

(** ** What [generate_report] does *)

Section GenerateReport.
Context {F : FloatModel}.

Lemma generate_report_returns w :
  let now := wall_clock (env w) (ticks w) in
  let m := monitor_at_report (monitor w) now in
  exists r,
    NetworkMonitor.generate_report w = Returns r (after_report w) /\
    r_end_time r = now /\
    r_total_runtime r = now - start_time (monitor w) /\
    r_outage_details r = outages m /\
    r_number_of_outages r = Z.of_nat (List.length (outages m)) /\
    r_total_outage_time r = recorded_outage_time m /\
    r_total_uptime r = now - start_time (monitor w) - recorded_outage_time m /\
    r_uptime_percentage r =
      uptime_percentage_of (now - start_time (monitor w)) (recorded_outage_time m) /\
    r_avg_response_time r =
      match response_times (monitor w) with
      | [] => 0%Q
      | _ :: _ => mean (response_times (monitor w))
      end.
Proof.
  intros now m.
  assert (response_times m = response_times (monitor w)
          /\ total_checks m = total_checks (monitor w)
          /\ successful_checks m = successful_checks (monitor w)
          /\ failed_checks m = failed_checks (monitor w)) as (Hrt & Htc & Hsc & Hfc).
  { unfold m, monitor_at_report.
    destruct (negb (is_online (monitor w))), (current_outage_start (monitor w));
      repeat split; reflexivity. }
  set (w1 := after_report w).
  assert (monitor w1 = m) as Hm by reflexivity.
  set (rt := now - start_time (monitor w)).
  set (up := rt - recorded_outage_time m).
  assert (exists q, (if Qpositive (total_seconds rt)
                     then q <- truediv (total_seconds up) (total_seconds rt) ;;
                          ret (float_mul q 100)
                     else ret 0%Q) w1 = Returns q w1
                    /\ q = uptime_percentage_of rt (recorded_outage_time m)) as (pct & Hpct & Epct).
  { unfold uptime_percentage_of. fold up.
    destruct (Qpositive (total_seconds rt)) eqn:E.
    - apply Qpositive_true in E.
      erewrite bind_returns.
      + eexists. split; reflexivity.
      + apply truediv_returns. intros H0. rewrite H0 in E. discriminate.
    - eexists. split; reflexivity. }
  assert (exists a, match response_times m with
                    | [] => ret 0%Q
                    | _ :: _ => truediv (sum_float (response_times m))
                                  (float_of_int (Z.of_nat (List.length (response_times m))))
                    end w1 = Returns a w1
                    /\ a = match response_times (monitor w) with
                           | [] => 0%Q
                           | _ :: _ => mean (response_times (monitor w))
                           end) as (avg & Havg & Eavg).
  { rewrite Hrt. destruct (response_times (monitor w)) as [| x xs].
    - eexists. split; reflexivity.
    - rewrite truediv_returns by apply float_of_length_nonzero.
      eexists. split; reflexivity. }
  destruct (share_of_checks_returns (successful_checks m) (total_checks m) w1) as (sp & Hsp).
  destruct (share_of_checks_returns (failed_checks m) (total_checks m) w1) as (fp & Hfp).
  destruct (outage_statistics_returns (outages m) w1) as (st & Hst).
  assert (forall {A} (k : unit -> M A),
             bind (match negb (is_online (monitor w)), current_outage_start (monitor w) with
                   | true, Some outage_start =>
                       update (fun m0 => set_outages
                         (outages m0 ++ [mkOutage outage_start now (now - outage_start) true]) m0)
                   | _, _ => ret tt
                   end) k
               (mkWorld (env w) (S (ticks w)) (probes w) (monitor w) (events w)
                  (console w) (probe_trace w)) = k tt w1) as Hupd.
  { intros A k. unfold w1, after_report, monitor_at_report. fold now.
    destruct (negb (is_online (monitor w))), (current_outage_start (monitor w));
      reflexivity. }
  eexists. split.
  - unfold NetworkMonitor.generate_report.
    unfold bind at 1. unfold datetime_now at 1. fold now.
    unfold bind at 1. unfold gets at 1. cbn [monitor].
    unfold bind at 1. unfold gets at 1. cbn [monitor].
    unfold bind at 1. unfold gets at 1. cbn [monitor].
    rewrite Hupd.
    unfold bind at 1. unfold gets at 1. rewrite Hm.
    fold rt. unfold recorded_outage_time in up. fold up.
    erewrite bind_returns by exact Hpct.
    unfold bind at 1. unfold gets at 1. rewrite Hm.
    erewrite bind_returns by exact Havg.
    unfold bind at 1. unfold gets at 1. rewrite Hm.
    unfold bind at 1. unfold gets at 1. rewrite Hm.
    unfold bind at 1. unfold gets at 1. rewrite Hm.
    erewrite bind_returns by exact Hsp.
    erewrite bind_returns by exact Hfp.
    erewrite bind_returns by exact Hst.
    reflexivity.
  - cbn. rewrite Epct, Eavg. repeat split; reflexivity.
Qed.

End GenerateReport.

(** ** Invariants of the monitor *)

Section Invariants.
Context {F : FloatModel}.

Arguments sum_timedelta : simpl never.

Lemma sum_timedelta_shift l a : fold_left Z.add l a = a + sum_timedelta l.
Proof.
  unfold sum_timedelta. revert a.
  induction l as [| x l IH]; intros a; cbn.
  - lia.
  - rewrite IH, (IH x). lia.
Qed.

Lemma sum_timedelta_app l x : sum_timedelta (l ++ [x]) = sum_timedelta l + x.
Proof.
  unfold sum_timedelta. rewrite fold_left_app. reflexivity.
Qed.

Lemma sum_timedelta_nonneg l : Forall (fun d => 0 <= d) l -> 0 <= sum_timedelta l.
Proof.
  induction l as [| x l IH] using rev_ind; intros H.
  - unfold sum_timedelta. cbn. lia.
  - rewrite sum_timedelta_app. apply Forall_app in H as [Hl Hx].
    inversion Hx; subst. specialize (IH Hl). lia.
Qed.

Lemma online_unset m : outage_start_ok m -> is_online m = true -> current_outage_start m = None.
Proof.
  unfold outage_start_ok. intros H E.
  destruct (current_outage_start m); [| reflexivity].
  assert (is_online m = false) by (apply H; discriminate). congruence.
Qed.

Lemma offline_set m :
  outage_start_ok m -> is_online m = false -> exists t0, current_outage_start m = Some t0.
Proof.
  unfold outage_start_ok. intros H E.
  destruct (current_outage_start m) as [t0 |]; [eexists; reflexivity |].
  apply H in E. contradiction.
Qed.

(** The counters stay consistent across a call, even one that raises. *)
Lemma record_check_counts w success target r test_type details :
  counts_ok (monitor w) ->
  counts_ok (monitor (world_of
    (NetworkMonitor.record_check success target r test_type details w))).
Proof.
  unfold counts_ok. intros Hc. destruct success.
  - destruct (is_online (monitor w)) eqn:E.
    + rewrite record_check_success_online by exact E. cbn. lia.
    + destruct (current_outage_start (monitor w)) as [t0 |] eqn:C.
      * rewrite (record_check_success_offline _ _ _ _ _ _ E C). cbn. lia.
      * rewrite (record_check_success_unset _ _ _ _ _ E C). cbn. lia.
  - destruct (is_online (monitor w) && (FAILURE_THRESHOLD <=? consecutive_failures (monitor w) + 1))
      eqn:T.
    + apply andb_true_iff in T as [E T]. apply Z.leb_le in T.
      rewrite (record_check_failure_threshold _ _ _ _ _ E T). cbn. lia.
    + rewrite record_check_failure_below by exact T. cbn. lia.
Qed.

(** From a monitor whose open-outage attribute is consistent, a call
    returns and keeps it consistent. *)
Lemma record_check_returns w success target r test_type details :
  outage_start_ok (monitor w) ->
  exists w',
    NetworkMonitor.record_check success target r test_type details w = Returns tt w' /\
    outage_start_ok (monitor w') /\ env w' = env w /\ (ticks w <= ticks w')%nat /\
    probes w' = probes w /\ probe_trace w' = probe_trace w.
Proof.
  intros Ho. destruct success.
  - destruct (is_online (monitor w)) eqn:E.
    + rewrite record_check_success_online by exact E.
      eexists. split; [reflexivity |].
      unfold outage_start_ok in *. cbn. rewrite E in Ho.
      repeat split; try lia; apply Ho.
    + destruct (offline_set _ Ho E) as (t0 & C).
      rewrite (record_check_success_offline _ _ _ _ _ _ E C).
      eexists. split; [reflexivity |].
      unfold outage_start_ok in *. cbn.
      repeat split; try lia; congruence.
  - destruct (is_online (monitor w) && (FAILURE_THRESHOLD <=? consecutive_failures (monitor w) + 1))
      eqn:T.
    + apply andb_true_iff in T as [E T]. apply Z.leb_le in T.
      rewrite (record_check_failure_threshold _ _ _ _ _ E T).
      eexists. split; [reflexivity |].
      unfold outage_start_ok in *. cbn.
      repeat split; try lia; congruence.
    + rewrite record_check_failure_below by exact T.
      eexists. split; [reflexivity |].
      unfold outage_start_ok in *. cbn.
      repeat split; try lia; apply Ho.
Qed.

Lemma record_check_sound w success target r test_type details :
  sound (monitor w) ->
  exists w',
    NetworkMonitor.record_check success target r test_type details w = Returns tt w' /\
    sound (monitor w') /\ env w' = env w /\ (ticks w <= ticks w')%nat /\
    probes w' = probes w /\ probe_trace w' = probe_trace w.
Proof.
  intros [Hc Ho].
  destruct (record_check_returns w success target r test_type details Ho)
    as (w' & Hrun & Ho' & Hrest).
  pose proof (record_check_counts w success target r test_type details Hc) as Hc'.
  rewrite Hrun in Hc'. cbn [world_of] in Hc'.
  exists w'. split; [exact Hrun |]. split; [split; assumption | exact Hrest].
Qed.

Lemma record_check_timeline w success target r test_type details w' :
  steady w ->
  NetworkMonitor.record_check success target r test_type details w = Returns tt w' ->
  timeline_ok w'.
Proof.
  intros (Hmono & [Hc Ho] & Hdur & Htl).
  unfold timeline_ok, recorded_outage_time in *.
  destruct success.
  - destruct (is_online (monitor w)) eqn:E.
    + rewrite record_check_success_online by exact E.
      intros [= <-]. project.
      split; [exact Hdur |].
      rewrite (online_unset _ Ho E) in *.
      intros i Hi. apply Htl. lia.
    + destruct (offline_set _ Ho E) as (t0 & C).
      rewrite (record_check_success_offline _ _ _ _ _ _ E C).
      intros [= <-]. project.
      rewrite C in Htl. destruct Htl as [Hbefore Hafter].
      pose proof (Hafter (ticks w) (le_n _)) as Hnow.
      split.
      * apply Forall_app. split; [exact Hdur |].
        constructor; [project; lia | constructor].
      * intros i Hi. rewrite map_app. cbn [map]. rewrite sum_timedelta_app. project.
        assert (wall_clock (env w) (ticks w) <= wall_clock (env w) i) by (apply Hmono; lia).
        lia.
  - destruct (is_online (monitor w) && (FAILURE_THRESHOLD <=? consecutive_failures (monitor w) + 1))
      eqn:T.
    + apply andb_true_iff in T as [E T]. apply Z.leb_le in T.
      rewrite (record_check_failure_threshold _ _ _ _ _ E T).
      intros [= <-]. project.
      rewrite (online_unset _ Ho E) in Htl.
      split; [exact Hdur |]. split.
      * apply Htl. lia.
      * intros i Hi. apply Hmono. lia.
    + rewrite record_check_failure_below by exact T.
      intros [= <-]. project.
      split; [exact Hdur |].
      destruct (current_outage_start (monitor w)).
      * split; [apply Htl |]. intros i Hi. apply Htl. lia.
      * intros i Hi. apply Htl. lia.
Qed.

Lemma record_check_steady w success target r test_type details :
  steady w ->
  exists w',
    NetworkMonitor.record_check success target r test_type details w = Returns tt w' /\
    steady w'.
Proof.
  intros Hw. pose proof Hw as (Hmono & Hs & _).
  destruct (record_check_sound w success target r test_type details Hs)
    as (w' & Hrun & Hs' & Henv & _).
  exists w'. split; [exact Hrun |].
  split; [rewrite Henv; exact Hmono |]. split; [exact Hs' |].
  eapply record_check_timeline; eassumption.
Qed.

End Invariants.

(** ** Rounds and runs preserve what [record_check] preserves *)

Section Preservation.
Context {F : FloatModel}.

Lemma ping_host_run host w :
  ping_host host w =
  Returns (match ping_reply (env w) (probes w) host with
           | Replied latency => (true, latency)
           | NoReply => (false, None)
           end) (probed w (mkProbe "ICMP_PING" host)).
Proof.
  unfold ping_host, bind, next_probe, probed. cbn.
  destruct (ping_reply (env w) (probes w) host); reflexivity.
Qed.

Lemma test_dns_resolution_run domain w :
  test_dns_resolution domain w =
  Returns (dns_reply (env w) (probes w) domain) (probed w (mkProbe "DNS_RESOLUTION" domain)).
Proof. reflexivity. Qed.

Variable P : World -> Prop.
Hypothesis P_check :
  forall w success target r test_type details,
    P w ->
    exists w', NetworkMonitor.record_check success target r test_type details w = Returns tt w'
               /\ P w'.
Hypothesis P_probe : forall w p, P w -> P (probed w p).

Lemma ping_loop_preserves targets :
  forall results w, P w ->
    exists out w', ping_loop targets results w = Returns out w' /\ P w'.
Proof.
  induction targets as [| target rest IH]; intros results w Hw.
  - exists results, w. split; [reflexivity | exact Hw].
  - cbn [ping_loop]. erewrite bind_returns by apply ping_host_run.
    set (reply := match ping_reply (env w) (probes w) target with
                  | Replied latency => (true, latency)
                  | NoReply => (false, None)
                  end).
    destruct (P_check (probed w (mkProbe "ICMP_PING" target)) (fst reply) target
                (snd reply) "ICMP_PING" "" (P_probe _ _ Hw)) as (w1 & Hrun & Hw1).
    erewrite bind_returns by exact Hrun.
    destruct (fst reply).
    + eexists _, w1. split; [reflexivity | exact Hw1].
    + unfold time_sleep. erewrite bind_returns by reflexivity. apply IH, Hw1.
Qed.

Lemma dns_loop_preserves domains :
  forall results w, P w ->
    exists out w', dns_loop domains results w = Returns out w' /\ P w'.
Proof.
  induction domains as [| domain rest IH]; intros results w Hw.
  - exists results, w. split; [reflexivity | exact Hw].
  - cbn [dns_loop]. erewrite bind_returns by apply test_dns_resolution_run.
    destruct (P_check (probed w (mkProbe "DNS_RESOLUTION" domain))
                (dns_reply (env w) (probes w) domain) domain None "DNS_RESOLUTION" ""
                (P_probe _ _ Hw)) as (w1 & Hrun & Hw1).
    erewrite bind_returns by exact Hrun.
    destruct (dns_reply (env w) (probes w) domain).
    + eexists _, w1. split; [reflexivity | exact Hw1].
    + unfold time_sleep. erewrite bind_returns by reflexivity. apply IH, Hw1.
Qed.

Lemma round_preserves w :
  P w -> exists online w', perform_connectivity_test w = Returns online w' /\ P w'.
Proof.
  intros Hw. unfold perform_connectivity_test.
  destruct (ping_loop_preserves PING_TARGETS [] w Hw) as (out & w1 & Hrun & Hw1).
  erewrite bind_returns by exact Hrun.
  destruct (negb (any out)).
  - destruct (dns_loop_preserves (firstn 2 DNS_TEST_DOMAINS) out w1 Hw1)
      as (out2 & w2 & Hrun2 & Hw2).
    erewrite bind_returns by exact Hrun2.
    eexists _, w2. split; [reflexivity | exact Hw2].
  - erewrite bind_returns by reflexivity.
    eexists _, w1. split; [reflexivity | exact Hw1].
Qed.

Lemma probing_preserves a w :
  is_probing a = true -> P w -> exists w', do_action a w = Returns tt w' /\ P w'.
Proof.
  destruct a as [c | |]; intros Ha Hw; [| | discriminate].
  - apply P_check, Hw.
  - cbn [do_action]. destruct (round_preserves w Hw) as (b & w' & Hrun & Hw').
    erewrite bind_returns by exact Hrun.
    exists w'. split; [reflexivity | exact Hw'].
Qed.

Lemma actions_preserve (allowed : action -> bool) :
  (forall a w, allowed a = true -> P w -> exists w', do_action a w = Returns tt w' /\ P w') ->
  forall l w, forallb allowed l = true -> P w ->
    exists w', do_actions l w = Returns tt w' /\ P w'.
Proof.
  intros Hstep. induction l as [| a l IH]; intros w Hl Hw.
  - exists w. split; [reflexivity | exact Hw].
  - cbn [forallb] in Hl. apply andb_true_iff in Hl as [Ha Hl].
    destruct (Hstep a w Ha Hw) as (w1 & Hrun & Hw1).
    cbn [do_actions]. erewrite bind_returns by exact Hrun.
    apply IH; assumption.
Qed.

End Preservation.

(** ** Runs from the construction of the monitor *)

Section Runs.
Context {F : FloatModel}.

Lemma init_run e : NetworkMonitor.__init__ (boot e) = Returns tt (started e).
Proof. reflexivity. Qed.

Lemma run_from_started e l : run e l = do_actions l (started e).
Proof. unfold run. erewrite bind_returns by apply init_run. reflexivity. Qed.

Lemma started_sound e : sound (monitor (started e)).
Proof.
  split.
  - reflexivity.
  - unfold outage_start_ok. cbn. split; [intros H; contradiction | discriminate].
Qed.

Lemma started_steady e : monotone (wall_clock e) -> steady (started e).
Proof.
  intros Hmono. split; [exact Hmono |]. split; [apply started_sound |].
  split; [constructor |]. cbn.
  intros i Hi. unfold recorded_outage_time, sum_timedelta. cbn.
  rewrite Z.add_0_r. apply Hmono. lia.
Qed.

Lemma report_sound w :
  sound (monitor w) ->
  exists w', do_action AReport w = Returns tt w' /\ sound (monitor w').
Proof.
  intros [Hc Ho]. destruct (generate_report_returns w) as (r & Hrun & _).
  cbn [do_action]. erewrite bind_returns by exact Hrun.
  eexists. split; [reflexivity |].
  unfold after_report, monitor_at_report, sound, counts_ok, outage_start_ok in *.
  project.
  destruct (negb (is_online (monitor w))), (current_outage_start (monitor w)) eqn:C;
    unfold set_outages; project; rewrite ?C; split; assumption.
Qed.

Lemma action_sound a w :
  sound (monitor w) -> exists w', do_action a w = Returns tt w' /\ sound (monitor w').
Proof.
  intros Hw. destruct (is_probing a) eqn:E.
  - apply (probing_preserves (fun w => sound (monitor w))); try assumption.
    + intros w0 success target r test_type details H0.
      destruct (record_check_sound w0 success target r test_type details H0)
        as (w' & Hrun & Hs & _).
      exists w'. split; assumption.
    + intros w0 p H0. exact H0.
  - destruct a; try discriminate. apply report_sound, Hw.
Qed.

Lemma run_sound e l : exists w', run e l = Returns tt w' /\ sound (monitor w').
Proof.
  rewrite run_from_started.
  apply (actions_preserve (fun w => sound (monitor w)) (fun _ => true)).
  - intros a w _. apply action_sound.
  - apply forallb_forall. reflexivity.
  - apply started_sound.
Qed.

Lemma probing_steady e l :
  monotone (wall_clock e) -> forallb is_probing l = true ->
  exists w', run e l = Returns tt w' /\ steady w' /\ env w' = e.
Proof.
  intros Hmono Hl. rewrite run_from_started.
  destruct (actions_preserve (fun w => steady w /\ env w = e) is_probing) with (l := l)
    (w := started e) as (w' & Hrun & Hw' & He).
  - intros a w Ha [Hw He].
    apply (probing_preserves (fun w => steady w /\ env w = e)); try assumption.
    + intros w0 success target r test_type details [H0 He0].
      destruct (record_check_steady w0 success target r test_type details H0)
        as (w' & Hrun & Hs).
      exists w'. split; [exact Hrun |]. split; [exact Hs |].
      destruct H0 as (_ & Hsound & _).
      destruct (record_check_sound w0 success target r test_type details Hsound)
        as (w'' & Hrun' & _ & Henv & _).
      rewrite Hrun in Hrun'. injection Hrun' as <-. congruence.
    + intros w0 p [H0 He0]. split; [exact H0 | exact He0].
    + split; assumption.
  - exact Hl.
  - split; [apply started_steady, Hmono | reflexivity].
  - exists w'. split; [exact Hrun | split; [exact Hw' | exact He]].
Qed.

End Runs.

(** ** Counters (C5) and the open-outage attribute (C6) *)

(** C5: [total_checks = successful_checks + failed_checks] holds after the
    constructor, is kept by every [record_check] call from any state
    (whatever the probe result, and even if the call raises), and so holds
    after every run, however the calls are interleaved with probing rounds
    and reports. *)
Theorem total_checks_is_sum_of_counters :
  forall (F : FloatModel),
    (forall e, counts_ok (monitor (world_of (NetworkMonitor.__init__ (boot e))))) /\
    (forall w c, counts_ok (monitor w) -> counts_ok (monitor (world_of (do_check c w)))) /\
    (forall e l, returned (run e l) = true /\ counts_ok (monitor (world_of (run e l)))).
Proof.
  intros F. split; [| split].
  - intros e. rewrite init_run. reflexivity.
  - intros w c Hc. apply record_check_counts, Hc.
  - intros e l. destruct (run_sound e l) as (w' & -> & Hc & _).
    split; [reflexivity | exact Hc].
Qed.

(** C5 at a concrete input: a failed check of the freshly started monitor. *)
Lemma total_checks_is_sum_of_counters_witness :
  let F := grid_float in
  let w := started demo_env in
  let m := monitor (world_of (do_check failed_check w)) in
  counts_ok (monitor w) /\
  counts_ok m /\
  (total_checks m, successful_checks m, failed_checks m) = (1, 0, 1).
Proof.
  intros F w m. subst F w m.
  assert (counts_ok (monitor (started demo_env))) as H0 by reflexivity.
  destruct (total_checks_is_sum_of_counters grid_float) as (_ & Hstep & _).
  split; [exact H0 |]. split; [exact (Hstep _ failed_check H0) |].
  vm_compute. reflexivity.
Defined.

(** C6: [current_outage_start] is set exactly when [is_online] is false: in
    the state the constructor leaves; after a [record_check] call, which
    returns, from any state where it holds; after report generation, which
    returns, from any such state; and so after every run. *)
Theorem outage_start_set_iff_offline :
  forall (F : FloatModel),
    (forall e, outage_start_ok (monitor (world_of (NetworkMonitor.__init__ (boot e))))) /\
    (forall w c,
        outage_start_ok (monitor w) ->
        returned (do_check c w) = true /\
        outage_start_ok (monitor (world_of (do_check c w)))) /\
    (forall w,
        outage_start_ok (monitor w) ->
        returned (NetworkMonitor.generate_report w) = true /\
        outage_start_ok (monitor (world_of (NetworkMonitor.generate_report w)))) /\
    (forall e l,
        returned (run e l) = true /\ outage_start_ok (monitor (world_of (run e l)))).
Proof.
  intros F. split; [| split; [| split]].
  - intros e. rewrite init_run. apply started_sound.
  - intros w c Ho.
    destruct (record_check_returns w (c_success c) (c_target c) (c_response_time c)
                (c_test_type c) (c_details c) Ho) as (w' & Hrun & Ho' & _).
    unfold do_check. rewrite Hrun. split; [reflexivity | exact Ho'].
  - intros w Ho. destruct (generate_report_returns w) as (r & -> & _).
    split; [reflexivity |]. cbn [world_of].
    unfold after_report, monitor_at_report, outage_start_ok in *. project.
    destruct (negb (is_online (monitor w))), (current_outage_start (monitor w)) eqn:C;
      unfold set_outages; project; rewrite ?C; exact Ho.
  - intros e l. destruct (run_sound e l) as (w' & -> & _ & Ho).
    split; [reflexivity | exact Ho].
Qed.

(** C6 at a concrete input: the third failed check takes the monitor
    offline and sets the attribute; the report leaves both as they are. *)
Lemma outage_start_set_iff_offline_witness :
  let F := grid_float in
  let w := world_of (run demo_env [ACheck failed_check; ACheck failed_check]) in
  let w' := world_of (do_check failed_check w) in
  let w'' := world_of (NetworkMonitor.generate_report w') in
  outage_start_ok (monitor w) /\
  outage_start_ok (monitor w') /\
  outage_start_ok (monitor w'') /\
  (is_online (monitor w), current_outage_start (monitor w)) = (true, None) /\
  (is_online (monitor w'), current_outage_start (monitor w')) = (false, Some 5000000) /\
  (is_online (monitor w''), current_outage_start (monitor w'')) = (false, Some 5000000).
Proof.
  intros F w w' w''. subst F w w' w''.
  destruct (outage_start_set_iff_offline grid_float) as (_ & Hcheck & Hreport & Hrun).
  destruct (Hrun demo_env [ACheck failed_check; ACheck failed_check]) as [_ H0].
  destruct (Hcheck _ failed_check H0) as [_ H1].
  destruct (Hreport _ H1) as [_ H2].
  split; [exact H0 |]. split; [exact H1 |]. split; [exact H2 |].
  split; [vm_compute; reflexivity |]. split; vm_compute; reflexivity.
Defined.

(** ** The failure threshold (C2) *)

Section Threshold.
Context {F : FloatModel}.

Lemma skipn_length_app {A} (l r : list A) : skipn (List.length l) (l ++ r) = r.
Proof. induction l as [| x l IH]; [reflexivity | exact IH]. Qed.

Lemma new_events_app w w' rows :
  events w' = events w ++ rows -> new_events w w' = rows.
Proof. unfold new_events. intros ->. apply skipn_length_app. Qed.

Lemma new_outages_app w w' os :
  outages (monitor w') = outages (monitor w) ++ os -> new_outages w w' = os.
Proof. unfold new_outages. intros ->. apply skipn_length_app. Qed.

Lemma new_outages_none w w' :
  outages (monitor w') = outages (monitor w) -> new_outages w w' = [].
Proof. intros H. apply new_outages_app. rewrite app_nil_r. exact H. Qed.

Lemma do_checks_cons c cs w w1 :
  do_check c w = Returns tt w1 -> do_checks (c :: cs) w = do_checks cs w1.
Proof.
  intros H. unfold do_checks. cbn [map do_actions do_action].
  erewrite bind_returns by exact H. reflexivity.
Qed.

(** A failed check of an offline monitor logs FAILURE and changes nothing
    but the counters. *)
Lemma failed_check_offline w c :
  is_online (monitor w) = false -> c_success c = false ->
  exists w' row,
    do_check c w = Returns tt w' /\
    events w' = events w ++ [row] /\ row_event_type row = "FAILURE" /\
    is_online (monitor w') = false /\
    outages (monitor w') = outages (monitor w) /\
    current_outage_start (monitor w') = current_outage_start (monitor w).
Proof.
  intros E Hc. unfold do_check. rewrite Hc.
  rewrite record_check_failure_below by (rewrite E; reflexivity).
  eexists _, _. split; [reflexivity |]. project. rewrite E.
  repeat split; reflexivity.
Qed.

Lemma failed_checks_offline cs :
  forall w,
    is_online (monitor w) = false -> all_failed cs = true ->
    exists w' rows,
      do_checks cs w = Returns tt w' /\
      events w' = events w ++ rows /\
      event_types rows = repeat "FAILURE" (List.length cs) /\
      is_online (monitor w') = false /\
      outages (monitor w') = outages (monitor w) /\
      current_outage_start (monitor w') = current_outage_start (monitor w).
Proof.
  induction cs as [| c cs IH]; intros w E Hall.
  - exists w, []. rewrite app_nil_r. repeat split; try reflexivity. exact E.
  - cbn [all_failed forallb] in Hall. apply andb_true_iff in Hall as [Hc Hall].
    apply negb_true_iff in Hc.
    destruct (failed_check_offline w c E Hc) as (w1 & row & Hrun & Hev & Hty & E1 & Hos & Hcur).
    destruct (IH w1 E1 Hall) as (w' & rows & Hrun' & Hev' & Hty' & E' & Hos' & Hcur').
    exists w', (row :: rows).
    rewrite (do_checks_cons _ _ _ _ Hrun).
    split; [exact Hrun' |].
    split; [rewrite Hev', Hev, <- app_assoc; reflexivity |].
    split; [cbn; rewrite Hty; unfold event_types in Hty'; rewrite Hty'; reflexivity |].
    split; [exact E' |]. split; congruence.
Qed.

(** A failed check of an online monitor below the threshold. *)
Lemma failed_check_below w c :
  is_online (monitor w) = true -> c_success c = false ->
  consecutive_failures (monitor w) + 1 < FAILURE_THRESHOLD ->
  exists w' row,
    do_check c w = Returns tt w' /\
    events w' = events w ++ [row] /\ row_event_type row = "FAILURE" /\
    is_online (monitor w') = true /\
    consecutive_failures (monitor w') = consecutive_failures (monitor w) + 1 /\
    outages (monitor w') = outages (monitor w) /\
    current_outage_start (monitor w') = current_outage_start (monitor w).
Proof.
  intros E Hc Hlt. unfold do_check. rewrite Hc.
  rewrite record_check_failure_below.
  - eexists _, _. split; [reflexivity |]. project. rewrite E.
    repeat split; reflexivity.
  - rewrite E. cbn [andb]. apply Z.leb_gt. exact Hlt.
Qed.

(** The failed check that reaches the threshold. *)
Lemma failed_check_threshold w c :
  is_online (monitor w) = true -> c_success c = false ->
  FAILURE_THRESHOLD <= consecutive_failures (monitor w) + 1 ->
  exists w' row1 row2,
    do_check c w = Returns tt w' /\
    events w' = events w ++ [row1; row2] /\
    row_event_type row1 = "FAILURE" /\ row_event_type row2 = "OUTAGE_START" /\
    is_online (monitor w') = false /\
    outages (monitor w') = outages (monitor w) /\
    current_outage_start (monitor w') = Some (wall_clock (env w) (S (ticks w))).
Proof.
  intros E Hc Hle. unfold do_check. rewrite Hc.
  rewrite (record_check_failure_threshold _ _ _ _ _ E Hle).
  eexists _, _, _. split; [reflexivity |]. project.
  repeat split; reflexivity.
Qed.

(** A successful check of an online monitor. *)
Lemma good_check_online w c :
  is_online (monitor w) = true -> c_success c = true ->
  exists w' row,
    do_check c w = Returns tt w' /\
    events w' = events w ++ [row] /\ row_event_type row = "SUCCESS" /\
    is_online (monitor w') = true /\
    consecutive_failures (monitor w') = 0 /\
    outages (monitor w') = outages (monitor w) /\
    current_outage_start (monitor w') = current_outage_start (monitor w).
Proof.
  intros E Hc. unfold do_check. rewrite Hc.
  rewrite record_check_success_online by exact E.
  eexists _, _. split; [reflexivity |]. project.
  repeat split; reflexivity.
Qed.

(** A successful check of an offline monitor closes the open outage. *)
Lemma good_check_offline w c outage_start :
  is_online (monitor w) = false -> c_success c = true ->
  current_outage_start (monitor w) = Some outage_start ->
  exists w' row1 row2,
    do_check c w = Returns tt w' /\
    events w' = events w ++ [row1; row2] /\
    row_event_type row1 = "OUTAGE_END" /\ row_event_type row2 = "SUCCESS" /\
    is_online (monitor w') = true /\
    consecutive_failures (monitor w') = 0 /\
    outages (monitor w') =
      outages (monitor w) ++
      [mkOutage outage_start (wall_clock (env w) (ticks w))
         (wall_clock (env w) (ticks w) - outage_start) false] /\
    current_outage_start (monitor w') = None.
Proof.
  intros E Hc C. unfold do_check. rewrite Hc.
  rewrite (record_check_success_offline _ _ _ _ _ _ E C).
  eexists _, _, _. split; [reflexivity |]. project.
  repeat split; reflexivity.
Qed.

End Threshold.

Section ThresholdRuns.
Context {F : FloatModel}.

Lemma two_failures_then_success w f1 f2 s :
  is_online (monitor w) = true -> consecutive_failures (monitor w) = 0 ->
  c_success f1 = false -> c_success f2 = false -> c_success s = true ->
  exists w',
    do_checks [f1; f2; s] w = Returns tt w' /\
    event_types (new_events w w') = ["FAILURE"; "FAILURE"; "SUCCESS"] /\
    new_outages w w' = [] /\
    is_online (monitor w') = true /\
    current_outage_start (monitor w') = current_outage_start (monitor w).
Proof.
  intros E Hcf H1 H2 Hs.
  destruct (failed_check_below w f1 E H1) as (w1 & r1 & Hrun1 & Hev1 & Hty1 & E1 & Hcf1 & Hos1 & Hc1).
  { rewrite Hcf. reflexivity. }
  destruct (failed_check_below w1 f2 E1 H2) as (w2 & r2 & Hrun2 & Hev2 & Hty2 & E2 & Hcf2 & Hos2 & Hc2).
  { rewrite Hcf1, Hcf. reflexivity. }
  destruct (good_check_online w2 s E2 Hs) as (w3 & r3 & Hrun3 & Hev3 & Hty3 & E3 & Hcf3 & Hos3 & Hc3).
  exists w3.
  rewrite (do_checks_cons _ _ _ _ Hrun1), (do_checks_cons _ _ _ _ Hrun2),
    (do_checks_cons _ _ _ _ Hrun3).
  split; [reflexivity |]. split.
  - rewrite (new_events_app w w3 [r1; r2; r3]).
    + cbn. rewrite Hty1, Hty2, Hty3. reflexivity.
    + rewrite Hev3, Hev2, Hev1, <- !app_assoc. reflexivity.
  - split; [apply new_outages_none; congruence |]. split; congruence.
Qed.

Lemma three_failures_and_more w f1 f2 f3 more :
  is_online (monitor w) = true -> consecutive_failures (monitor w) = 0 ->
  c_success f1 = false -> c_success f2 = false -> c_success f3 = false ->
  all_failed more = true ->
  exists w' outage_start,
    do_checks (f1 :: f2 :: f3 :: more) w = Returns tt w' /\
    event_types (new_events w w') =
      ["FAILURE"; "FAILURE"; "FAILURE"; "OUTAGE_START"] ++ repeat "FAILURE" (List.length more) /\
    new_outages w w' = [] /\
    is_online (monitor w') = false /\
    current_outage_start (monitor w') = Some outage_start.
Proof.
  intros E Hcf H1 H2 H3 Hmore.
  destruct (failed_check_below w f1 E H1) as (w1 & r1 & Hrun1 & Hev1 & Hty1 & E1 & Hcf1 & Hos1 & Hc1).
  { rewrite Hcf. reflexivity. }
  destruct (failed_check_below w1 f2 E1 H2) as (w2 & r2 & Hrun2 & Hev2 & Hty2 & E2 & Hcf2 & Hos2 & Hc2).
  { rewrite Hcf1, Hcf. reflexivity. }
  destruct (failed_check_threshold w2 f3 E2 H3)
    as (w3 & r3 & r4 & Hrun3 & Hev3 & Hty3 & Hty4 & E3 & Hos3 & Hc3).
  { rewrite Hcf2, Hcf1, Hcf. discriminate. }
  destruct (failed_checks_offline more w3 E3 Hmore)
    as (w4 & rows & Hrun4 & Hev4 & Hty & E4 & Hos4 & Hc4).
  exists w4, (wall_clock (env w2) (S (ticks w2))).
  rewrite (do_checks_cons _ _ _ _ Hrun1), (do_checks_cons _ _ _ _ Hrun2),
    (do_checks_cons _ _ _ _ Hrun3).
  split; [exact Hrun4 |]. split.
  - rewrite (new_events_app w w4 ([r1; r2; r3; r4] ++ rows)).
    + unfold event_types in *. rewrite map_app, Hty. cbn [map].
      rewrite Hty1, Hty2, Hty3, Hty4. reflexivity.
    + rewrite Hev4, Hev3, Hev2, Hev1, <- !app_assoc. reflexivity.
  - split; [apply new_outages_none; congruence |]. split; congruence.
Qed.

End ThresholdRuns.

(** C2: with FAILURE_THRESHOLD = 3, from an online monitor with no failure
    pending, two failed checks followed by a successful one log FAILURE,
    FAILURE, SUCCESS, append no outage record and leave the monitor online;
    three failed checks, and any number of further failed ones, log exactly
    one OUTAGE_START and no OUTAGE_END, which only the next successful check
    logs. *)
Theorem failure_threshold_of_three :
  forall (F : FloatModel) (w : World) (f1 f2 f3 s : Check) (more : list Check),
    is_online (monitor w) = true ->
    consecutive_failures (monitor w) = 0 ->
    c_success f1 = false -> c_success f2 = false -> c_success f3 = false ->
    all_failed more = true ->
    c_success s = true ->
    (exists w',
        do_checks [f1; f2; s] w = Returns tt w' /\
        event_types (new_events w w') = ["FAILURE"; "FAILURE"; "SUCCESS"] /\
        new_outages w w' = [] /\
        ~ went_offline w w') /\
    (exists w',
        do_checks (f1 :: f2 :: f3 :: more) w = Returns tt w' /\
        count_events "OUTAGE_START" (new_events w w') = 1%nat /\
        count_events "OUTAGE_END" (new_events w w') = 0%nat /\
        new_outages w w' = [] /\
        went_offline w w' /\
        exists w'',
          do_check s w' = Returns tt w'' /\
          event_types (new_events w' w'') = ["OUTAGE_END"; "SUCCESS"] /\
          List.length (new_outages w' w'') = 1%nat /\
          went_online w' w'').
Proof.
  intros F w f1 f2 f3 s more E Hcf H1 H2 H3 Hmore Hs. split.
  - destruct (two_failures_then_success w f1 f2 s E Hcf H1 H2 Hs)
      as (w' & Hrun & Hev & Hos & E' & _).
    exists w'. repeat split; try assumption.
    intros [_ Hoff]. congruence.
  - destruct (three_failures_and_more w f1 f2 f3 more E Hcf H1 H2 H3 Hmore)
      as (w' & t0 & Hrun & Hev & Hos & E' & C').
    exists w'. split; [exact Hrun |].
    unfold count_events. rewrite Hev, !count_occ_app.
    rewrite !count_occ_repeat_neq by discriminate.
    split; [reflexivity |]. split; [reflexivity |]. split; [exact Hos |].
    split; [split; assumption |].
    destruct (good_check_offline w' s t0 E' Hs C')
      as (w'' & r1 & r2 & Hrun' & Hev' & Hty1 & Hty2 & E'' & _ & Hos' & _).
    exists w''. split; [exact Hrun' |]. split.
    + rewrite (new_events_app _ _ _ Hev'). cbn. rewrite Hty1, Hty2. reflexivity.
    + split; [rewrite (new_outages_app _ _ _ Hos'); reflexivity |].
      split; assumption.
Qed.

(** C2 at a concrete input: the freshly started monitor of the example
    environment, rounding on the grid. *)
Lemma failure_threshold_of_three_witness :
  let F := grid_float in
  let w := started demo_env in
  (is_online (monitor w) = true /\ consecutive_failures (monitor w) = 0) /\
  (exists w',
      do_checks [failed_check; failed_check; good_check] w = Returns tt w' /\
      event_types (new_events w w') = ["FAILURE"; "FAILURE"; "SUCCESS"] /\
      new_outages w w' = [] /\
      ~ went_offline w w') /\
  (exists w',
      do_checks [failed_check; failed_check; failed_check; failed_check] w = Returns tt w' /\
      count_events "OUTAGE_START" (new_events w w') = 1%nat /\
      count_events "OUTAGE_END" (new_events w w') = 0%nat /\
      new_outages w w' = [] /\
      went_offline w w' /\
      exists w'',
        do_check good_check w' = Returns tt w'' /\
        event_types (new_events w' w'') = ["OUTAGE_END"; "SUCCESS"] /\
        List.length (new_outages w' w'') = 1%nat /\
        went_online w' w'').
Proof.
  intros F w. split; [split; reflexivity |].
  apply (failure_threshold_of_three grid_float (started demo_env)
           failed_check failed_check failed_check good_check [failed_check]);
    reflexivity.
Defined.

(** ** The offline-to-online transition (C3) *)

Section GoingOnline.
Context {F : FloatModel}.

Lemma check_closes_outage_iff w c :
  sound (monitor w) ->
  exists w', do_check c w = Returns tt w' /\ closes_outage_iff w c w'.
Proof.
  intros [_ Ho]. unfold closes_outage_iff, went_online.
  destruct (c_success c) eqn:Hs; destruct (is_online (monitor w)) eqn:E.
  - destruct (good_check_online w c E Hs) as (w' & r & Hrun & Hev & Hty & E' & _ & Hos & _).
    exists w'. split; [exact Hrun |].
    rewrite (new_events_app _ _ _ Hev). cbn. rewrite Hty.
    split; [split; intros [K _]; discriminate K |].
    split; [split; [intros [K | []]; discriminate K | intros [K _]; discriminate K] |].
    split; [intros [K _]; discriminate K |].
    intros _. apply new_outages_none, Hos.
  - destruct (offline_set _ Ho E) as (t0 & C).
    destruct (good_check_offline w c t0 E Hs C)
      as (w' & r1 & r2 & Hrun & Hev & Hty1 & Hty2 & E' & _ & Hos & _).
    exists w'. split; [exact Hrun |].
    rewrite (new_events_app _ _ _ Hev), (new_outages_app _ _ _ Hos). cbn. rewrite Hty1, Hty2.
    split; [split; intros _; split; (reflexivity || exact E') |].
    split; [split; [intros _; split; (reflexivity || exact E') | intros _; left; reflexivity] |].
    split.
    + intros _. eexists. split; [reflexivity |]. cbn. rewrite C. repeat split; reflexivity.
    + intros K. exfalso. apply K. split; [reflexivity | exact E'].
  - assert (exists w' rows, do_check c w = Returns tt w' /\ events w' = events w ++ rows
              /\ ~ In "OUTAGE_END" (event_types rows)
              /\ outages (monitor w') = outages (monitor w)) as (w' & rows & Hrun & Hev & Hno & Hos).
    { destruct (Z_lt_le_dec (consecutive_failures (monitor w) + 1) FAILURE_THRESHOLD) as [Hlt | Hle].
      - destruct (failed_check_below w c E Hs Hlt) as (w' & r & Hrun & Hev & Hty & _ & _ & Hos & _).
        exists w', [r]. split; [exact Hrun |]. split; [exact Hev |]. split; [| exact Hos].
        cbn. rewrite Hty. intros [K | []]. discriminate K.
      - destruct (failed_check_threshold w c E Hs Hle)
          as (w' & r1 & r2 & Hrun & Hev & Hty1 & Hty2 & _ & Hos & _).
        exists w', [r1; r2]. split; [exact Hrun |]. split; [exact Hev |]. split; [| exact Hos].
        cbn. rewrite Hty1, Hty2. intros [K | [K | []]]; discriminate K. }
    exists w'. split; [exact Hrun |].
    rewrite (new_events_app _ _ _ Hev).
    split; [split; intros [K _]; discriminate K |].
    split; [split; [intros K; contradiction | intros [K _]; discriminate K] |].
    split; [intros [K _]; discriminate K |].
    intros _. apply new_outages_none, Hos.
  - destruct (failed_check_offline w c E Hs) as (w' & r & Hrun & Hev & Hty & E' & Hos & _).
    exists w'. split; [exact Hrun |].
    rewrite (new_events_app _ _ _ Hev). cbn. rewrite Hty, E'.
    split; [split; intros [_ K]; discriminate K |].
    split; [split; [intros [K | []]; discriminate K | intros [_ K]; discriminate K] |].
    split; [intros [_ K]; discriminate K |].
    intros _. apply new_outages_none, Hos.
Qed.

End GoingOnline.

(** C3: after any run, a [record_check] call takes the monitor from offline
    to online, and logs OUTAGE_END, if and only if the monitor was offline
    right before the call and the check is a success; the outage record this
    transition appends starts at [current_outage_start], ends at the clock
    reading of the call and has [duration = end - start]. *)
Theorem goes_online_iff_offline_and_success :
  forall (F : FloatModel) (e : Env) (l : list action) (c : Check),
    let w := world_of (run e l) in
    exists w',
      do_check c w = Returns tt w' /\
      (went_online w w' <-> is_online (monitor w) = false /\ c_success c = true) /\
      (In "OUTAGE_END" (event_types (new_events w w')) <-> went_online w w') /\
      (went_online w w' ->
         exists o,
           new_outages w w' = [o] /\
           o_duration o = o_end o - o_start o /\
           current_outage_start (monitor w) = Some (o_start o) /\
           o_end o = wall_clock (env w) (ticks w) /\
           o_ongoing o = false) /\
      (~ went_online w w' -> new_outages w w' = []).
Proof.
  intros F e l c w. subst w.
  destruct (run_sound e l) as (w & -> & Hw). cbn [world_of].
  exact (check_closes_outage_iff w c Hw).
Qed.

(** C3 at a concrete input: three failed checks, then a successful one. *)
Lemma goes_online_iff_offline_and_success_witness :
  let F := grid_float in
  let w := world_of (run demo_env [ACheck failed_check; ACheck failed_check; ACheck failed_check]) in
  exists w',
    do_check good_check w = Returns tt w' /\
    went_online w w' /\
    new_outages w w' = [mkOutage 5000000 7000000 2000000 false].
Proof.
  intros F w. subst F w.
  destruct (goes_online_iff_offline_and_success grid_float demo_env
              [ACheck failed_check; ACheck failed_check; ACheck failed_check] good_check)
    as (w' & Hrun & Hiff & _ & Hrec & _).
  exists w'. split; [exact Hrun |].
  assert (went_online
            (world_of (run demo_env
               [ACheck failed_check; ACheck failed_check; ACheck failed_check])) w') as Hon
    by (apply Hiff; split; reflexivity).
  split; [exact Hon |].
  destruct (Hrec Hon) as ([s e d g] & Hnew & Hd & Hc & He & Hg).
  rewrite Hnew. cbn in Hd, Hc, He, Hg.
  injection Hc as <-. subst. reflexivity.
Defined.

(** ** The order of probes in a round (C7, C4) *)

Section Rounds.
Context {F : FloatModel}.

Lemma any_app a b : any (a ++ b) = any a || any b.
Proof. apply existsb_app. Qed.

Lemma any_asked replies : any (asked replies) = any replies.
Proof.
  induction replies as [| r more IH]; [reflexivity |].
  destruct r; cbn; [reflexivity | exact IH].
Qed.

Lemma pinged_length replies targets :
  List.length replies = List.length targets ->
  List.length (pinged replies targets) = List.length (asked replies).
Proof.
  revert replies. induction targets as [| t rest IH]; intros [| r more] H;
    try discriminate; [reflexivity |].
  cbn. destruct r; cbn; [reflexivity |]. f_equal. apply IH. cbn in H. lia.
Qed.

Lemma pinged_prefix replies targets :
  pinged replies targets = firstn (List.length (pinged replies targets)) targets.
Proof.
  revert replies. induction targets as [| t rest IH]; intros [| r more]; try reflexivity.
  cbn. destruct r; cbn; [reflexivity |]. f_equal. apply IH.
Qed.

Lemma replies_from_length answer n targets :
  List.length (replies_from answer n targets) = List.length targets.
Proof.
  revert n. induction targets as [| t rest IH]; intros n; [reflexivity |].
  cbn. f_equal. apply IH.
Qed.

(** The ping loop probes the targets in order and stops at the first reply. *)
Lemma ping_loop_run targets :
  forall results w,
    sound (monitor w) ->
    let replies := replies_from (fun n t => replied (ping_reply (env w) n t)) (probes w) targets in
    exists w',
      ping_loop targets results w = Returns (results ++ asked replies) w' /\
      sound (monitor w') /\ env w' = env w /\
      probes w' = (probes w + List.length (asked replies))%nat /\
      probe_trace w' =
        probe_trace w ++ map (mkProbe "ICMP_PING") (pinged replies targets).
Proof.
  induction targets as [| target rest IH]; intros results w Hw replies.
  - exists w. subst replies. cbn. rewrite !app_nil_r, Nat.add_0_r.
    repeat split; try reflexivity; apply Hw.
  - subst replies. cbn [ping_loop replies_from].
    erewrite bind_returns by apply ping_host_run.
    destruct (record_check_sound (probed w (mkProbe "ICMP_PING" target))
                (fst (match ping_reply (env w) (probes w) target with
                      | Replied latency => (true, latency)
                      | NoReply => (false, None)
                      end)) target
                (snd (match ping_reply (env w) (probes w) target with
                      | Replied latency => (true, latency)
                      | NoReply => (false, None)
                      end)) "ICMP_PING" "" Hw)
      as (w1 & Hrun & Hw1 & Henv & _ & Hp & Htr).
    erewrite bind_returns by exact Hrun.
    cbn [probed env probes probe_trace] in Henv, Hp, Htr.
    destruct (ping_reply (env w) (probes w) target) as [latency |]; cbn [fst snd replied asked pinged].
    + exists w1. split; [reflexivity |]. split; [exact Hw1 |]. split; [exact Henv |].
      split; [cbn; lia |]. exact Htr.
    + unfold time_sleep. erewrite bind_returns by reflexivity.
      destruct (IH (results ++ [false]) w1 Hw1) as (w' & Hrun' & Hw' & Henv' & Hp' & Htr').
      rewrite Henv, Hp in Hrun', Hp', Htr'.
      exists w'. split; [rewrite Hrun', <- app_assoc; reflexivity |].
      split; [exact Hw' |]. split; [congruence |].
      split; [rewrite Hp'; cbn; lia |].
      rewrite Htr', Htr, <- app_assoc. reflexivity.
Qed.

(** The DNS loop does the same with the names it is given. *)
Lemma dns_loop_run domains :
  forall results w,
    sound (monitor w) ->
    let lookups := replies_from (dns_reply (env w)) (probes w) domains in
    exists w',
      dns_loop domains results w = Returns (results ++ asked lookups) w' /\
      sound (monitor w') /\ env w' = env w /\
      probes w' = (probes w + List.length (asked lookups))%nat /\
      probe_trace w' =
        probe_trace w ++ map (mkProbe "DNS_RESOLUTION") (pinged lookups domains).
Proof.
  induction domains as [| domain rest IH]; intros results w Hw lookups.
  - exists w. subst lookups. cbn. rewrite !app_nil_r, Nat.add_0_r.
    repeat split; try reflexivity; apply Hw.
  - subst lookups. cbn [dns_loop replies_from].
    erewrite bind_returns by apply test_dns_resolution_run.
    destruct (record_check_sound (probed w (mkProbe "DNS_RESOLUTION" domain))
                (dns_reply (env w) (probes w) domain) domain None "DNS_RESOLUTION" "" Hw)
      as (w1 & Hrun & Hw1 & Henv & _ & Hp & Htr).
    erewrite bind_returns by exact Hrun.
    cbn [probed env probes probe_trace] in Henv, Hp, Htr.
    destruct (dns_reply (env w) (probes w) domain); cbn [asked pinged].
    + exists w1. split; [reflexivity |]. split; [exact Hw1 |]. split; [exact Henv |].
      split; [cbn; lia |]. exact Htr.
    + unfold time_sleep. erewrite bind_returns by reflexivity.
      destruct (IH (results ++ [false]) w1 Hw1) as (w' & Hrun' & Hw' & Henv' & Hp' & Htr').
      rewrite Henv, Hp in Hrun', Hp', Htr'.
      exists w'. split; [rewrite Hrun', <- app_assoc; reflexivity |].
      split; [exact Hw' |]. split; [congruence |].
      split; [rewrite Hp'; cbn; lia |].
      rewrite Htr', Htr, <- app_assoc. reflexivity.
Qed.

End Rounds.

Section ProbeOrder.
Context {F : FloatModel}.

Lemma new_probes_app w w' ps :
  probe_trace w' = probe_trace w ++ ps -> new_probes w w' = ps.
Proof. unfold new_probes. intros ->. apply skipn_length_app. Qed.

Lemma asked_all_failed replies : any replies = false -> asked replies = replies.
Proof.
  induction replies as [| r more IH]; [reflexivity |].
  destruct r; cbn; [discriminate |]. intros H. f_equal. apply IH, H.
Qed.

(** A target is probed exactly when every earlier one got no reply. *)
Lemma pinged_nth replies targets :
  List.length replies = List.length targets ->
  forall i t,
    nth_error (pinged replies targets) i = Some t <->
    nth_error targets i = Some t /\ any (firstn i replies) = false.
Proof.
  revert replies. induction targets as [| t0 rest IH]; intros [| r more] Hlen i t;
    try discriminate.
  - destruct i; cbn; split; try discriminate; intros [H _]; discriminate H.
  - cbn in Hlen. assert (List.length more = List.length rest) as Hlen' by lia.
    destruct i as [| i].
    + cbn. destruct r; cbn; split; try (intros H; split; [exact H | reflexivity]);
        intros [H _]; exact H.
    + cbn [pinged nth_error firstn any existsb]. destruct r; cbn [orb].
      * destruct i; cbn; split; try discriminate; intros [_ H]; discriminate H.
      * cbn [nth_error]. apply IH, Hlen'.
Qed.

Lemma round_run w :
  sound (monitor w) ->
  let pings :=
    replies_from (fun n t => replied (ping_reply (env w) n t)) (probes w) PING_TARGETS in
  let lookups :=
    replies_from (dns_reply (env w)) (probes w + 3) (firstn 2 DNS_TEST_DOMAINS) in
  exists w',
    perform_connectivity_test w = Returns (any pings || any lookups) w' /\
    sound (monitor w') /\
    new_probes w w' =
      map (mkProbe "ICMP_PING") (pinged pings PING_TARGETS) ++
      (if any pings then []
       else map (mkProbe "DNS_RESOLUTION") (pinged lookups (firstn 2 DNS_TEST_DOMAINS))).
Proof.
  intros Hw pings lookups. unfold perform_connectivity_test.
  destruct (ping_loop_run PING_TARGETS [] w Hw) as (w1 & Hrun & Hw1 & Henv & Hp & Htr).
  fold pings in Hrun, Hp, Htr. cbn [app] in Hrun.
  erewrite bind_returns by exact Hrun. rewrite any_asked.
  destruct (any pings) eqn:Hany; cbn [negb orb].
  - erewrite bind_returns by reflexivity. rewrite any_asked, Hany.
    exists w1. split; [reflexivity |]. split; [exact Hw1 |].
    rewrite app_nil_r. apply new_probes_app, Htr.
  - destruct (dns_loop_run (firstn 2 DNS_TEST_DOMAINS) (asked pings) w1 Hw1)
      as (w2 & Hrun2 & Hw2 & _ & _ & Htr2).
    rewrite Henv, Hp, (asked_all_failed _ Hany) in Hrun2, Htr2.
    change (List.length pings) with 3%nat in Hrun2, Htr2.
    fold lookups in Hrun2, Htr2.
    erewrite bind_returns by (rewrite (asked_all_failed _ Hany); exact Hrun2).
    exists w2. split.
    + unfold ret. rewrite any_app, Hany, any_asked. reflexivity.
    + split; [exact Hw2 |].
      apply new_probes_app. rewrite Htr2, Htr, <- app_assoc. reflexivity.
Qed.

End ProbeOrder.

(** C7: after any run, a round probes the ping targets in their configured
    order, each one only if all the earlier ones failed, so it stops at the
    first success; a name of the DNS list is looked up only if every ping
    target failed, and then only if the earlier lookups failed.  The round
    returns whether any probe succeeded. *)
Theorem round_pings_in_order_then_dns :
  forall (F : FloatModel) (e : Env) (l : list action),
    let w := world_of (run e l) in
    let pings :=
      replies_from (fun n t => replied (ping_reply (env w) n t)) (probes w) PING_TARGETS in
    let lookups :=
      replies_from (dns_reply (env w)) (probes w + 3) (firstn 2 DNS_TEST_DOMAINS) in
    exists online w' pinged_targets looked_up,
      perform_connectivity_test w = Returns online w' /\
      new_probes w w' =
        map (mkProbe "ICMP_PING") pinged_targets ++
        map (mkProbe "DNS_RESOLUTION") looked_up /\
      (forall i t,
          nth_error pinged_targets i = Some t <->
          nth_error PING_TARGETS i = Some t /\ any (firstn i pings) = false) /\
      (forall j d,
          nth_error looked_up j = Some d <->
          any pings = false /\
          nth_error (firstn 2 DNS_TEST_DOMAINS) j = Some d /\
          any (firstn j lookups) = false) /\
      online = any pings || any lookups.
Proof.
  intros F e l.
  destruct (run_sound e l) as (w & Hrun & Hw). rewrite Hrun.
  change (world_of (Returns tt w)) with w.
  intros w0 pings lookups. subst w0.
  destruct (round_run w Hw) as (w' & Hround & _ & Htrace).
  fold pings lookups in Hround, Htrace.
  exists (any pings || any lookups), w', (pinged pings PING_TARGETS),
    (if any pings then [] else pinged lookups (firstn 2 DNS_TEST_DOMAINS)).
  split; [exact Hround |]. split.
  - rewrite Htrace. destruct (any pings); reflexivity.
  - split; [apply pinged_nth; apply replies_from_length |].
    split; [| reflexivity].
    intros j d. destruct (any pings).
    + split; [destruct j; discriminate | intros [H _]; discriminate H].
    + rewrite (pinged_nth lookups (firstn 2 DNS_TEST_DOMAINS)) by apply replies_from_length.
      tauto.
Qed.

(** C7 at a concrete input: the first round of the example environment. *)
Lemma round_pings_in_order_then_dns_witness :
  let F := grid_float in
  let w := world_of (run demo_env []) in
  let pings :=
    replies_from (fun n t => replied (ping_reply (env w) n t)) (probes w) PING_TARGETS in
  let lookups :=
    replies_from (dns_reply (env w)) (probes w + 3) (firstn 2 DNS_TEST_DOMAINS) in
  (pings, lookups) = ([false; false; false], [true; true]) /\
  exists online w' pinged_targets looked_up,
    perform_connectivity_test w = Returns online w' /\
    new_probes w w' =
      map (mkProbe "ICMP_PING") pinged_targets ++
      map (mkProbe "DNS_RESOLUTION") looked_up /\
    (forall i t,
        nth_error pinged_targets i = Some t <->
        nth_error PING_TARGETS i = Some t /\ any (firstn i pings) = false) /\
    (forall j d,
        nth_error looked_up j = Some d <->
        any pings = false /\
        nth_error (firstn 2 DNS_TEST_DOMAINS) j = Some d /\
        any (firstn j lookups) = false) /\
    online = any pings || any lookups.
Proof.
  intros F w pings lookups. split; [reflexivity |].
  exact (round_pings_in_order_then_dns grid_float demo_env []).
Defined.

(** ** A round in which every ping fails (C4) *)

Section FailedRound.
Context {F : FloatModel}.

Lemma three_failed_pings w :
  is_online (monitor w) = true ->
  consecutive_failures (monitor w) = 0 ->
  ping_reply (env w) (probes w) "8.8.8.8" = NoReply ->
  ping_reply (env w) (S (probes w)) "1.1.1.1" = NoReply ->
  ping_reply (env w) (S (S (probes w))) "208.67.222.222" = NoReply ->
  exists w1 rows,
    ping_loop PING_TARGETS [] w = Returns [false; false; false] w1 /\
    env w1 = env w /\ probes w1 = (3 + probes w)%nat /\ ticks w1 = (5 + ticks w)%nat /\
    is_online (monitor w1) = false /\
    current_outage_start (monitor w1) = Some (wall_clock (env w) (3 + ticks w)) /\
    consecutive_failures (monitor w1) = 3 /\
    failed_checks (monitor w1) = failed_checks (monitor w) + 3 /\
    outages (monitor w1) = outages (monitor w) /\
    events w1 = events w ++ rows /\
    event_types rows = ["FAILURE"; "FAILURE"; "FAILURE"; "OUTAGE_START"] /\
    map row_test_type rows = ["ICMP_PING"; "ICMP_PING"; "ICMP_PING"; ""] /\
    probe_trace w1 = probe_trace w ++ map (mkProbe "ICMP_PING") PING_TARGETS.
Proof.
  intros E Hcf H1 H2 H3. unfold PING_TARGETS. cbn [ping_loop].
  erewrite bind_returns by apply ping_host_run. rewrite H1. cbn [fst snd app].
  erewrite bind_returns
    by (apply record_check_failure_below; cbn [probed monitor]; rewrite E, Hcf; reflexivity).
  unfold time_sleep at 1. erewrite bind_returns by reflexivity.
  erewrite bind_returns by apply ping_host_run.
  cbn [probed env probes monitor ticks events console probe_trace]. rewrite H2. cbn [fst snd app].
  erewrite bind_returns
    by (apply record_check_failure_below; cbn [probed monitor is_online consecutive_failures];
        rewrite E, Hcf; reflexivity).
  unfold time_sleep at 1. erewrite bind_returns by reflexivity.
  erewrite bind_returns by apply ping_host_run.
  cbn [probed env probes monitor ticks events console probe_trace]. rewrite H3. cbn [fst snd app].
  erewrite bind_returns
    by (apply record_check_failure_threshold;
        cbn [probed monitor is_online consecutive_failures]; rewrite ?E, ?Hcf;
        (reflexivity || discriminate)).
  unfold time_sleep at 1. erewrite bind_returns by reflexivity.
  unfold probed. project. rewrite Hcf.
  eexists _, _. split; [reflexivity |]. project.
  split; [reflexivity |]. split; [reflexivity |]. split; [reflexivity |].
  split; [reflexivity |]. split; [reflexivity |]. split; [reflexivity |].
  split; [lia |]. split; [reflexivity |].
  split; [rewrite <- !app_assoc; reflexivity |].
  split; [reflexivity |]. split; [reflexivity |].
  rewrite <- !app_assoc. reflexivity.
Qed.

End FailedRound.

(** C4: [record_check] is called once per target, so a round in which the
    three ping targets fail, from an online monitor with no failure pending,
    records three failures and reaches the threshold inside the round: the
    monitor is offline, and OUTAGE_START is logged, when the ping loop ends
    and before any DNS lookup is made.  If the first lookup then succeeds
    the monitor goes online again at once, and the round has appended one
    outage record. *)
Theorem failed_pings_open_an_outage_within_the_round :
  forall (F : FloatModel) (w : World),
    is_online (monitor w) = true ->
    consecutive_failures (monitor w) = 0 ->
    ping_reply (env w) (probes w) "8.8.8.8" = NoReply ->
    ping_reply (env w) (S (probes w)) "1.1.1.1" = NoReply ->
    ping_reply (env w) (S (S (probes w))) "208.67.222.222" = NoReply ->
    exists w1,
      ping_loop PING_TARGETS [] w = Returns [false; false; false] w1 /\
      failed_checks (monitor w1) = failed_checks (monitor w) + 3 /\
      consecutive_failures (monitor w1) = FAILURE_THRESHOLD /\
      went_offline w w1 /\
      event_types (new_events w w1) = ["FAILURE"; "FAILURE"; "FAILURE"; "OUTAGE_START"] /\
      new_probes w w1 = map (mkProbe "ICMP_PING") PING_TARGETS /\
      (dns_reply (env w) (3 + probes w) "google.com" = true ->
       exists w',
         perform_connectivity_test w = Returns true w' /\
         new_probes w w' =
           map (mkProbe "ICMP_PING") PING_TARGETS ++ [mkProbe "DNS_RESOLUTION" "google.com"] /\
         event_types (new_events w w') =
           ["FAILURE"; "FAILURE"; "FAILURE"; "OUTAGE_START"; "OUTAGE_END"; "SUCCESS"] /\
         went_online w1 w' /\
         new_outages w w' =
           [mkOutage (wall_clock (env w) (3 + ticks w)) (wall_clock (env w) (5 + ticks w))
              (wall_clock (env w) (5 + ticks w) - wall_clock (env w) (3 + ticks w)) false]).
Proof.
  intros F w E Hcf H1 H2 H3.
  destruct (three_failed_pings w E Hcf H1 H2 H3)
    as (w1 & rows & Hloop & Henv & Hp & Htk & E1 & C1 & Hcf1 & Hfc & Hos & Hev & Hty & _ & Htr).
  exists w1. split; [exact Hloop |]. split; [exact Hfc |]. split; [exact Hcf1 |].
  split; [split; assumption |].
  split; [rewrite (new_events_app _ _ _ Hev); exact Hty |].
  split; [apply new_probes_app, Htr |].
  intros Hdns. unfold perform_connectivity_test.
  erewrite bind_returns by exact Hloop.
  cbn [any existsb orb negb firstn DNS_TEST_DOMAINS dns_loop].
  erewrite bind_returns.
  2:{ erewrite bind_returns by apply test_dns_resolution_run.
      rewrite Henv, Hp, Hdns. cbn [app].
      erewrite bind_returns
        by (apply (record_check_success_offline
                     (probed w1 (mkProbe "DNS_RESOLUTION" "google.com")) _ _ _ _ _ E1 C1)).
      reflexivity. }
  eexists. split; [reflexivity |]. unfold probed. project.
  split; [apply new_probes_app; project; rewrite Htr, <- app_assoc; reflexivity |].
  split.
  - erewrite new_events_app by (project; rewrite Hev, <- app_assoc; reflexivity).
    unfold event_types in *. rewrite map_app, Hty. reflexivity.
  - split; [split; [exact E1 | reflexivity] |].
    apply new_outages_app. project. rewrite Hos, Henv, Htk. reflexivity.
Qed.

(** C4 at a concrete input: the first round of the example environment, in
    which the three pings get no reply and the name resolves. *)
Lemma failed_pings_open_an_outage_within_the_round_witness :
  let F := grid_float in
  let w := started demo_env in
  exists w',
    perform_connectivity_test w = Returns true w' /\
    event_types (new_events w w') =
      ["FAILURE"; "FAILURE"; "FAILURE"; "OUTAGE_START"; "OUTAGE_END"; "SUCCESS"] /\
    new_outages w w' = [mkOutage 5000000 7000000 2000000 false].
Proof.
  intros F w. subst F w.
  destruct (failed_pings_open_an_outage_within_the_round grid_float (started demo_env))
    as (w1 & _ & _ & _ & _ & _ & _ & Hdns); try reflexivity.
  destruct (Hdns eq_refl) as (w' & Hrun & _ & Hev & _ & Hos).
  exists w'. split; [exact Hrun |]. split; [exact Hev | exact Hos].
Defined.

(** ** The duration formatter (C10) *)

Section FormatDuration.
Context {F : FloatModel}.

Lemma string_app_assoc (a b c : string) : ((a ++ b) ++ c = a ++ (b ++ c))%string.
Proof. induction a as [| x a IH]; cbn; [reflexivity | rewrite IH; reflexivity]. Qed.

Lemma occurs_app c (a b : string) : occurs c (a ++ b)%string = occurs c a || occurs c b.
Proof.
  induction a as [| x a IH]; cbn; [reflexivity |].
  rewrite IH, orb_assoc. reflexivity.
Qed.

Lemma occurs_digits c (d : Decimal.uint) :
  unit_letter c -> occurs c (NilEmpty.string_of_uint d) = false.
Proof.
  intros [-> | [-> | ->]]; induction d; cbn; assumption || reflexivity.
Qed.

(** A decimal numeral contains no unit letter. *)
Lemma occurs_str c n : unit_letter c -> occurs c (str n) = false.
Proof.
  intros Hc. unfold str.
  assert (forall d, occurs c (NilZero.string_of_uint d) = false) as Hu.
  { intros d. unfold NilZero.string_of_uint.
    destruct d; try apply (occurs_digits c _ Hc).
    destruct Hc as [-> | [-> | ->]]; reflexivity. }
  destruct (Z.to_int n) as [d | d]; cbn [NilZero.string_of_int].
  - apply Hu.
  - cbn [occurs]. rewrite Hu, orb_false_r.
    destruct Hc as [-> | [-> | ->]]; reflexivity.
Qed.

Lemma int_of_float_nonneg x : (0 <= x)%Q -> 0 <= int_of_float x.
Proof.
  intros H. unfold int_of_float. apply Z.quot_pos; [| reflexivity].
  unfold Qle in H. cbn in H. lia.
Qed.

Lemma format_duration_compact td :
  let total := int_of_float (total_seconds td) in
  NetworkMonitor._format_duration td =
  compact_form (total / 3600) ((total mod 3600) / 60) (total mod 60).
Proof.
  intros total. unfold NetworkMonitor._format_duration, compact_form. fold total.
  destruct (0 <? total / 3600); destruct (0 <? total mod 3600 / 60);
    cbn [app join String.concat]; rewrite ?string_app_assoc; reflexivity.
Qed.

Lemma occurs_compact_form hours minutes seconds :
  (occurs "h" (compact_form hours minutes seconds) = true <-> 0 < hours) /\
  (occurs "m" (compact_form hours minutes seconds) = true <-> 0 < minutes) /\
  occurs "s" (compact_form hours minutes seconds) = true.
Proof.
  assert (unit_letter "h") as Hh by (left; reflexivity).
  assert (unit_letter "m") as Hm by (right; left; reflexivity).
  assert (unit_letter "s") as Hs by (right; right; reflexivity).
  unfold compact_form.
  destruct (Z.ltb_spec 0 hours) as [Hhours | Hhours];
    destruct (Z.ltb_spec 0 minutes) as [Hminutes | Hminutes];
    rewrite !occurs_app, !occurs_str by assumption; cbn;
    repeat split; intros; try reflexivity; try assumption; try discriminate; lia.
Qed.

End FormatDuration.

(** C10: for a non-negative duration the formatter yields the compact form
    "Xh Ym Zs" of its whole seconds split into hours, minutes below 60 and
    seconds below 60: the hours part is there if and only if hours > 0, the
    minutes part if and only if minutes > 0, and the text always ends with
    the seconds part, "0s" included. *)
Theorem format_duration_is_compact :
  forall (F : FloatModel) (td : timedelta),
    0 <= td ->
    let total := int_of_float (total_seconds td) in
    let hours := total / 3600 in
    let minutes := (total mod 3600) / 60 in
    let seconds := total mod 60 in
    let text := NetworkMonitor._format_duration td in
    0 <= hours /\ 0 <= minutes < 60 /\ 0 <= seconds < 60 /\
    total = 3600 * hours + 60 * minutes + seconds /\
    text = compact_form hours minutes seconds /\
    (occurs "h" text = true <-> 0 < hours) /\
    (occurs "m" text = true <-> 0 < minutes) /\
    (exists before, text = (before ++ str seconds ++ "s")%string).
Proof.
  intros F td Htd total hours minutes seconds text.
  assert (0 <= total) as Htotal
    by (apply int_of_float_nonneg, total_seconds_nonneg, Htd).
  assert (text = compact_form hours minutes seconds) as Htext
    by apply format_duration_compact.
  destruct (occurs_compact_form hours minutes seconds) as (Hh & Hm & _).
  split; [subst hours; apply Z.div_pos; lia |].
  split; [subst minutes; split;
          [apply Z.div_pos; [apply Z.mod_pos_bound |]; lia
          | apply Z.div_lt_upper_bound; [| apply Z.mod_pos_bound]; lia] |].
  split; [subst seconds; apply Z.mod_pos_bound; lia |].
  split.
  - subst hours minutes seconds. clear. Z.div_mod_to_equations. lia.
  - split; [exact Htext |]. rewrite Htext.
    split; [exact Hh |]. split; [exact Hm |].
    unfold compact_form. destruct (0 <? hours), (0 <? minutes).
    + exists (str hours ++ "h " ++ str minutes ++ "m ")%string.
      rewrite !string_app_assoc. reflexivity.
    + exists (str hours ++ "h ")%string. rewrite !string_app_assoc. reflexivity.
    + exists (str minutes ++ "m ")%string. rewrite !string_app_assoc. reflexivity.
    + exists ""%string. reflexivity.
Qed.

(** C10 at concrete inputs: 1 h 2 min 5 s, exactly one hour, and zero. *)
Lemma format_duration_is_compact_witness :
  let F := grid_float in
  (0 <= 3725000000 /\ NetworkMonitor._format_duration 3725000000 = "1h 2m 5s") /\
  (0 <= 3600000000 /\ NetworkMonitor._format_duration 3600000000 = "1h 0s") /\
  (0 <= 0 /\ NetworkMonitor._format_duration 0 = "0s").
Proof.
  intros F. subst F.
  split; [| split].
  - split; [lia |].
    destruct (format_duration_is_compact grid_float 3725000000 ltac:(lia))
      as (_ & _ & _ & _ & H & _).
    exact H.
  - split; [lia |].
    destruct (format_duration_is_compact grid_float 3600000000 ltac:(lia))
      as (_ & _ & _ & _ & H & _).
    exact H.
  - split; [lia |].
    destruct (format_duration_is_compact grid_float 0 ltac:(lia))
      as (_ & _ & _ & _ & H & _).
    exact H.
Defined.

(** The formatter on a few durations, in exact arithmetic.  A negative
    duration is floored by [//] and [%] as Python does. *)
Example format_duration_examples :
  let F := exact_float in
  map NetworkMonitor._format_duration
    [0; 999999; 59000000; 60000000; 3599000000; 3600000000; 86400000000; -1000000] =
  ["0s"; "0s"; "59s"; "1m 0s"; "59m 59s"; "1h 0s"; "24h 0s"; "59m 59s"].
Proof. reflexivity. Qed.

(** ** The figures of the report (C9, C8) *)

Section Figures.
Context {F : FloatModel}.

#[local] Instance fl_compat : Proper (Qeq ==> Qeq) fl.
Proof. intros x y H. apply fl_proper, H. Qed.

Lemma uptime_percentage_nonpositive_runtime total_runtime total_outage_time :
  total_runtime <= 0 -> uptime_percentage_of total_runtime total_outage_time = 0%Q.
Proof.
  intros H. unfold uptime_percentage_of.
  destruct (Qpositive (total_seconds total_runtime)) eqn:E; [| reflexivity].
  apply Qpositive_true in E. pose proof (total_seconds_nonpos _ H) as Hle.
  exfalso. exact (Qlt_not_le _ _ E Hle).
Qed.

Lemma uptime_percentage_positive_runtime total_runtime total_outage_time :
  0 < total_runtime ->
  uptime_percentage_of total_runtime total_outage_time =
  float_mul (fl (total_seconds (total_runtime - total_outage_time) /
                 total_seconds total_runtime)) 100.
Proof.
  intros H. unfold uptime_percentage_of.
  destruct (Qpositive (total_seconds total_runtime)) eqn:E; [reflexivity |].
  apply Qpositive_false in E. pose proof (total_seconds_pos _ H) as Hlt.
  exfalso. exact (Qlt_not_le _ _ Hlt E).
Qed.

Lemma uptime_percentage_bounds total_runtime total_outage_time :
  0 < total_runtime -> 0 <= total_outage_time <= total_runtime ->
  (0 <= uptime_percentage_of total_runtime total_outage_time <= 100)%Q.
Proof.
  intros Hrt [Hlo Hhi]. rewrite uptime_percentage_positive_runtime by exact Hrt.
  set (a := total_seconds (total_runtime - total_outage_time)).
  set (b := total_seconds total_runtime).
  assert (0 < b)%Q as Hb by (apply total_seconds_pos, Hrt).
  assert (0 <= a)%Q as Ha by (apply total_seconds_nonneg; lia).
  assert (a <= b)%Q as Hab by (apply total_seconds_mono; lia).
  assert (0 <= fl (a / b) <= 1)%Q as [Hq0 Hq1].
  { split.
    - apply fl_nonneg. apply Qle_shift_div_l; [exact Hb |]. rewrite Qmult_0_l. exact Ha.
    - rewrite <- fl_1. apply fl_mono.
      apply Qle_shift_div_r; [exact Hb |]. rewrite Qmult_1_l. exact Hab. }
  unfold float_mul. split.
  - apply fl_nonneg. apply Qmult_le_0_compat; [exact Hq0 | discriminate].
  - rewrite <- fl_100 at 2. apply fl_mono.
    setoid_replace 100%Q with (1 * 100)%Q at 2 by reflexivity.
    apply Qmult_le_compat_r; [exact Hq1 | discriminate].
Qed.

Lemma uptime_percentage_full total_runtime :
  0 < total_runtime -> (uptime_percentage_of total_runtime 0%Z == 100)%Q.
Proof.
  intros Hrt. rewrite uptime_percentage_positive_runtime by exact Hrt.
  rewrite Z.sub_0_r.
  assert (0 < total_seconds total_runtime)%Q as Hb by (apply total_seconds_pos, Hrt).
  unfold float_mul.
  assert (total_seconds total_runtime / total_seconds total_runtime == 1)%Q as ->.
  { apply Qmult_inv_r. intros H0. rewrite H0 in Hb. discriminate. }
  rewrite fl_1, Qmult_1_l. apply fl_100.
Qed.

End Figures.

(** C9: [generate_report] returns in every state, so no division in it is
    by zero, although a division by zero does raise.  The uptime percentage
    is 0 when the total runtime is not positive and is computed by a
    division otherwise, by a divisor that is not zero; the average response
    time is 0 when there are no samples and their mean otherwise. *)
Theorem report_divisions_are_guarded :
  forall (F : FloatModel) (w : World),
    (forall x w0, truediv x 0 w0 = Raises ZeroDivisionError w0) /\
    exists r,
      NetworkMonitor.generate_report w = Returns r (after_report w) /\
      (r_total_runtime r <= 0 -> r_uptime_percentage r = 0%Q) /\
      (0 < r_total_runtime r ->
         ~ (total_seconds (r_total_runtime r) == 0)%Q /\
         r_uptime_percentage r =
           float_mul (fl (total_seconds (r_total_uptime r) /
                          total_seconds (r_total_runtime r))) 100) /\
      (response_times (monitor w) = [] -> r_avg_response_time r = 0%Q) /\
      (response_times (monitor w) <> [] ->
         ~ (float_of_int (Z.of_nat (List.length (response_times (monitor w)))) == 0)%Q /\
         r_avg_response_time r = mean (response_times (monitor w))).
Proof.
  intros F w. split.
  { intros x w0. apply truediv_by_zero. reflexivity. }
  destruct (generate_report_returns w)
    as (r & Hrun & _ & Hrt & _ & _ & Hout & Hup & Hpct & Havg).
  exists r. split; [exact Hrun |].
  split; [| split; [| split]].
  - intros H. rewrite Hpct. apply uptime_percentage_nonpositive_runtime.
    rewrite <- Hrt. exact H.
  - intros H. split.
    + intros H0. pose proof (total_seconds_pos _ H) as Hpos.
      rewrite H0 in Hpos. discriminate.
    + rewrite Hpct, Hup, Hrt. apply uptime_percentage_positive_runtime.
      rewrite <- Hrt. exact H.
  - intros H. rewrite Havg, H. reflexivity.
  - intros H. destruct (response_times (monitor w)) as [| x xs]; [contradiction |].
    split; [apply float_of_length_nonzero | exact Havg].
Qed.

(** C9 at a concrete input: a report asked for right after the start, with
    a clock that stands still, so that the runtime is zero and there are no
    samples. *)
Lemma report_divisions_are_guarded_witness :
  let F := grid_float in
  let w := started (mkEnv (fun _ => 0) (fun _ _ => NoReply) (fun _ _ => false)) in
  exists r,
    NetworkMonitor.generate_report w = Returns r (after_report w) /\
    r_total_runtime r = 0 /\
    r_uptime_percentage r = 0%Q /\
    r_avg_response_time r = 0%Q.
Proof.
  intros F w. subst F w.
  destruct (report_divisions_are_guarded grid_float
              (started (mkEnv (fun _ => 0) (fun _ _ => NoReply) (fun _ _ => false))))
    as (_ & r & Hrun & Hzero & _ & Hnone & _).
  exists r. split; [exact Hrun |].
  assert (r_total_runtime r = 0) as Hrt.
  { revert Hrun. vm_compute. intros [= <-]. reflexivity. }
  split; [exact Hrt |].
  split; [apply Hzero; rewrite Hrt; apply Z.le_refl | apply Hnone; reflexivity].
Defined.

Section UptimeBounds.
Context {F : FloatModel}.

(** At report time the recorded outages, the open one included, fit in the
    runtime. *)
Lemma outage_time_within_runtime w :
  steady w ->
  let now := wall_clock (env w) (ticks w) in
  0 <= recorded_outage_time (monitor_at_report (monitor w) now)
    <= now - start_time (monitor w).
Proof.
  intros (Hmono & [_ Ho] & Hdur & Htl) now.
  assert (0 <= recorded_outage_time (monitor w)) as Hnonneg.
  { unfold recorded_outage_time. apply sum_timedelta_nonneg.
    apply Forall_map. exact Hdur. }
  unfold monitor_at_report.
  destruct (is_online (monitor w)) eqn:E; cbn [negb].
  - rewrite (online_unset _ Ho E) in Htl.
    specialize (Htl (ticks w) (le_n _)). fold now in Htl.
    destruct (current_outage_start (monitor w)); lia.
  - destruct (offline_set _ Ho E) as (t0 & C). rewrite C in Htl |- *.
    destruct Htl as [Hbefore Hafter].
    specialize (Hafter (ticks w) (le_n _)). fold now in Hafter.
    unfold recorded_outage_time, set_outages, ongoing_record in *. project.
    rewrite map_app. cbn [map]. rewrite sum_timedelta_app. project. lia.
Qed.

End UptimeBounds.

(** C8, as the code has it: in every state, a report with a positive total
    runtime that lists no outage shows an uptime percentage of exactly 100;
    and in a run whose clock never goes back and that generated no report
    before, a positive total runtime gives an uptime percentage between 0
    and 100. *)
Theorem uptime_percentage_within_0_100 :
  forall (F : FloatModel),
    (forall w : World,
        exists r w',
          NetworkMonitor.generate_report w = Returns r w' /\
          (0 < r_total_runtime r ->
           r_outage_details r = [] ->
           (r_uptime_percentage r == 100)%Q)) /\
    (forall (e : Env) (l : list action),
        monotone (wall_clock e) ->
        forallb is_probing l = true ->
        exists r w',
          NetworkMonitor.generate_report (world_of (run e l)) = Returns r w' /\
          (0 < r_total_runtime r -> (0 <= r_uptime_percentage r <= 100)%Q)).
Proof.
  intros F. split.
  - intros w.
    destruct (generate_report_returns w)
      as (r & Hrun & _ & Hrt & Hdet & _ & _ & _ & Hpct & _).
    exists r, (after_report w). split; [exact Hrun |].
    intros Hpos Hnone. rewrite Hrt in Hpos. rewrite Hdet in Hnone. rewrite Hpct.
    unfold recorded_outage_time. rewrite Hnone.
    apply uptime_percentage_full, Hpos.
  - intros e l Hmono Hl.
    destruct (probing_steady e l Hmono Hl) as (w & -> & Hw & He). cbn [world_of].
    destruct (generate_report_returns w)
      as (r & Hrun & _ & Hrt & _ & _ & _ & _ & Hpct & _).
    exists r, (after_report w). split; [exact Hrun |].
    intros Hpos. rewrite Hrt in Hpos. rewrite Hpct.
    apply uptime_percentage_bounds; [exact Hpos |].
    apply outage_time_within_runtime, Hw.
Qed.

(** C8 at concrete inputs: an outage of two seconds in a run of eleven, and
    a run of two successful checks, whose report lists no outage. *)
Lemma uptime_percentage_within_0_100_witness :
  let F := grid_float in
  let l := [ACheck failed_check; ACheck failed_check; ACheck failed_check;
            ACheck good_check; ACheck good_check] in
  let quiet := world_of (run demo_env [ACheck good_check; ACheck good_check]) in
  monotone (wall_clock demo_env) /\
  forallb is_probing l = true /\
  (exists r w',
      NetworkMonitor.generate_report (world_of (run demo_env l)) = Returns r w' /\
      r_total_runtime r = 11000000 /\
      r_total_outage_time r = 2000000 /\
      (0 <= r_uptime_percentage r <= 100)%Q) /\
  (exists r w',
      NetworkMonitor.generate_report quiet = Returns r w' /\
      r_total_runtime r = 4000000 /\
      r_outage_details r = [] /\
      (r_uptime_percentage r == 100)%Q).
Proof.
  intros F l quiet. subst l quiet.
  assert (monotone (wall_clock demo_env)) as Hmono
    by (intros i j H; unfold demo_env; cbn [wall_clock]; lia).
  destruct (uptime_percentage_within_0_100 F) as [Hfull Hrange].
  split; [exact Hmono |]. split; [reflexivity |]. split.
  - destruct (Hrange demo_env
                [ACheck failed_check; ACheck failed_check; ACheck failed_check;
                 ACheck good_check; ACheck good_check] Hmono eq_refl)
      as (r & w' & Hrun & Hbounds).
    exists r, w'. split; [exact Hrun |].
    assert (r_total_runtime r = 11000000 /\ r_total_outage_time r = 2000000)
      as [Hrt Hout].
    { revert Hrun. vm_compute. intros [= <- _]. split; reflexivity. }
    split; [exact Hrt |]. split; [exact Hout |].
    apply Hbounds. rewrite Hrt. reflexivity.
  - destruct (Hfull (world_of (run demo_env [ACheck good_check; ACheck good_check])))
      as (r & w' & Hrun & H100).
    exists r, w'. split; [exact Hrun |].
    assert (r_total_runtime r = 4000000 /\ r_outage_details r = []) as [Hrt Hnone].
    { revert Hrun. vm_compute. intros [= <- _]. split; reflexivity. }
    split; [exact Hrt |]. split; [exact Hnone |].
    apply H100; [rewrite Hrt; reflexivity | exact Hnone].
Defined.

(** C8 as the specification states it fails in two ways.  With a clock that
    never goes back, three failed checks followed by four reports: every
    report appends a record for the open outage, so the fourth one counts
    2 + 3 + 4 + 5 = 14 s of outage in a run of 10 s and shows a negative
    percentage (-40.00%).  With one report only, an outage during which the
    clock is set back: the outage is recorded with a length of -1 s, which
    gives 8 s of uptime in a run of 7 s and a percentage above 100. *)
Lemma repeated_report_or_clock_set_back_leaves_0_100 :
  let F := grid_float in
  let reported :=
    world_of (run demo_env [ACheck failed_check; ACheck failed_check; ACheck failed_check;
                            AReport; AReport; AReport]) in
  let set_back :=
    world_of (run set_back_env [ACheck failed_check; ACheck failed_check;
                                ACheck failed_check; ACheck good_check]) in
  (monotone (wall_clock demo_env) /\
   exists r w',
     NetworkMonitor.generate_report reported = Returns r w' /\
     count_ongoing (r_outage_details r) = 4%nat /\
     r_total_runtime r = 10000000 /\
     r_total_outage_time r = 14000000 /\
     r_total_uptime r = -4000000 /\
     (r_uptime_percentage r < 0)%Q) /\
  (exists r w',
     NetworkMonitor.generate_report set_back = Returns r w' /\
     r_outage_details r = [mkOutage 5000000 4000000 (-1000000) false] /\
     r_total_runtime r = 7000000 /\
     r_total_outage_time r = -1000000 /\
     r_total_uptime r = 8000000 /\
     (100 < r_uptime_percentage r)%Q) /\
  ~ uptime_within_0_100 reported /\
  ~ uptime_within_0_100 set_back.
Proof.
  intros F reported set_back.
  destruct (generate_report_returns reported)
    as (r1 & Hrun1 & _ & Hrt1 & Hdet1 & _ & Htot1 & Hup1 & Hpct1 & _).
  destruct (generate_report_returns set_back)
    as (r2 & Hrun2 & _ & Hrt2 & Hdet2 & _ & Htot2 & Hup2 & Hpct2 & _).
  assert (r_total_runtime r1 = 10000000) as Ert1
    by (rewrite Hrt1; vm_compute; reflexivity).
  assert (r_uptime_percentage r1 < 0)%Q as Eneg.
  { rewrite Hpct1. vm_compute. reflexivity. }
  assert (r_total_runtime r2 = 7000000) as Ert2
    by (rewrite Hrt2; vm_compute; reflexivity).
  assert (100 < r_uptime_percentage r2)%Q as Eover.
  { rewrite Hpct2. vm_compute. reflexivity. }
  split; [| split; [| split]].
  - split; [intros i j H; unfold demo_env; cbn [wall_clock]; lia |].
    exists r1, (after_report reported). split; [exact Hrun1 |].
    split; [rewrite Hdet1; vm_compute; reflexivity |].
    split; [exact Ert1 |].
    split; [rewrite Htot1; vm_compute; reflexivity |].
    split; [rewrite Hup1; vm_compute; reflexivity | exact Eneg].
  - exists r2, (after_report set_back). split; [exact Hrun2 |].
    split; [rewrite Hdet2; vm_compute; reflexivity |].
    split; [exact Ert2 |].
    split; [rewrite Htot2; vm_compute; reflexivity |].
    split; [rewrite Hup2; vm_compute; reflexivity | exact Eover].
  - intros H. destruct (H _ _ Hrun1) as [[Hlo _] _]; [rewrite Ert1; reflexivity |].
    exact (Qlt_not_le _ _ Eneg Hlo).
  - intros H. destruct (H _ _ Hrun2) as [[_ Hhi] _]; [rewrite Ert2; reflexivity |].
    exact (Qlt_not_le _ _ Eover Hhi).
Qed.

Section OpenOutage.
Context {F : FloatModel}.

Lemma count_ongoing_app l o :
  count_ongoing (l ++ [o]) = (count_ongoing l + if o_ongoing o then 1 else 0)%nat.
Proof.
  unfold count_ongoing. rewrite filter_app, length_app. cbn [filter].
  destruct (o_ongoing o); reflexivity.
Qed.

(** [record_check] appends closed records only. *)
Lemma record_check_keeps_ongoing w success target r test_type details :
  sound (monitor w) ->
  exists w',
    NetworkMonitor.record_check success target r test_type details w = Returns tt w' /\
    sound (monitor w') /\
    count_ongoing (outages (monitor w')) = count_ongoing (outages (monitor w)).
Proof.
  intros Hw.
  destruct (record_check_sound w success target r test_type details Hw)
    as (w' & Hrun & Hw' & _).
  exists w'. split; [exact Hrun |]. split; [exact Hw' |].
  destruct Hw as [_ Ho]. revert Hrun. destruct success.
  - destruct (is_online (monitor w)) eqn:E.
    + rewrite record_check_success_online by exact E. intros [= <-]. reflexivity.
    + destruct (offline_set _ Ho E) as (t0 & C).
      rewrite (record_check_success_offline _ _ _ _ _ _ E C). intros [= <-]. project.
      rewrite count_ongoing_app. cbn. lia.
  - destruct (is_online (monitor w) && (FAILURE_THRESHOLD <=? consecutive_failures (monitor w) + 1))
      eqn:T.
    + apply andb_true_iff in T as [E T]. apply Z.leb_le in T.
      rewrite (record_check_failure_threshold _ _ _ _ _ E T). intros [= <-]. reflexivity.
    + rewrite record_check_failure_below by exact T. intros [= <-]. reflexivity.
Qed.

(** Before the first report no record is marked ongoing. *)
Lemma probing_has_no_ongoing e l :
  forallb is_probing l = true ->
  exists w,
    run e l = Returns tt w /\ sound (monitor w) /\
    count_ongoing (outages (monitor w)) = 0%nat.
Proof.
  intros Hl. rewrite run_from_started.
  destruct (actions_preserve
              (fun w => sound (monitor w) /\ count_ongoing (outages (monitor w)) = 0%nat)
              is_probing) with (l := l) (w := started e) as (w' & Hrun & Hw' & Hnone).
  - intros a w Ha [Hw Hnone].
    apply (probing_preserves
             (fun w => sound (monitor w) /\ count_ongoing (outages (monitor w)) = 0%nat));
      try assumption.
    + intros w0 success target r test_type details [H0 Hn0].
      destruct (record_check_keeps_ongoing w0 success target r test_type details H0)
        as (w' & Hrun & Hs & Hcount).
      exists w'. split; [exact Hrun |]. split; [exact Hs | congruence].
    + intros w0 p H0. exact H0.
    + split; assumption.
  - exact Hl.
  - split; [apply started_sound | reflexivity].
  - exists w'. split; [exact Hrun |]. split; assumption.
Qed.

Lemma report_when_offline w outage_start :
  is_online (monitor w) = false ->
  current_outage_start (monitor w) = Some outage_start ->
  let now := wall_clock (env w) (ticks w) in
  exists r w',
    NetworkMonitor.generate_report w = Returns r w' /\
    r_end_time r = now /\
    r_outage_details r = outages (monitor w) ++ [ongoing_record outage_start now] /\
    r_total_outage_time r = recorded_outage_time (monitor w) + (now - outage_start) /\
    outages (monitor w') = outages (monitor w) ++ [ongoing_record outage_start now] /\
    is_online (monitor w') = false /\
    current_outage_start (monitor w') = Some outage_start.
Proof.
  intros E C now.
  destruct (generate_report_returns w)
    as (r & Hrun & Hend & _ & Hdet & _ & Hout & _).
  fold now in Hrun, Hend, Hdet, Hout.
  assert (monitor_at_report (monitor w) now =
          set_outages (outages (monitor w) ++ [ongoing_record outage_start now]) (monitor w))
    as Hm by (unfold monitor_at_report; rewrite E, C; reflexivity).
  rewrite Hm in Hdet, Hout.
  exists r, (after_report w). split; [exact Hrun |]. split; [exact Hend |].
  split; [exact Hdet |]. split.
  - rewrite Hout. unfold recorded_outage_time, set_outages. project.
    rewrite map_app. cbn [map]. rewrite sum_timedelta_app. reflexivity.
  - unfold after_report. project. fold now. rewrite Hm.
    unfold set_outages. project. repeat split; assumption.
Qed.

End OpenOutage.

(** C1, as the code has it: in a run that generated no report yet, a report
    generated while the monitor is offline lists the recorded outages
    followed by one synthetic record, the only one marked ongoing, which
    starts at [current_outage_start], ends at the time of the report and
    lasts the difference; the total outage time includes it.  The record is
    appended to the monitor's own outage list, and [is_online] and
    [current_outage_start] stay as they were. *)
Theorem report_appends_the_open_outage :
  forall (F : FloatModel) (e : Env) (l : list action),
    forallb is_probing l = true ->
    let w := world_of (run e l) in
    let now := wall_clock (env w) (ticks w) in
    is_online (monitor w) = false ->
    exists outage_start r w',
      current_outage_start (monitor w) = Some outage_start /\
      NetworkMonitor.generate_report w = Returns r w' /\
      r_end_time r = now /\
      r_outage_details r = outages (monitor w) ++ [ongoing_record outage_start now] /\
      filter o_ongoing (r_outage_details r) = [ongoing_record outage_start now] /\
      r_total_outage_time r = recorded_outage_time (monitor w) + (now - outage_start) /\
      outages (monitor w') = r_outage_details r /\
      is_online (monitor w') = false /\
      current_outage_start (monitor w') = Some outage_start.
Proof.
  intros F e l Hl.
  destruct (probing_has_no_ongoing e l Hl) as (w & -> & [_ Ho] & Hnone).
  change (world_of (Returns tt w)) with w. intros w0 now E. subst w0.
  destruct (offline_set _ Ho E) as (t0 & C).
  destruct (report_when_offline w t0 E C)
    as (r & w' & Hrun & Hend & Hdet & Htot & Hos & E' & C').
  fold now in Hend, Hdet, Htot, Hos.
  exists t0, r, w'. split; [exact C |]. split; [exact Hrun |]. split; [exact Hend |].
  split; [exact Hdet |]. split.
  - rewrite Hdet, filter_app. unfold count_ongoing in Hnone.
    apply length_zero_iff_nil in Hnone. rewrite Hnone. reflexivity.
  - split; [exact Htot |]. split; [congruence |]. split; assumption.
Qed.

(** C1 at a concrete input: a report after three failed checks. *)
Lemma report_appends_the_open_outage_witness :
  let F := grid_float in
  let l := [ACheck failed_check; ACheck failed_check; ACheck failed_check] in
  let w := world_of (run demo_env l) in
  forallb is_probing l = true /\
  is_online (monitor w) = false /\
  exists r w',
    NetworkMonitor.generate_report w = Returns r w' /\
    r_outage_details r = [mkOutage 5000000 7000000 2000000 true] /\
    outages (monitor w') = [mkOutage 5000000 7000000 2000000 true].
Proof.
  intros F l w. subst F l w.
  assert (is_online (monitor (world_of (run (F := grid_float) demo_env
            [ACheck failed_check; ACheck failed_check; ACheck failed_check]))) = false) as Hoff
    by (vm_compute; reflexivity).
  split; [reflexivity |]. split; [exact Hoff |].
  destruct (report_appends_the_open_outage grid_float demo_env
              [ACheck failed_check; ACheck failed_check; ACheck failed_check]
              eq_refl Hoff)
    as (t0 & r & w' & C & Hrun & _ & Hdet & _ & _ & Hos & _).
  exists r, w'. split; [exact Hrun |].
  vm_compute in C. injection C as <-.
  vm_compute in Hdet.
  rewrite Hos. split; exact Hdet.
Defined.

(** C1 as the specification states it fails: after three failed checks the
    first report appends its synthetic record to the monitor's outage list,
    and a second report, one second later, lists two ongoing records for the
    one open outage and counts 5 s of outage where 3 s have passed. *)
Lemma repeated_report_duplicates_the_open_outage :
  let F := grid_float in
  let w := world_of (run demo_env [ACheck failed_check; ACheck failed_check; ACheck failed_check]) in
  is_online (monitor w) = false /\
  (exists r1 w1 r2 w2,
      NetworkMonitor.generate_report w = Returns r1 w1 /\
      NetworkMonitor.generate_report w1 = Returns r2 w2 /\
      outages (monitor w) = [] /\
      outages (monitor w1) = [mkOutage 5000000 7000000 2000000 true] /\
      r_outage_details r2 =
        [mkOutage 5000000 7000000 2000000 true; mkOutage 5000000 8000000 3000000 true] /\
      count_ongoing (r_outage_details r2) = 2%nat /\
      r_total_outage_time r2 = 5000000 /\
      r_end_time r2 - 5000000 = 3000000) /\
  ~ report_on_a_snapshot w.
Proof.
  intros F w. subst F.
  destruct (generate_report_returns (F := grid_float) w)
    as (r1 & Hrun1 & _ & _ & _ & _ & _ & _).
  destruct (generate_report_returns (F := grid_float) (after_report w))
    as (r2 & Hrun2 & Hend2 & _ & Hdet2 & _ & Htot2 & _).
  assert (outages (monitor (after_report w)) = [mkOutage 5000000 7000000 2000000 true])
    as Hmutated by (vm_compute; reflexivity).
  split; [vm_compute; reflexivity |]. split.
  - exists r1, (after_report w), r2, (after_report (after_report w)).
    split; [exact Hrun1 |]. split; [exact Hrun2 |].
    split; [vm_compute; reflexivity |]. split; [exact Hmutated |].
    rewrite Hdet2, Htot2, Hend2.
    repeat split; vm_compute; reflexivity.
  - intros H. destruct (H _ _ Hrun1) as (_ & Hsame & _).
    rewrite Hmutated in Hsame. vm_compute in Hsame. discriminate Hsame.
Qed.

(** * Further properties of the code *)

(** ** One call of [record_check] as a step, and invariants of runs *)

Section Steps.
Context {F : FloatModel}.

(** From a monitor whose open-outage attribute is consistent, [record_check]
    returns, and what it leaves is one of the four steps. *)
Lemma record_check_step w success target r test_type details :
  outage_start_ok (monitor w) ->
  exists w',
    NetworkMonitor.record_check success target r test_type details w = Returns tt w' /\
    check_step w target r test_type details success w'.
Proof.
  intros Ho. destruct success.
  - destruct (is_online (monitor w)) eqn:E.
    + rewrite record_check_success_online by exact E.
      eexists. split; [reflexivity |]. apply step_success_online, E.
    + destruct (offline_set _ Ho E) as (t0 & C).
      rewrite (record_check_success_offline _ _ _ _ _ _ E C).
      eexists. split; [reflexivity |]. apply step_success_offline; assumption.
  - destruct (is_online (monitor w) && (FAILURE_THRESHOLD <=? consecutive_failures (monitor w) + 1))
      eqn:T.
    + apply andb_true_iff in T as [E T]. apply Z.leb_le in T.
      rewrite (record_check_failure_threshold _ _ _ _ _ E T).
      eexists. split; [reflexivity |]. apply step_failure_threshold; assumption.
    + rewrite record_check_failure_below by exact T.
      eexists. split; [reflexivity |]. apply step_failure_below, T.
Qed.

Lemma check_step_sound w target r test_type details success w' :
  sound (monitor w) -> check_step w target r test_type details success w' ->
  sound (monitor w').
Proof.
  intros Hw Hstep.
  destruct (record_check_sound w success target r test_type details Hw)
    as (w1 & Hrun & Hw1 & _).
  destruct Hw as [_ Ho].
  destruct Hstep as [E | t0 E C | T | E T].
  - rewrite record_check_success_online in Hrun by exact E. injection Hrun as <-. exact Hw1.
  - rewrite (record_check_success_offline _ _ _ _ _ _ E C) in Hrun.
    injection Hrun as <-. exact Hw1.
  - rewrite record_check_failure_below in Hrun by exact T. injection Hrun as <-. exact Hw1.
  - rewrite (record_check_failure_threshold _ _ _ _ _ E T) in Hrun.
    injection Hrun as <-. exact Hw1.
Qed.

Lemma after_report_sound w : sound (monitor w) -> sound (monitor (after_report w)).
Proof.
  intros Hw. destruct (report_sound w Hw) as (w1 & Hrun1 & Hw1).
  destruct (generate_report_returns w) as (r & Hrun & _).
  cbn [do_action] in Hrun1. erewrite bind_returns in Hrun1 by exact Hrun.
  injection Hrun1 as <-. exact Hw1.
Qed.

Lemma do_actions_app l1 l2 w w1 :
  do_actions l1 w = Returns tt w1 -> do_actions (l1 ++ l2) w = do_actions l2 w1.
Proof.
  revert w. induction l1 as [| a l1 IH]; intros w H.
  - injection H as <-. reflexivity.
  - cbn [app do_actions] in *. unfold bind in *.
    destruct (do_action a w) as [[] w0 | x w0]; [| discriminate].
    apply IH, H.
Qed.

Variable I : World -> Prop.
Hypothesis I_check :
  forall w target r test_type details success w',
    sound (monitor w) -> I w ->
    check_step w target r test_type details success w' -> I w'.
Hypothesis I_probe : forall w p, I w -> I (probed w p).
Hypothesis I_report : forall w, sound (monitor w) -> I w -> I (after_report w).

Lemma invariant_check w success target r test_type details :
  sound (monitor w) /\ I w ->
  exists w',
    NetworkMonitor.record_check success target r test_type details w = Returns tt w' /\
    sound (monitor w') /\ I w'.
Proof.
  intros [Hw HI].
  destruct (record_check_step w success target r test_type details (proj2 Hw))
    as (w' & Hrun & Hstep).
  exists w'. split; [exact Hrun |]. split.
  - eapply check_step_sound; eassumption.
  - eapply I_check; eassumption.
Qed.

Lemma invariant_round w :
  sound (monitor w) /\ I w ->
  exists online w',
    perform_connectivity_test w = Returns online w' /\ sound (monitor w') /\ I w'.
Proof.
  apply (round_preserves (fun w => sound (monitor w) /\ I w)).
  - intros w0 success target r test_type details H0. apply invariant_check, H0.
  - intros w0 p [H0 H1]. split; [exact H0 | apply I_probe, H1].
Qed.

Lemma invariant_report w :
  sound (monitor w) /\ I w ->
  exists r,
    NetworkMonitor.generate_report w = Returns r (after_report w) /\
    sound (monitor (after_report w)) /\ I (after_report w).
Proof.
  intros [Hw HI]. destruct (generate_report_returns w) as (r & Hrun & _).
  exists r. split; [exact Hrun |].
  split; [apply after_report_sound, Hw | apply I_report; assumption].
Qed.

(** An invariant of [record_check] that probing does not touch is kept by
    every sequence of checks and rounds. *)
Lemma invariant_probing l w :
  forallb is_probing l = true ->
  sound (monitor w) /\ I w ->
  exists w', do_actions l w = Returns tt w' /\ sound (monitor w') /\ I w'.
Proof.
  apply (actions_preserve (fun w => sound (monitor w) /\ I w) is_probing).
  intros a w0 Ha Hw0.
  apply (probing_preserves (fun w => sound (monitor w) /\ I w)); try assumption.
  - intros w1 success target r test_type details H1. apply invariant_check, H1.
  - intros w1 p [H1 H2]. split; [exact H1 | apply I_probe, H2].
Qed.

(** If report generation keeps it too, every sequence of actions keeps it. *)
Lemma invariant_actions l w :
  sound (monitor w) /\ I w ->
  exists w', do_actions l w = Returns tt w' /\ sound (monitor w') /\ I w'.
Proof.
  apply (actions_preserve (fun w => sound (monitor w) /\ I w) (fun _ => true));
    [| apply forallb_forall; reflexivity].
  intros a w0 _ Hw0. destruct a as [c | |].
  - apply invariant_check, Hw0.
  - destruct (invariant_round w0 Hw0) as (b & w' & Hrun & Hw').
    cbn [do_action]. erewrite bind_returns by exact Hrun.
    exists w'. split; [reflexivity | exact Hw'].
  - destruct (invariant_report w0 Hw0) as (r & Hrun & Hw').
    cbn [do_action]. erewrite bind_returns by exact Hrun.
    eexists. split; [reflexivity | exact Hw'].
Qed.

Lemma probing_invariant e l :
  I (started e) -> forallb is_probing l = true ->
  exists w', run e l = Returns tt w' /\ sound (monitor w') /\ I w'.
Proof.
  intros H0 Hl. rewrite run_from_started.
  apply invariant_probing; [exact Hl |]. split; [apply started_sound | exact H0].
Qed.

Lemma run_invariant e l :
  I (started e) ->
  exists w', run e l = Returns tt w' /\ sound (monitor w') /\ I w'.
Proof.
  intros H0. rewrite run_from_started.
  apply invariant_actions. split; [apply started_sound | exact H0].
Qed.

End Steps.

(** ** The failure counter and the online-to-offline transition *)

Section FailureCounter.
Context {F : FloatModel}.

Lemma check_step_failures_ok w target r test_type details success w' :
  failures_ok (monitor w) ->
  check_step w target r test_type details success w' ->
  failures_ok (monitor w').
Proof.
  unfold failures_ok, FAILURE_THRESHOLD. intros (H0 & Hon & Hoff) Hstep.
  destruct Hstep as [E | t0 E C | T | E T]; project.
  - repeat split; intros; first [lia | discriminate].
  - repeat split; intros; first [lia | discriminate].
  - destruct (is_online (monitor w)) eqn:E.
    + cbn [andb] in T. apply Z.leb_gt in T. unfold FAILURE_THRESHOLD in T.
      repeat split; intros; first [lia | discriminate].
    + specialize (Hoff eq_refl). repeat split; intros; first [lia | discriminate].
  - unfold FAILURE_THRESHOLD in T. repeat split; intros; first [lia | discriminate].
Qed.

Lemma run_failures_ok e l :
  exists w, run e l = Returns tt w /\ sound (monitor w) /\ failures_ok (monitor w).
Proof.
  apply (run_invariant (fun w => failures_ok (monitor w))).
  - intros w target r test_type details success w' _ H Hstep.
    eapply check_step_failures_ok; eassumption.
  - intros w p H. exact H.
  - intros w _ H. unfold after_report, monitor_at_report. project.
    destruct (negb (is_online (monitor w))), (current_outage_start (monitor w)); exact H.
  - unfold failures_ok, FAILURE_THRESHOLD. cbn. repeat split; intros; first [lia | discriminate].
Qed.

(** What one [record_check] call does about going offline. *)
Lemma check_goes_offline_iff w c :
  sound (monitor w) -> failures_ok (monitor w) ->
  exists w',
    do_check c w = Returns tt w' /\
    (went_offline w w' <->
       is_online (monitor w) = true /\ c_success c = false /\
       consecutive_failures (monitor w) = FAILURE_THRESHOLD - 1) /\
    (In "OUTAGE_START" (event_types (new_events w w')) <-> went_offline w w') /\
    (went_offline w w' ->
       current_outage_start (monitor w') = Some (wall_clock (env w) (S (ticks w))) /\
       console w' = console w ++ [OutageDetected (wall_clock (env w) (S (ticks w)))] /\
       outages (monitor w') = outages (monitor w)).
Proof.
  intros [_ Ho] (H0 & Hon & Hoff). unfold do_check, went_offline.
  destruct (record_check_step w (c_success c) (c_target c) (c_response_time c)
              (c_test_type c) (c_details c) Ho) as (w' & Hrun & Hstep).
  exists w'. split; [exact Hrun |].
  remember (c_success c) as s eqn:Hs.
  destruct Hstep as [E | t0 E C | T | E T];
    (erewrite new_events_app by (project; reflexivity)); project; cbn [event_types map In];
    unfold FAILURE_THRESHOLD in *.
  - split; [split; [intros [_ K]; discriminate K | intros (_ & K & _); discriminate K] |].
    split; [split; [intros [K | []]; discriminate K | intros [_ K]; discriminate K] |].
    intros [_ K]. discriminate K.
  - split; [split; [intros [_ K]; discriminate K | intros (_ & K & _); discriminate K] |].
    split; [split; [intros [K | [K | []]]; discriminate K | intros [_ K]; discriminate K] |].
    intros [_ K]. discriminate K.
  - destruct (is_online (monitor w)) eqn:E.
    + cbn [andb] in T. apply Z.leb_gt in T.
      split; [split; [intros [_ K]; discriminate K | intros (_ & _ & K); lia] |].
      split; [split; [intros [K | []]; discriminate K | intros [_ K]; discriminate K] |].
      intros [_ K]. discriminate K.
    + split; [split; [intros [K _]; discriminate K | intros (K & _); discriminate K] |].
      split; [split; [intros [K | []]; discriminate K | intros [K _]; discriminate K] |].
      intros [K _]. discriminate K.
  - specialize (Hon E).
    split; [split; [intros _; split; [exact E | split; [reflexivity | lia]]
                   | intros _; split; [exact E | reflexivity]] |].
    split; [split; [intros _; split; [exact E | reflexivity]
                   | intros _; right; left; reflexivity] |].
    intros _. repeat split; reflexivity.
Qed.

End FailureCounter.

(** X1: after any run the failure counter agrees with the classification:
    it is never negative, it is below FAILURE_THRESHOLD while the monitor is
    online and at or above it while the monitor is offline. *)
Theorem failure_counter_matches_classification :
  forall (F : FloatModel) (e : Env) (l : list action),
    let m := monitor (world_of (run e l)) in
    returned (run e l) = true /\
    0 <= consecutive_failures m /\
    (is_online m = true -> consecutive_failures m < FAILURE_THRESHOLD) /\
    (is_online m = false -> FAILURE_THRESHOLD <= consecutive_failures m).
Proof.
  intros F e l. destruct (run_failures_ok e l) as (w & -> & _ & H).
  split; [reflexivity | exact H].
Qed.

(** X1 at concrete inputs: two failures leave the monitor online with a
    counter of 2, a third takes it offline with a counter of 3. *)
Lemma failure_counter_matches_classification_witness :
  let F := grid_float in
  let m2 := monitor (world_of (run demo_env [ACheck failed_check; ACheck failed_check])) in
  let m3 := monitor (world_of (run demo_env
              [ACheck failed_check; ACheck failed_check; ACheck failed_check])) in
  (is_online m2, consecutive_failures m2) = (true, 2) /\
  (is_online m3, consecutive_failures m3) = (false, 3) /\
  consecutive_failures m2 < FAILURE_THRESHOLD /\
  FAILURE_THRESHOLD <= consecutive_failures m3.
Proof.
  intros F m2 m3. subst F m2 m3.
  assert (is_online (monitor (world_of (run (F := grid_float) demo_env
            [ACheck failed_check; ACheck failed_check]))) = true) as H2
    by (vm_compute; reflexivity).
  assert (is_online (monitor (world_of (run (F := grid_float) demo_env
            [ACheck failed_check; ACheck failed_check; ACheck failed_check]))) = false) as H3
    by (vm_compute; reflexivity).
  split; [vm_compute; reflexivity |]. split; [vm_compute; reflexivity |].
  destruct (failure_counter_matches_classification grid_float demo_env
              [ACheck failed_check; ACheck failed_check]) as (_ & _ & Hon & _).
  destruct (failure_counter_matches_classification grid_float demo_env
              [ACheck failed_check; ACheck failed_check; ACheck failed_check])
    as (_ & _ & _ & Hoff).
  split; [exact (Hon H2) | exact (Hoff H3)].
Defined.

(** X2: after any run, a [record_check] call takes the monitor from online
    to offline, and logs OUTAGE_START, if and only if the monitor was online,
    the check failed and it was the third failure in a row; the call then
    sets [current_outage_start] to a clock reading taken during the call,
    prints the notice and appends no outage record. *)
Theorem goes_offline_iff_third_failure_in_a_row :
  forall (F : FloatModel) (e : Env) (l : list action) (c : Check),
    let w := world_of (run e l) in
    exists w',
      do_check c w = Returns tt w' /\
      (went_offline w w' <->
         is_online (monitor w) = true /\ c_success c = false /\
         consecutive_failures (monitor w) = FAILURE_THRESHOLD - 1) /\
      (In "OUTAGE_START" (event_types (new_events w w')) <-> went_offline w w') /\
      (went_offline w w' ->
         current_outage_start (monitor w') = Some (wall_clock (env w) (S (ticks w))) /\
         console w' = console w ++ [OutageDetected (wall_clock (env w) (S (ticks w)))] /\
         outages (monitor w') = outages (monitor w)).
Proof.
  intros F e l c. destruct (run_failures_ok e l) as (w & -> & Hw & Hf).
  change (world_of (Returns tt w)) with w. cbv zeta.
  exact (check_goes_offline_iff w c Hw Hf).
Qed.

(** X2 at a concrete input: the third failed check in a row. *)
Lemma goes_offline_iff_third_failure_in_a_row_witness :
  let F := grid_float in
  let w := world_of (run demo_env [ACheck failed_check; ACheck failed_check]) in
  exists w',
    do_check failed_check w = Returns tt w' /\
    went_offline w w' /\
    current_outage_start (monitor w') = Some 5000000.
Proof.
  intros F w. subst w.
  destruct (goes_offline_iff_third_failure_in_a_row F demo_env
              [ACheck failed_check; ACheck failed_check] failed_check)
    as (w' & Hrun & Hiff & _ & Hset).
  exists w'. split; [exact Hrun |].
  assert (went_offline
            (world_of (run demo_env [ACheck failed_check; ACheck failed_check])) w') as Hoff.
  { apply Hiff. repeat split; vm_compute; reflexivity. }
  split; [exact Hoff |].
  destruct (Hset Hoff) as (Hcur & _). rewrite Hcur. vm_compute. reflexivity.
Defined.

(** ** Nothing recorded is ever lost *)

Section AppendOnly.
Context {F : FloatModel}.

Lemma continues_refl w : continues w w.
Proof.
  unfold continues.
  repeat split; try reflexivity; try lia; exists []; rewrite app_nil_r; reflexivity.
Qed.

Lemma continues_trans w1 w2 w3 : continues w1 w2 -> continues w2 w3 -> continues w1 w3.
Proof.
  unfold continues.
  intros (He & Hs & Ht & Hp & Htc & Hsc & Hfc & [a Ha] & [b Hb] & [c Hc] & [d Hd] & [g Hg])
         (He' & Hs' & Ht' & Hp' & Htc' & Hsc' & Hfc' & [a' Ha'] & [b' Hb'] & [c' Hc']
            & [d' Hd'] & [g' Hg']).
  split; [congruence |]. split; [congruence |].
  split; [lia |]. split; [lia |]. split; [lia |]. split; [lia |]. split; [lia |].
  split; [exists (a ++ a'); rewrite Ha', Ha, app_assoc; reflexivity |].
  split; [exists (b ++ b'); rewrite Hb', Hb, app_assoc; reflexivity |].
  split; [exists (c ++ c'); rewrite Hc', Hc, app_assoc; reflexivity |].
  split; [exists (d ++ d'); rewrite Hd', Hd, app_assoc; reflexivity |].
  exists (g ++ g'). rewrite Hg', Hg, app_assoc. reflexivity.
Qed.

Lemma keeps_list {A} (l : list A) : exists more, l = l ++ more.
Proof. exists []. rewrite app_nil_r. reflexivity. Qed.

Lemma grows_list {A} (l more : list A) : exists rest, l ++ more = l ++ rest.
Proof. exists more. reflexivity. Qed.

Lemma with_sample_grows r (l : list Q) : exists rest, with_sample r l = l ++ rest.
Proof. destruct r; [apply grows_list | apply keeps_list]. Qed.

Lemma check_step_continues w target r test_type details success w' :
  check_step w target r test_type details success w' -> continues w w'.
Proof.
  intros Hstep. unfold continues.
  destruct Hstep as [E | t0 E C | T | E T]; project;
    repeat split; try reflexivity; try lia;
    first [apply grows_list | apply keeps_list | apply with_sample_grows].
Qed.

Lemma probed_continues w p : continues w (probed w p).
Proof.
  unfold continues, probed. project.
  repeat split; try reflexivity; try lia; first [apply grows_list | apply keeps_list].
Qed.

Lemma after_report_continues w : continues w (after_report w).
Proof.
  unfold continues, after_report, monitor_at_report. project.
  destruct (negb (is_online (monitor w))), (current_outage_start (monitor w));
    unfold set_outages; project;
    repeat split; try reflexivity; try lia; first [apply grows_list | apply keeps_list].
Qed.

Lemma actions_continue l w :
  sound (monitor w) ->
  exists w', do_actions l w = Returns tt w' /\ sound (monitor w') /\ continues w w'.
Proof.
  intros Hw. apply (invariant_actions (continues w)).
  - intros w1 target r test_type details success w2 _ H1 Hstep.
    eapply continues_trans; [exact H1 |]. eapply check_step_continues, Hstep.
  - intros w1 p H1. eapply continues_trans; [exact H1 | apply probed_continues].
  - intros w1 _ H1. eapply continues_trans; [exact H1 | apply after_report_continues].
  - split; [exact Hw | apply continues_refl].
Qed.

End AppendOnly.

(** X3: a run that goes on continues the run so far: whatever checks,
    rounds and reports follow, the log rows, the outage records, the
    response times, the printed notices and the probes made so far are
    still there, in the same order, as a prefix of the longer lists; the
    counters and the clock and probe positions never go back, and the start
    time stays. *)
Theorem longer_run_continues_shorter_run :
  forall (F : FloatModel) (e : Env) (l more : list action),
    returned (run e (l ++ more)) = true /\
    continues (world_of (run e l)) (world_of (run e (l ++ more))).
Proof.
  intros F e l more.
  destruct (run_sound e l) as (w & Hrun & Hw).
  destruct (actions_continue more w Hw) as (w' & Hmore & _ & Hc).
  rewrite Hrun. rewrite run_from_started in *.
  rewrite (do_actions_app _ more _ _ Hrun), Hmore.
  split; [reflexivity | exact Hc].
Qed.

(** ** Failures below the threshold leave no trace in the outages *)

Section Hysteresis.
Context {F : FloatModel}.

Lemma do_check_sound w c w' :
  sound (monitor w) -> do_check c w = Returns tt w' -> sound (monitor w').
Proof.
  intros Hw Hrun.
  destruct (record_check_sound w (c_success c) (c_target c) (c_response_time c)
              (c_test_type c) (c_details c) Hw) as (w1 & Hrun1 & Hw1 & _).
  unfold do_check in Hrun. rewrite Hrun in Hrun1. injection Hrun1 as <-. exact Hw1.
Qed.

Lemma count_events_cons ty r rows :
  count_events ty (r :: rows) =
  ((if string_dec (row_event_type r) ty then 1 else 0) + count_events ty rows)%nat.
Proof.
  unfold count_events, event_types. cbn [map count_occ].
  destruct (string_dec (row_event_type r) ty); reflexivity.
Qed.

Lemma count_events_app ty rows more :
  count_events ty (rows ++ more) = (count_events ty rows + count_events ty more)%nat.
Proof.
  unfold count_events, event_types. rewrite map_app. apply count_occ_app.
Qed.

Lemma quiet_checks cs :
  forall w,
    sound (monitor w) -> is_online (monitor w) = true ->
    below_threshold (consecutive_failures (monitor w)) cs = true ->
    exists w' rows,
      do_checks cs w = Returns tt w' /\
      events w' = events w ++ rows /\
      count_events "OUTAGE_START" rows = 0%nat /\
      count_events "OUTAGE_END" rows = 0%nat /\
      is_online (monitor w') = true /\
      outages (monitor w') = outages (monitor w) /\
      current_outage_start (monitor w') = current_outage_start (monitor w).
Proof.
  induction cs as [| c cs IH]; intros w Hw E Hq.
  - exists w, []. rewrite app_nil_r. repeat split; try reflexivity. exact E.
  - cbn [below_threshold] in Hq. destruct (c_success c) eqn:Hs.
    + destruct (good_check_online w c E Hs)
        as (w1 & r1 & Hrun1 & Hev1 & Hty1 & E1 & Hcf1 & Hos1 & Hc1).
      rewrite <- Hcf1 in Hq.
      destruct (IH w1 (do_check_sound _ _ _ Hw Hrun1) E1 Hq)
        as (w' & rows & Hrun & Hev & Hn1 & Hn2 & E' & Hos & Hc).
      exists w', (r1 :: rows). rewrite (do_checks_cons _ _ _ _ Hrun1).
      split; [exact Hrun |].
      split; [rewrite Hev, Hev1, <- app_assoc; reflexivity |].
      rewrite !count_events_cons, Hty1, Hn1, Hn2.
      repeat split; try reflexivity; congruence.
    + apply andb_true_iff in Hq as [Hlt Hq]. apply Z.ltb_lt in Hlt.
      destruct (failed_check_below w c E Hs Hlt)
        as (w1 & r1 & Hrun1 & Hev1 & Hty1 & E1 & Hcf1 & Hos1 & Hc1).
      rewrite <- Hcf1 in Hq.
      destruct (IH w1 (do_check_sound _ _ _ Hw Hrun1) E1 Hq)
        as (w' & rows & Hrun & Hev & Hn1 & Hn2 & E' & Hos & Hc).
      exists w', (r1 :: rows). rewrite (do_checks_cons _ _ _ _ Hrun1).
      split; [exact Hrun |].
      split; [rewrite Hev, Hev1, <- app_assoc; reflexivity |].
      rewrite !count_events_cons, Hty1, Hn1, Hn2.
      repeat split; try reflexivity; congruence.
Qed.

Lemma loud_checks cs :
  forall w,
    sound (monitor w) -> is_online (monitor w) = true ->
    below_threshold (consecutive_failures (monitor w)) cs = false ->
    exists w' rows,
      do_checks cs w = Returns tt w' /\
      events w' = events w ++ rows /\
      (1 <= count_events "OUTAGE_START" rows)%nat.
Proof.
  induction cs as [| c cs IH]; intros w Hw E Hq; [discriminate |].
  cbn [below_threshold] in Hq. destruct (c_success c) eqn:Hs.
  - destruct (good_check_online w c E Hs)
      as (w1 & r1 & Hrun1 & Hev1 & Hty1 & E1 & Hcf1 & Hos1 & Hc1).
    rewrite <- Hcf1 in Hq.
    destruct (IH w1 (do_check_sound _ _ _ Hw Hrun1) E1 Hq) as (w' & rows & Hrun & Hev & Hn).
    exists w', (r1 :: rows). rewrite (do_checks_cons _ _ _ _ Hrun1).
    split; [exact Hrun |].
    split; [rewrite Hev, Hev1, <- app_assoc; reflexivity |].
    rewrite count_events_cons. lia.
  - destruct (Z.ltb_spec (consecutive_failures (monitor w) + 1) FAILURE_THRESHOLD)
      as [Hlt | Hge].
    + cbn [andb] in Hq.
      destruct (failed_check_below w c E Hs Hlt)
        as (w1 & r1 & Hrun1 & Hev1 & Hty1 & E1 & Hcf1 & Hos1 & Hc1).
      rewrite <- Hcf1 in Hq.
      destruct (IH w1 (do_check_sound _ _ _ Hw Hrun1) E1 Hq) as (w' & rows & Hrun & Hev & Hn).
      exists w', (r1 :: rows). rewrite (do_checks_cons _ _ _ _ Hrun1).
      split; [exact Hrun |].
      split; [rewrite Hev, Hev1, <- app_assoc; reflexivity |].
      rewrite count_events_cons. lia.
    + destruct (failed_check_threshold w c E Hs Hge)
        as (w1 & r1 & r2 & Hrun1 & Hev1 & Hty1 & Hty2 & _).
      destruct (actions_continue (map ACheck cs) w1 (do_check_sound _ _ _ Hw Hrun1))
        as (w' & Hrun & _ & Hcont).
      destruct Hcont as (_ & _ & _ & _ & _ & _ & _ & [rows Hev] & _).
      exists w', (r1 :: r2 :: rows). rewrite (do_checks_cons _ _ _ _ Hrun1).
      split; [exact Hrun |].
      split; [rewrite Hev, Hev1, <- app_assoc; reflexivity |].
      rewrite !count_events_cons, Hty2.
      destruct (string_dec "OUTAGE_START" "OUTAGE_START"); [lia | contradiction].
Qed.

End Hysteresis.

(** X4: after any run that leaves the monitor online, a sequence of
    [record_check] calls logs no OUTAGE_START if and only if no streak of
    consecutive failures, counted with the failures already pending, reaches
    FAILURE_THRESHOLD; in that case the monitor stays online, no OUTAGE_END
    is logged and no outage record is added, however many isolated failures
    the sequence holds. *)
Theorem outage_starts_iff_streak_reaches_threshold :
  forall (F : FloatModel) (e : Env) (l : list action) (cs : list Check),
    let w := world_of (run e l) in
    is_online (monitor w) = true ->
    exists w',
      do_checks cs w = Returns tt w' /\
      (below_threshold (consecutive_failures (monitor w)) cs = true <->
       count_events "OUTAGE_START" (new_events w w') = 0%nat) /\
      (below_threshold (consecutive_failures (monitor w)) cs = true ->
       is_online (monitor w') = true /\
       count_events "OUTAGE_END" (new_events w w') = 0%nat /\
       outages (monitor w') = outages (monitor w)).
Proof.
  intros F e l cs. destruct (run_sound e l) as (w & -> & Hw).
  change (world_of (Returns tt w)) with w. cbv zeta. intros E.
  destruct (below_threshold (consecutive_failures (monitor w)) cs) eqn:Hq.
  - destruct (quiet_checks cs w Hw E Hq) as (w' & rows & Hrun & Hev & Hn1 & Hn2 & E' & Hos & _).
    exists w'. split; [exact Hrun |]. rewrite (new_events_app _ _ _ Hev).
    split; [split; intros _; [exact Hn1 | reflexivity] |].
    intros _. repeat split; assumption.
  - destruct (loud_checks cs w Hw E Hq) as (w' & rows & Hrun & Hev & Hn).
    exists w'. split; [exact Hrun |]. rewrite (new_events_app _ _ _ Hev).
    split; [split; [discriminate | intros K; lia] |]. discriminate.
Qed.

(** X4 at a concrete input: successes with one failure, then two failures,
    in between. *)
Lemma outage_starts_iff_streak_reaches_threshold_witness :
  let F := grid_float in
  let w := world_of (run demo_env []) in
  is_online (monitor w) = true /\
  below_threshold (consecutive_failures (monitor w)) flaky_checks = true /\
  exists w',
    do_checks flaky_checks w = Returns tt w' /\
    count_events "OUTAGE_START" (new_events w w') = 0%nat /\
    outages (monitor w') = [].
Proof.
  intros F w. subst w.
  split; [reflexivity |]. split; [reflexivity |].
  destruct (outage_starts_iff_streak_reaches_threshold F demo_env [] flaky_checks eq_refl)
    as (w' & Hrun & Hiff & Hquiet).
  exists w'. split; [exact Hrun |].
  split; [apply Hiff; reflexivity |].
  destruct (Hquiet eq_refl) as (_ & _ & Hos). rewrite Hos. reflexivity.
Defined.

(** ** The log agrees with the state *)

Section LogAgrees.
Context {F : FloatModel}.

Lemma closed_outages_app l o :
  closed_outages (l ++ [o]) = closed_outages l ++ (if o_ongoing o then [] else [o]).
Proof.
  unfold closed_outages. rewrite filter_app. cbn [filter].
  destruct (o_ongoing o); reflexivity.
Qed.

Lemma check_step_log_counts w target r test_type details success w' :
  log_counts_ok w -> check_step w target r test_type details success w' ->
  log_counts_ok w'.
Proof.
  unfold log_counts_ok. intros (H0 & H1 & H2) Hstep.
  destruct Hstep as [E | t0 E C | T | E T]; project;
    rewrite !count_events_app, !count_events_cons; cbn; lia.
Qed.

Lemma check_step_log_outages w target r test_type details success w' :
  log_outages_ok w -> check_step w target r test_type details success w' ->
  log_outages_ok w'.
Proof.
  unfold log_outages_ok. intros (H0 & H1 & H2 & H3) Hstep.
  destruct Hstep as [E | t0 E C | T | E T]; project;
    rewrite ?closed_outages_app, ?filter_app, ?length_app, !count_events_app,
      !count_events_cons; cbn.
  - rewrite E in H1. lia.
  - rewrite E in H1. lia.
  - destruct (is_online (monitor w)); lia.
  - rewrite E in H1. lia.
Qed.

Lemma run_log_agrees e l :
  exists w, run e l = Returns tt w /\ log_counts_ok w /\ log_outages_ok w.
Proof.
  destruct (run_invariant (fun w => log_counts_ok w /\ log_outages_ok w)) with (e := e) (l := l)
    as (w & Hrun & _ & H).
  - intros w target r test_type details success w' _ [H1 H2] Hstep.
    split; [eapply check_step_log_counts | eapply check_step_log_outages]; eassumption.
  - intros w p H. exact H.
  - intros w _ [H1 H2].
    unfold log_counts_ok, log_outages_ok, after_report, monitor_at_report in *. project.
    destruct (negb (is_online (monitor w))), (current_outage_start (monitor w));
      unfold set_outages; project; rewrite ?closed_outages_app; cbn [o_ongoing ongoing_record];
      rewrite ?app_nil_r; split; assumption.
  - split; unfold log_counts_ok, log_outages_ok; cbn; repeat split; reflexivity.
  - exists w. split; [exact Hrun | exact H].
Qed.

End LogAgrees.

(** X5: after any run the log holds exactly one MONITOR_START row, as many
    SUCCESS rows as [successful_checks] and as many FAILURE rows as
    [failed_checks]: every call of [record_check] is logged once. *)
Theorem log_rows_match_counters :
  forall (F : FloatModel) (e : Env) (l : list action),
    let w := world_of (run e l) in
    count_events "MONITOR_START" (events w) = 1%nat /\
    Z.of_nat (count_events "SUCCESS" (events w)) = successful_checks (monitor w) /\
    Z.of_nat (count_events "FAILURE" (events w)) = failed_checks (monitor w).
Proof.
  intros F e l. destruct (run_log_agrees e l) as (w & -> & H & _). exact H.
Qed.

(** X6: after any run the log holds one OUTAGE_END row per outage record
    closed by a transition, and one OUTAGE_START row more than that exactly
    when the monitor is offline; the console shows one detection notice per
    OUTAGE_START and one restoration notice per OUTAGE_END. *)
Theorem log_rows_match_outages :
  forall (F : FloatModel) (e : Env) (l : list action),
    let w := world_of (run e l) in
    count_events "OUTAGE_END" (events w) =
      List.length (closed_outages (outages (monitor w))) /\
    count_events "OUTAGE_START" (events w) =
      (count_events "OUTAGE_END" (events w) + if is_online (monitor w) then 0 else 1)%nat /\
    List.length (filter is_detected (console w)) = count_events "OUTAGE_START" (events w) /\
    List.length (filter is_restored (console w)) = count_events "OUTAGE_END" (events w).
Proof.
  intros F e l. destruct (run_log_agrees e l) as (w & -> & _ & H). exact H.
Qed.

(** ** Outage records and log rows in the order of time *)

Section InOrder.
Context {F : FloatModel}.

Lemma latest_app from l x : latest from (l ++ [x]) = x.
Proof. unfold latest. apply last_last. Qed.

Lemma last_default (l : list datetime) x a b : last (x :: l) a = last (x :: l) b.
Proof.
  revert x. induction l as [| z l IH]; intros x; [reflexivity |].
  change (last (x :: z :: l) a) with (last (z :: l) a).
  change (last (x :: z :: l) b) with (last (z :: l) b).
  apply IH.
Qed.

Lemma latest_cons from y l : latest from (y :: l) = latest y l.
Proof.
  unfold latest. destruct l as [| z l]; [reflexivity |].
  change (last (y :: z :: l) from) with (last (z :: l) from).
  apply last_default.
Qed.

Lemma ascending_app from l x :
  ascending from (l ++ [x]) <-> ascending from l /\ latest from l <= x.
Proof.
  revert from. induction l as [| y l IH]; intros from.
  - cbn. tauto.
  - cbn [app ascending]. rewrite IH, latest_cons. tauto.
Qed.

Lemma ascending_app2 from l x y :
  ascending from l -> latest from l <= x -> x <= y -> ascending from (l ++ [x; y]).
Proof.
  intros Hl Hx Hy. change [x; y] with ([x] ++ [y]). rewrite app_assoc.
  apply ascending_app. split; [apply ascending_app; split; assumption |].
  rewrite latest_app. exact Hy.
Qed.

Lemma latest_app2 from l x y : latest from (l ++ [x; y]) = y.
Proof. change [x; y] with ([x] ++ [y]). rewrite app_assoc. apply latest_app. Qed.

Lemma outage_bounds_app l o :
  outage_bounds (l ++ [o]) = outage_bounds l ++ [o_start o; o_end o].
Proof. unfold outage_bounds. rewrite flat_map_app. cbn. reflexivity. Qed.

(** Every record is an interval with its length. *)
Lemma check_step_durations w target r test_type details success w' :
  Forall (fun o => o_duration o = o_end o - o_start o) (outages (monitor w)) ->
  check_step w target r test_type details success w' ->
  Forall (fun o => o_duration o = o_end o - o_start o) (outages (monitor w')).
Proof.
  intros H Hstep. destruct Hstep as [E | t0 E C | T | E T]; project; try exact H.
  apply Forall_app. split; [exact H |]. constructor; [reflexivity | constructor].
Qed.

Lemma run_durations e l :
  exists w,
    run e l = Returns tt w /\
    Forall (fun o => o_duration o = o_end o - o_start o) (outages (monitor w)).
Proof.
  destruct (run_invariant
              (fun w => Forall (fun o => o_duration o = o_end o - o_start o)
                          (outages (monitor w)))) with (e := e) (l := l)
    as (w & Hrun & _ & H).
  - intros w target r test_type details success w' _ H Hstep.
    eapply check_step_durations; eassumption.
  - intros w p H. exact H.
  - intros w _ H. unfold after_report, monitor_at_report. project.
    destruct (negb (is_online (monitor w))), (current_outage_start (monitor w));
      unfold set_outages; project; try exact H.
    apply Forall_app. split; [exact H |]. constructor; [reflexivity | constructor].
  - constructor.
  - exists w. split; assumption.
Qed.

Lemma check_step_outages_in_order w target r test_type details success w' :
  monotone (wall_clock (env w)) -> sound (monitor w) ->
  outages_in_order w -> check_step w target r test_type details success w' ->
  outages_in_order w'.
Proof.
  intros Hmono [_ Ho] [Hasc Hcur] Hstep. unfold outages_in_order in *.
  destruct Hstep as [E | t0 E C | T | E T]; project; cbv zeta in *.
  - split; [exact Hasc |].
    rewrite (online_unset _ Ho E) in *. intros i Hi. apply Hcur. lia.
  - rewrite C in Hcur. destruct Hcur as [Hbefore Hafter].
    rewrite closed_outages_app. cbn [o_ongoing]. rewrite outage_bounds_app. project.
    split.
    + apply ascending_app2; [exact Hasc | exact Hbefore |]. apply Hafter. lia.
    + intros i Hi. rewrite latest_app2. apply Hmono. lia.
  - split; [exact Hasc |].
    destruct (current_outage_start (monitor w)).
    + split; [apply Hcur |]. intros i Hi. apply Hcur. lia.
    + intros i Hi. apply Hcur. lia.
  - rewrite (online_unset _ Ho E) in Hcur.
    split; [exact Hasc |]. split; [apply Hcur; lia |].
    intros i Hi. apply Hmono. lia.
Qed.

Lemma check_step_log_in_order w target r test_type details success w' :
  monotone (wall_clock (env w)) ->
  log_in_order w -> check_step w target r test_type details success w' ->
  log_in_order w'.
Proof.
  intros Hmono [Hasc Hnext] Hstep. unfold log_in_order in *.
  destruct Hstep as [E | t0 E C | T | E T]; project; cbv zeta in *;
    rewrite map_app; cbn [map row_timestamp].
  - split; [apply ascending_app; split; [exact Hasc | apply Hnext; lia] |].
    intros i Hi. rewrite latest_app. apply Hmono. lia.
  - split; [apply ascending_app2; [exact Hasc | apply Hnext; lia | apply Hmono; lia] |].
    intros i Hi. rewrite latest_app2. apply Hmono. lia.
  - split; [apply ascending_app; split; [exact Hasc | apply Hnext; lia] |].
    intros i Hi. rewrite latest_app. apply Hmono. lia.
  - split; [apply ascending_app2; [exact Hasc | apply Hnext; lia | apply Hmono; lia] |].
    intros i Hi. rewrite latest_app2. apply Hmono. lia.
Qed.

Lemma run_in_order e l :
  monotone (wall_clock e) ->
  exists w, run e l = Returns tt w /\ outages_in_order w /\ log_in_order w.
Proof.
  intros Hmono.
  destruct (run_invariant
              (fun w => env w = e /\ outages_in_order w /\ log_in_order w))
    with (e := e) (l := l) as (w & Hrun & _ & _ & H).
  - intros w target r test_type details success w' Hw (He & H1 & H2) Hstep.
    assert (monotone (wall_clock (env w))) as Hm by (rewrite He; exact Hmono).
    split; [| split].
    + destruct (check_step_continues _ _ _ _ _ _ _ Hstep) as (He' & _). congruence.
    + eapply check_step_outages_in_order; eassumption.
    + eapply check_step_log_in_order; eassumption.
  - intros w p H. exact H.
  - intros w _ (He & [Hasc Hcur] & [Hlog Hnext]).
    unfold outages_in_order, log_in_order, after_report, monitor_at_report in *. project.
    split; [exact He |].
    destruct (negb (is_online (monitor w))), (current_outage_start (monitor w)) eqn:C;
      unfold set_outages; project; rewrite ?closed_outages_app; cbn [o_ongoing ongoing_record];
      rewrite ?app_nil_r, ?C; cbv zeta in *.
    all: split; [split; [exact Hasc |] | split; [exact Hlog |]].
    all: try (intros i Hi; first [apply Hnext | apply Hcur]; lia).
    all: split; [apply Hcur | intros i Hi; apply Hcur; lia].
  - split; [reflexivity |]. split; split; cbn.
    + exact I.
    + intros i Hi. apply Hmono. lia.
    + split; [apply Hmono; lia | exact I].
    + intros i Hi. apply Hmono. lia.
  - exists w. split; [exact Hrun | exact H].
Qed.

End InOrder.

(** X7: after any run, reports included, every outage record is an interval
    together with its length: [duration = end - start]. *)
Theorem every_outage_has_its_duration :
  forall (F : FloatModel) (e : Env) (l : list action),
    Forall (fun o => o_duration o = o_end o - o_start o)
      (outages (monitor (world_of (run e l)))).
Proof.
  intros F e l. destruct (run_durations e l) as (w & -> & H). exact H.
Qed.

(** X8: with a clock that never goes back, after any run the outages closed
    by a transition lie one after the other in the list: each starts no
    earlier than the monitoring started and than the one before it ended,
    and ends no earlier than it starts; an outage still open starts no
    earlier than the last closed one ended. *)
Theorem closed_outages_are_chronological :
  forall (F : FloatModel) (e : Env) (l : list action),
    monotone (wall_clock e) ->
    let m := monitor (world_of (run e l)) in
    let bounds := outage_bounds (closed_outages (outages m)) in
    ascending (start_time m) bounds /\
    forall outage_start,
      current_outage_start m = Some outage_start ->
      latest (start_time m) bounds <= outage_start.
Proof.
  intros F e l Hmono. destruct (run_in_order e l Hmono) as (w & -> & [Hasc Hcur] & _).
  change (world_of (Returns tt w)) with w. cbv zeta in *.
  split; [exact Hasc |]. intros t0 C. rewrite C in Hcur. apply Hcur.
Qed.

(** X8 at a concrete input: three closed outages and one still open. *)
Lemma closed_outages_are_chronological_witness :
  let F := grid_float in
  let l := [ACheck failed_check; ACheck failed_check; ACheck failed_check; ACheck good_check;
            ACheck failed_check; ACheck failed_check; ACheck failed_check; ACheck good_check;
            ARound; ARound; ACheck failed_check; ACheck failed_check; ACheck failed_check] in
  let m := monitor (world_of (run demo_env l)) in
  monotone (wall_clock demo_env) /\
  outage_bounds (closed_outages (outages m)) =
    [5000000; 7000000; 13000000; 15000000; 21000000; 23000000] /\
  ascending (start_time m) (outage_bounds (closed_outages (outages m))) /\
  current_outage_start m = Some 30000000.
Proof.
  intros F l m. subst l m.
  assert (monotone (wall_clock demo_env)) as Hmono
    by (intros i j H; unfold demo_env; cbn [wall_clock]; lia).
  split; [exact Hmono |]. split; [vm_compute; reflexivity |].
  split; [| vm_compute; reflexivity].
  pose proof (closed_outages_are_chronological F demo_env
    [ACheck failed_check; ACheck failed_check; ACheck failed_check; ACheck good_check;
     ACheck failed_check; ACheck failed_check; ACheck failed_check; ACheck good_check;
     ARound; ARound; ACheck failed_check; ACheck failed_check; ACheck failed_check]
    Hmono) as H.
  cbv zeta in H. destruct H as [H _]. exact H.
Defined.

(** X9: with a clock that never goes back, after any run the rows of the
    log are in the order of their timestamps, and none is stamped before
    the start of monitoring. *)
Theorem log_rows_are_chronological :
  forall (F : FloatModel) (e : Env) (l : list action),
    monotone (wall_clock e) ->
    let w := world_of (run e l) in
    ascending (start_time (monitor w)) (map row_timestamp (events w)).
Proof.
  intros F e l Hmono. destruct (run_in_order e l Hmono) as (w & -> & _ & [Hasc _]).
  exact Hasc.
Qed.

(** X9 at a concrete input. *)
Lemma log_rows_are_chronological_witness :
  let F := grid_float in
  let w := world_of (run demo_env [ACheck failed_check; ACheck good_check; ARound]) in
  monotone (wall_clock demo_env) /\
  map row_timestamp (events w) =
    [1000000; 2000000; 3000000; 4000000; 5000000; 6000000; 8000000; 10000000; 11000000] /\
  ascending (start_time (monitor w)) (map row_timestamp (events w)).
Proof.
  intros F w. subst w.
  assert (monotone (wall_clock demo_env)) as Hmono
    by (intros i j H; unfold demo_env; cbn [wall_clock]; lia).
  split; [exact Hmono |]. split; [vm_compute; reflexivity |].
  pose proof (log_rows_are_chronological F demo_env
    [ACheck failed_check; ACheck good_check; ARound] Hmono) as H.
  cbv zeta in H. exact H.
Defined.

(** ** What a round leaves behind *)

Section RoundEffect.
Context {F : FloatModel}.

Lemma logged_probes_app rows more :
  logged_probes (rows ++ more) = logged_probes rows ++ logged_probes more.
Proof. unfold logged_probes. rewrite filter_app, map_app. reflexivity. Qed.

(** One call logs one check row, with the target and the test type it was
    given, counts one check, and leaves probing alone. *)
Lemma check_step_effect w target r test_type details success w' :
  check_step w target r test_type details success w' ->
  env w' = env w /\ probes w' = probes w /\ probe_trace w' = probe_trace w /\
  (exists rows,
      events w' = events w ++ rows /\ logged_probes rows = [mkProbe test_type target]) /\
  total_checks (monitor w') = total_checks (monitor w) + 1 /\
  (if success then is_online (monitor w') = true
   else consecutive_failures (monitor w') = consecutive_failures (monitor w) + 1 /\
        (is_online (monitor w) = false -> is_online (monitor w') = false)).
Proof.
  intros Hstep.
  destruct Hstep as [E | t0 E C | T | E T]; project;
    (split; [reflexivity |]); (split; [reflexivity |]); (split; [reflexivity |]);
    (split; [eexists; split; [reflexivity | reflexivity] |]);
    (split; [reflexivity |]); try reflexivity.
  - split; [reflexivity | intros H; exact H].
  - split; [reflexivity | intros H; congruence].
Qed.

Lemma ping_loop_effect targets :
  forall results w,
    sound (monitor w) ->
    let replies := replies_from (fun n t => replied (ping_reply (env w) n t)) (probes w) targets in
    exists w',
      ping_loop targets results w = Returns (results ++ asked replies) w' /\
      sound (monitor w') /\
      loop_effect "ICMP_PING" targets replies w w'.
Proof.
  induction targets as [| target rest IH]; intros results w Hw replies.
  - exists w. subst replies. cbn [ping_loop replies_from asked]. rewrite app_nil_r.
    split; [reflexivity |]. split; [exact Hw |]. unfold loop_effect. cbn.
    rewrite Nat.add_0_r, !app_nil_r, !Z.add_0_r.
    repeat split; try reflexivity; try discriminate.
    + exists []. rewrite app_nil_r. split; reflexivity.
    + intros K; exact K.
  - subst replies. cbn [ping_loop replies_from].
    erewrite bind_returns by apply ping_host_run.
    set (reply := match ping_reply (env w) (probes w) target with
                  | Replied latency => (true, latency)
                  | NoReply => (false, None)
                  end).
    assert (fst reply = replied (ping_reply (env w) (probes w) target)) as Hreply
      by (unfold reply; destruct (ping_reply (env w) (probes w) target); reflexivity).
    destruct (record_check_step (probed w (mkProbe "ICMP_PING" target)) (fst reply) target
                (snd reply) "ICMP_PING" "" (proj2 Hw)) as (w1 & Hrun & Hstep).
    pose proof (check_step_sound (probed w (mkProbe "ICMP_PING" target))
                  _ _ _ _ _ _ Hw Hstep) as Hw1.
    destruct (check_step_effect _ _ _ _ _ _ _ Hstep)
      as (Henv & Hp & Htr & (rows & Hev & Hlog) & Htc & Hres).
    cbn [probed env probes probe_trace events monitor] in Henv, Hp, Htr, Hev, Htc, Hres.
    erewrite bind_returns by exact Hrun.
    rewrite <- Hreply. destruct (fst reply) eqn:Hs; cbn [asked pinged].
    + exists w1. split; [reflexivity |]. split; [exact Hw1 |].
      unfold loop_effect. cbn [List.length map any existsb orb asked pinged app].
      split; [exact Henv |]. split; [rewrite Hp; lia |]. split; [exact Htr |].
      split; [exists rows; split; assumption |].
      split; [rewrite Htc; reflexivity |].
      split; [intros _; exact Hres | discriminate].
    + unfold time_sleep. erewrite bind_returns by reflexivity.
      destruct (IH (results ++ [false]) w1 Hw1)
        as (w' & Hrun' & Hw' & Henv' & Hp' & Htr' & (rows' & Hev' & Hlog') & Htc' & Hon' & Hoff').
      rewrite Henv, Hp in Hrun', Hp', Htr', Hlog', Htc', Hon', Hoff'.
      destruct Hres as [Hcf Hstay].
      exists w'. split; [rewrite Hrun', <- app_assoc; reflexivity |].
      split; [exact Hw' |].
      unfold loop_effect. cbn [List.length map any existsb orb asked pinged app].
      split; [congruence |]. split; [rewrite Hp'; lia |].
      split; [rewrite Htr', Htr, <- app_assoc; reflexivity |].
      split.
      { exists (rows ++ rows'). split; [rewrite Hev', Hev, <- app_assoc; reflexivity |].
        rewrite logged_probes_app, Hlog, Hlog'. reflexivity. }
      split; [rewrite Htc', Htc; lia |].
      split; [exact Hon' |].
      intros Hnone. destruct (Hoff' Hnone) as [Hcf' Hstay'].
      split; [rewrite Hcf', Hcf; lia |]. intros H. apply Hstay', Hstay, H.
Qed.

Lemma dns_loop_effect domains :
  forall results w,
    sound (monitor w) ->
    let lookups := replies_from (dns_reply (env w)) (probes w) domains in
    exists w',
      dns_loop domains results w = Returns (results ++ asked lookups) w' /\
      sound (monitor w') /\
      loop_effect "DNS_RESOLUTION" domains lookups w w'.
Proof.
  induction domains as [| domain rest IH]; intros results w Hw lookups.
  - exists w. subst lookups. cbn [dns_loop replies_from asked]. rewrite app_nil_r.
    split; [reflexivity |]. split; [exact Hw |]. unfold loop_effect. cbn.
    rewrite Nat.add_0_r, !app_nil_r, !Z.add_0_r.
    repeat split; try reflexivity; try discriminate.
    + exists []. rewrite app_nil_r. split; reflexivity.
    + intros K; exact K.
  - subst lookups. cbn [dns_loop replies_from].
    erewrite bind_returns by apply test_dns_resolution_run.
    destruct (record_check_step (probed w (mkProbe "DNS_RESOLUTION" domain))
                (dns_reply (env w) (probes w) domain) domain None "DNS_RESOLUTION" ""
                (proj2 Hw)) as (w1 & Hrun & Hstep).
    pose proof (check_step_sound (probed w (mkProbe "DNS_RESOLUTION" domain))
                  _ _ _ _ _ _ Hw Hstep) as Hw1.
    destruct (check_step_effect _ _ _ _ _ _ _ Hstep)
      as (Henv & Hp & Htr & (rows & Hev & Hlog) & Htc & Hres).
    cbn [probed env probes probe_trace events monitor] in Henv, Hp, Htr, Hev, Htc, Hres.
    erewrite bind_returns by exact Hrun.
    destruct (dns_reply (env w) (probes w) domain) eqn:Hs; cbn [asked pinged].
    + exists w1. split; [reflexivity |]. split; [exact Hw1 |].
      unfold loop_effect. cbn [List.length map any existsb orb asked pinged app].
      split; [exact Henv |]. split; [rewrite Hp; lia |]. split; [exact Htr |].
      split; [exists rows; split; assumption |].
      split; [rewrite Htc; reflexivity |].
      split; [intros _; exact Hres | discriminate].
    + unfold time_sleep. erewrite bind_returns by reflexivity.
      destruct (IH (results ++ [false]) w1 Hw1)
        as (w' & Hrun' & Hw' & Henv' & Hp' & Htr' & (rows' & Hev' & Hlog') & Htc' & Hon' & Hoff').
      rewrite Henv, Hp in Hrun', Hp', Htr', Hlog', Htc', Hon', Hoff'.
      destruct Hres as [Hcf Hstay].
      exists w'. split; [rewrite Hrun', <- app_assoc; reflexivity |].
      split; [exact Hw' |].
      unfold loop_effect. cbn [List.length map any existsb orb asked pinged app].
      split; [congruence |]. split; [rewrite Hp'; lia |].
      split; [rewrite Htr', Htr, <- app_assoc; reflexivity |].
      split.
      { exists (rows ++ rows'). split; [rewrite Hev', Hev, <- app_assoc; reflexivity |].
        rewrite logged_probes_app, Hlog, Hlog'. reflexivity. }
      split; [rewrite Htc', Htc; lia |].
      split; [exact Hon' |].
      intros Hnone. destruct (Hoff' Hnone) as [Hcf' Hstay'].
      split; [rewrite Hcf', Hcf; lia |]. intros H. apply Hstay', Hstay, H.
Qed.

End RoundEffect.

Section RoundOutcome.
Context {F : FloatModel}.

Lemma asked_length replies :
  (List.length (asked replies) <= List.length replies)%nat /\
  (replies <> [] -> 1 <= List.length (asked replies))%nat.
Proof.
  induction replies as [| r more [IH _]]; [split; [reflexivity | contradiction] |].
  destruct r; cbn; split; intros; lia.
Qed.

Lemma round_failures_ok w :
  sound (monitor w) -> failures_ok (monitor w) ->
  exists online w',
    perform_connectivity_test w = Returns online w' /\
    sound (monitor w') /\ failures_ok (monitor w').
Proof.
  intros Hw Hf. apply (invariant_round (fun w => failures_ok (monitor w))).
  - intros w0 target r test_type details success w' _ H Hstep.
    eapply check_step_failures_ok; eassumption.
  - intros w0 p H. exact H.
  - split; assumption.
Qed.

(** The whole round: what it returns, what it probes and logs, and where it
    leaves the monitor. *)
Lemma round_effect w :
  sound (monitor w) -> failures_ok (monitor w) ->
  exists online w',
    perform_connectivity_test w = Returns online w' /\
    is_online (monitor w') = online /\
    logged_probes (new_events w w') = new_probes w w' /\
    total_checks (monitor w') =
      total_checks (monitor w) + Z.of_nat (List.length (new_probes w w')) /\
    (1 <= List.length (new_probes w w') <= 5)%nat.
Proof.
  intros Hw Hf.
  destruct (round_failures_ok w Hw Hf) as (b & w'' & Hround & _ & Hf'').
  revert Hround. unfold perform_connectivity_test.
  destruct (ping_loop_effect PING_TARGETS [] w Hw)
    as (w1 & Hrun1 & Hw1 & Henv1 & Hp1 & Htr1 & (rows1 & Hev1 & Hlog1) & Htc1 & Hon1 & Hoff1).
  cbn [app] in Hrun1.
  set (pings := replies_from (fun n t => replied (ping_reply (env w) n t)) (probes w)
                  PING_TARGETS) in *.
  assert (List.length pings = 3%nat) as Hlen by apply replies_from_length.
  assert (List.length (pinged pings PING_TARGETS) = List.length (asked pings)) as Hpl
    by (apply pinged_length; rewrite Hlen; reflexivity).
  destruct (asked_length pings) as [Hle Hge].
  assert (1 <= List.length (asked pings))%nat as Hge'
    by (apply Hge; intros K; rewrite K in Hlen; discriminate).
  erewrite bind_returns by exact Hrun1. rewrite any_asked.
  destruct (any pings) eqn:Hany; cbn [negb].
  - erewrite bind_returns by reflexivity. rewrite any_asked, Hany.
    intros [= <- <-]. exists true, w1. split; [reflexivity |].
    split; [apply Hon1; reflexivity |].
    rewrite (new_events_app _ _ _ Hev1), (new_probes_app _ _ _ Htr1).
    split; [exact Hlog1 |]. rewrite length_map. split; [exact Htc1 |].
    rewrite Hpl. lia.
  - destruct (dns_loop_effect (firstn 2 DNS_TEST_DOMAINS) (asked pings) w1 Hw1)
      as (w2 & Hrun2 & Hw2 & Henv2 & Hp2 & Htr2 & (rows2 & Hev2 & Hlog2) & Htc2 & Hon2 & Hoff2).
    set (lookups := replies_from (dns_reply (env w1)) (probes w1) (firstn 2 DNS_TEST_DOMAINS))
      in *.
    assert (List.length lookups = 2%nat) as Hlen2 by apply replies_from_length.
    assert (List.length (pinged lookups (firstn 2 DNS_TEST_DOMAINS))
            = List.length (asked lookups)) as Hpl2
      by (apply pinged_length; rewrite Hlen2; reflexivity).
    destruct (asked_length lookups) as [Hle2 Hge2].
    assert (1 <= List.length (asked lookups))%nat as Hge2'
      by (apply Hge2; intros K; rewrite K in Hlen2; discriminate).
    erewrite bind_returns by exact Hrun2.
    unfold ret. rewrite any_app, !any_asked, Hany. cbn [orb].
    intros [= <- <-]. exists (any lookups), w2. split; [reflexivity |].
    split.
    + destruct (any lookups) eqn:Hany2; [apply Hon2; reflexivity |].
      destruct (Hoff2 eq_refl) as [Hcf2 _]. destruct (Hoff1 eq_refl) as [Hcf1 _].
      destruct Hf as (H0 & _). destruct Hf'' as (_ & Hon'' & _).
      destruct (is_online (monitor w2)); [| reflexivity].
      specialize (Hon'' eq_refl). unfold FAILURE_THRESHOLD in Hon''.
      rewrite Hcf2, Hcf1 in Hon''. cbn in Hon''. lia.
    + erewrite new_events_app by (rewrite Hev2, Hev1, <- app_assoc; reflexivity).
      erewrite new_probes_app by (rewrite Htr2, Htr1, <- app_assoc; reflexivity).
      split; [rewrite logged_probes_app, Hlog1, Hlog2; reflexivity |].
      rewrite length_app, !length_map, Hpl, Hpl2.
      split; [rewrite Htc2, Htc1; lia | lia].
Qed.

End RoundOutcome.

(** X10: after any run, the value a probing round returns is the
    classification it leaves: the round returns True exactly when the
    monitor is online when it ends. *)
Theorem round_returns_the_classification :
  forall (F : FloatModel) (e : Env) (l : list action),
    exists online w',
      perform_connectivity_test (world_of (run e l)) = Returns online w' /\
      is_online (monitor w') = online.
Proof.
  intros F e l. destruct (run_failures_ok e l) as (w & -> & Hw & Hf).
  destruct (round_effect w Hw Hf) as (online & w' & Hrun & Hon & _).
  exists online, w'. split; assumption.
Qed.

(** X11: after any run, a round makes between one and five probes, calls
    [record_check] once for each, and logs them in the order they were
    made: the SUCCESS and FAILURE rows it appends carry the test types and
    targets of the probes, and [total_checks] grows by their number. *)
Theorem round_logs_every_probe :
  forall (F : FloatModel) (e : Env) (l : list action),
    let w := world_of (run e l) in
    exists online w',
      perform_connectivity_test w = Returns online w' /\
      logged_probes (new_events w w') = new_probes w w' /\
      total_checks (monitor w') =
        total_checks (monitor w) + Z.of_nat (List.length (new_probes w w')) /\
      (1 <= List.length (new_probes w w') <= 5)%nat.
Proof.
  intros F e l. destruct (run_failures_ok e l) as (w & -> & Hw & Hf).
  change (world_of (Returns tt w)) with w. cbv zeta.
  destruct (round_effect w Hw Hf) as (online & w' & Hrun & _ & H).
  exists online, w'. split; assumption.
Qed.
